(** * Binary-Dataset-Splitter: a Rocq model of [binary_dataset_splitter.py]

    The script recreates an output tree, partitions the files of two class
    directories into train/test/validation by fixed ratios after a random
    shuffle, copies them, optionally merges augmented samples into train,
    and writes one CSV manifest per (class, split).

    The model follows the script function by function:
    - Python floats are IEEE binary64 numbers ([spec_float] with [prec = 53],
      [emax = 1024]); ints are [Z];
    - the file system is an association list from paths to nodes, kept in
      directory-listing order, so that [glob] order is part of the state;
    - every function that touches the disk or the random generator lives in
      a state-and-exception monad [M]: the state survives an exception, as a
      disk does;
    - [random.shuffle] is the Fisher-Yates loop of the CPython library, fed
      by a tape of raw random numbers.
    Console output ([print]) is not modelled. *)

From Stdlib Require Import ZArith QArith Qabs Qround List String Ascii Bool Lia Permutation.
From Stdlib Require Import DecimalString DecimalNat DecimalZ FinFun.
From Stdlib Require Import Floats.SpecFloat.
Import ListNotations.
Local Open Scope Z_scope.

(** ** Exceptions and results *)

Inductive exn : Type :=
| AssertionError
| FileNotFoundError
| FileExistsError
| NotADirectoryError
| IsADirectoryError
| SameFileError
| IndexError
| KeyError
| OverflowError
| ValueError
| OSError.

Inductive result (A : Type) : Type :=
| Ok (a : A)
| Raise (e : exn).
Arguments Ok {A} a.
Arguments Raise {A} e.

Definition exn_eqb (a b : exn) : bool :=
  match a, b with
  | AssertionError, AssertionError | FileNotFoundError, FileNotFoundError
  | FileExistsError, FileExistsError | NotADirectoryError, NotADirectoryError
  | IsADirectoryError, IsADirectoryError | SameFileError, SameFileError
  | IndexError, IndexError | KeyError, KeyError | OverflowError, OverflowError
  | ValueError, ValueError | OSError, OSError => true
  | _, _ => false
  end.

(** Pure computations that may raise. *)
Definition bind_result {A B : Type} (r : result A) (k : A -> result B) : result B :=
  match r with
  | Ok a => k a
  | Raise e => Raise e
  end.

Notation "x <-- r ;;; k" := (bind_result r (fun x => k))
  (at level 100, r at next level, right associativity).

(** ** Python floats *)

Module PyFloat.

Definition prec : Z := 53.
Definition emax : Z := 1024.
Definition float : Type := spec_float.

Definition add : float -> float -> float := SFadd prec emax.
Definition mul : float -> float -> float := SFmul prec emax.
Definition div : float -> float -> float := SFdiv prec emax.
Definition eqb : float -> float -> bool := SFeqb.

(** A decimal literal [p/q] (with [q] a power of ten) denotes the double
    nearest to it: one correctly rounded division. *)
Definition literal (p q : positive) : float :=
  div (S754_finite false p 0) (S754_finite false q 0).

Definition one : float := S754_finite false (2 ^ 52) (-52).

Definition is_finite (x : float) : bool :=
  match x with
  | S754_zero _ | S754_finite _ _ _ => true
  | _ => false
  end.

(** The exact value of a finite float; 0 for infinities and NaN. *)
Definition F2Q (x : float) : Q :=
  match x with
  | S754_finite s m (Zneg p) => cond_Zopp s (Zpos m) # (2 ^ p)
  | S754_finite s m e => inject_Z (cond_Zopp s (Zpos m) * 2 ^ e)
  | _ => 0%Q
  end.

(** [int -> float] conversion ([PyLong_AsDouble]): correctly rounded, and
    an [OverflowError] when the int is too large for a double. *)
Definition of_int (n : Z) : result float :=
  match binary_normalize prec emax n 0 false with
  | S754_infinity _ => Raise OverflowError
  | y => Ok y
  end.

(** [float * int]: the int operand is converted first. *)
Definition mul_int (x : float) (n : Z) : result float :=
  y <-- of_int n ;;;
  Ok (mul x y).

(** [math.floor]: the largest int below; it refuses infinities and NaN. *)
Definition math_floor (x : float) : result Z :=
  match x with
  | S754_zero _ => Ok 0
  | S754_finite s m e => Ok (Z.shiftl (cond_Zopp s (Zpos m)) e)
  | S754_infinity _ => Raise OverflowError
  | S754_nan => Raise ValueError
  end.

(** The integer nearest to a rational, ties to the even one. *)
Definition round_half_even (q : Q) : Z :=
  let d := Zpos (Qden q) in
  let k := Qnum q / d in
  match 2 * (Qnum q mod d) ?= d with
  | Lt => k
  | Gt => k + 1
  | Eq => if Z.even k then k else k + 1
  end.

(** [round(x, ndigits)] for a float [x] and [ndigits >= 0]: the exact
    value of [x] is rounded half-even to [ndigits] decimals and the decimal
    obtained is read back as the nearest double (CPython goes through its
    correctly rounded [dtoa]/[strtod] pair). *)
Definition py_round (x : float) (ndigits : nat) : float :=
  match x with
  | S754_finite s _ _ =>
      let scale := Pos.of_nat (10 ^ ndigits) in
      match round_half_even (F2Q x * inject_Z (Zpos scale)) with
      | Z0 => S754_zero s
      | Zpos k => div (S754_finite false k 0) (S754_finite false scale 0)
      | Zneg k => div (S754_finite true k 0) (S754_finite false scale 0)
      end
  | _ => x
  end.

End PyFloat.

(** ** Settings: the module-level variables of the script *)

Record settings : Type := {
  TRAIN : PyFloat.float;
  TEST : PyFloat.float;
  VALIDATION : PyFloat.float;
  DATA_TYPE : string;
  RENAME_DATA : bool;
  INCLUDE_AUGMENTED_DATA_IN_TRAIN : bool
}.

(** The values the script ships with: [0.7], [0.2], [0.1], ["png"], [False],
    [True]. *)
Definition float_0_7 : PyFloat.float := Eval vm_compute in PyFloat.literal 7 10.
Definition float_0_2 : PyFloat.float := Eval vm_compute in PyFloat.literal 2 10.
Definition float_0_1 : PyFloat.float := Eval vm_compute in PyFloat.literal 1 10.

Definition shipped_settings : settings := {|
  TRAIN := float_0_7;
  TEST := float_0_2;
  VALIDATION := float_0_1;
  DATA_TYPE := "png";
  RENAME_DATA := false;
  INCLUDE_AUGMENTED_DATA_IN_TRAIN := true
|}.

(** The assertion at the top of the main block:
    [round(TRAIN+TEST+VALIDATION, 2) == 1.0]. *)
Definition settings_sum (cfg : settings) : PyFloat.float :=
  PyFloat.add (PyFloat.add (TRAIN cfg) (TEST cfg)) (VALIDATION cfg).

Definition check_settings (cfg : settings) : bool :=
  PyFloat.eqb (PyFloat.py_round (settings_sum cfg) 2) PyFloat.one.

(** ** Split counts (lines 167-177 of [split_data]) *)

(** The dictionaries [num] and [start_index] have the three split names as
    their keys. *)
Record per_split : Type := {
  at_train : Z;
  at_test : Z;
  at_validation : Z
}.

Definition compute_num (cfg : settings) (total_num_samples : Z) : result per_split :=
  x <-- PyFloat.mul_int (TRAIN cfg) total_num_samples ;;;
  num_train <-- PyFloat.math_floor x ;;;
  y <-- PyFloat.mul_int (TEST cfg) total_num_samples ;;;
  num_test <-- PyFloat.math_floor y ;;;
  Ok {| at_train := num_train;
        at_test := num_test;
        at_validation := total_num_samples - (num_train + num_test) |}.

Definition compute_start_index (num : per_split) : per_split :=
  {| at_train := 0;
     at_test := at_train num;
     at_validation := at_train num + at_test num |}.

(** ** Paths and the file system *)

(** A path is the list of its components below the directory the script
    runs in, so ["./"] is [[]] and [os.path.join] appends a component. The
    names the script joins are single components (fixed folder names, and
    names a listing returned); a name holding a separator, an empty name,
    [.] and [..] are outside the model. *)
Definition path : Type := list string.

Fixpoint path_eqb (p q : path) : bool :=
  match p, q with
  | [], [] => true
  | a :: p', b :: q' => String.eqb a b && path_eqb p' q'
  | _, _ => false
  end.

Definition os_path_join (p : path) (name : string) : path := p ++ [name].
Definition os_path_basename (p : path) : string := last p EmptyString.
Definition os_path_dirname (p : path) : path := removelast p.

(** [is_under d p]: [p] is [d] or lies below it. *)
Fixpoint is_under (d p : path) : bool :=
  match d, p with
  | [], _ => true
  | a :: d', b :: p' => String.eqb a b && is_under d' p'
  | _ :: _, [] => false
  end.

Inductive node : Type :=
| File (data : string)
| Dir.

(** The entries of the disk, in the order a directory listing yields them. *)
Definition filesystem : Type := list (path * node).

Fixpoint lookup (fs : filesystem) (p : path) : option node :=
  match fs with
  | [] => None
  | (q, n) :: rest => if path_eqb q p then Some n else lookup rest p
  end.

(** The working directory itself always exists. *)
Definition stat (fs : filesystem) (p : path) : option node :=
  match p with
  | [] => Some Dir
  | _ => lookup fs p
  end.

(** The names found in a directory, each once: an entry shadowed by an
    earlier one for the same path is not on the disk. *)
Definition entry_names (fs : filesystem) (d : path) : list string :=
  flat_map
    (fun entry : path * node =>
       match fst entry with
       | [] => []
       | p => if path_eqb (os_path_dirname p) d then [os_path_basename p] else []
       end)
    fs.

Definition listdir (fs : filesystem) (d : path) : list string :=
  nodup string_dec (entry_names fs d).

(** Create or replace one entry; a new entry goes to the end of the listing. *)
Fixpoint put (fs : filesystem) (p : path) (n : node) : filesystem :=
  match fs with
  | [] => [(p, n)]
  | (q, m) :: rest =>
      if path_eqb q p then (q, n) :: rest else (q, m) :: put rest p n
  end.

(** Remove an entry with everything below it. *)
Definition prune (fs : filesystem) (p : path) : filesystem :=
  filter (fun entry : path * node => negb (is_under p (fst entry))) fs.

(** Move an entry, with everything below it, to a new name. *)
Definition reroot (src dst p : path) : path := dst ++ skipn (List.length src) p.

Definition move (fs : filesystem) (src dst : path) : filesystem :=
  map (fun entry : path * node =>
         if is_under src (fst entry)
         then (reroot src dst (fst entry), snd entry)
         else entry)
      fs.

(** ** The world: disk, platform, random numbers, and a journal *)

Inductive os_kind : Type := Posix | Windows.

(** The journal records every change made to the disk, oldest first. *)
Inductive event : Type :=
| Rmtree (p : path)
| Mkdir (p : path)
| Rename (src dst : path)
| Copy (src dst : path)
| WriteFile (p : path).

Record world : Type := mkWorld {
  disk : filesystem;
  os_name : os_kind;
  random_tape : nat -> nat;
  random_pos : nat;
  journal : list event
}.

Definition commit (w : world) (fs : filesystem) (ev : event) : world :=
  {| disk := fs;
     os_name := os_name w;
     random_tape := random_tape w;
     random_pos := random_pos w;
     journal := journal w ++ [ev] |}.

(** State and exceptions: the world an exception leaves behind is kept. *)
Definition M (A : Type) : Type := world -> world * result A.

Definition ret {A : Type} (a : A) : M A := fun w => (w, Ok a).
Definition raise {A : Type} (e : exn) : M A := fun w => (w, Raise e).

Definition bind {A B : Type} (c : M A) (k : A -> M B) : M B :=
  fun w =>
    match c w with
    | (w', Ok a) => k a w'
    | (w', Raise e) => (w', Raise e)
    end.

Notation "x <- c ;; k" := (bind c (fun x => k))
  (at level 100, c at next level, right associativity).
Notation "c ;; k" := (bind c (fun _ => k))
  (at level 100, right associativity).

Definition lift {A : Type} (r : result A) : M A := fun w => (w, r).

(** [try: c except e: handler] *)
Definition try_except {A : Type} (c : M A) (e : exn) (handler : M A) : M A :=
  fun w =>
    match c w with
    | (w', Raise e') => if exn_eqb e' e then handler w' else (w', Raise e')
    | r => r
    end.

(** [for x in l: body] *)
Fixpoint for_each {A : Type} (l : list A) (body : A -> M unit) : M unit :=
  match l with
  | [] => ret tt
  | x :: rest => body x ;; for_each rest body
  end.

Definition py_assert (b : bool) : M unit :=
  if b then ret tt else raise AssertionError.

(** ** The library calls the script makes *)

(** [os.mkdir] *)
Definition os_mkdir (p : path) : M unit :=
  fun w =>
    match stat (disk w) p with
    | Some _ => (w, Raise FileExistsError)
    | None =>
        match stat (disk w) (os_path_dirname p) with
        | None => (w, Raise FileNotFoundError)
        | Some (File _) => (w, Raise NotADirectoryError)
        | Some Dir => (commit w (put (disk w) p Dir) (Mkdir p), Ok tt)
        end
    end.

(** [shutil.rmtree] *)
Definition shutil_rmtree (p : path) : M unit :=
  fun w =>
    match stat (disk w) p with
    | None => (w, Raise FileNotFoundError)
    | Some (File _) => (w, Raise NotADirectoryError)
    | Some Dir => (commit w (prune (disk w) p) (Rmtree p), Ok tt)
    end.

(** [fnmatch] for patterns built from literal characters, [*] and [?]
    (the script's patterns are ["*." + DATA_TYPE]). A character class
    [[...]] is read as literal characters here, and names are compared
    case-sensitively, as on POSIX; a statement that depends on which names
    match is made for POSIX and an extension without [*], [?] and [[]. *)
Fixpoint fnmatch (pat : string) : string -> bool :=
  match pat with
  | EmptyString =>
      fun name => match name with EmptyString => true | _ => false end
  | String c pat' =>
      if Ascii.eqb c "*" then
        fix star (name : string) : bool :=
          fnmatch pat' name
          || match name with
             | EmptyString => false
             | String _ name' => star name'
             end
      else if Ascii.eqb c "?" then
        fun name =>
          match name with
          | EmptyString => false
          | String _ name' => fnmatch pat' name'
          end
      else
        fun name =>
          match name with
          | EmptyString => false
          | String a name' => Ascii.eqb a c && fnmatch pat' name'
          end
  end.

(** A pattern that does not start with a dot never matches a hidden name. *)
Definition glob_match (pat name : string) : bool :=
  (prefix "." pat || negb (prefix "." name)) && fnmatch pat name.

(** [glob.glob(os.path.join(dir, pat))]: the entries of [dir] that match,
    in listing order; nothing when [dir] is not a directory. *)
Definition glob_list (fs : filesystem) (dir : path) (pat : string) : list path :=
  match stat fs dir with
  | Some Dir => map (os_path_join dir) (filter (glob_match pat) (listdir fs dir))
  | _ => []
  end.

Definition glob_glob (dir : path) (pat : string) : M (list path) :=
  fun w => (w, Ok (glob_list (disk w) dir pat)).

(** [os.rename]: Windows refuses an existing target; POSIX replaces a file
    by a file and an empty directory by a directory. *)
Definition os_rename (src dst : path) : M unit :=
  fun w =>
    let fs := disk w in
    match stat fs src with
    | None => (w, Raise FileNotFoundError)
    | Some s =>
        if is_under src dst && negb (path_eqb src dst) then (w, Raise OSError)
        else
          match stat fs dst with
          | Some t =>
              match os_name w with
              | Windows => (w, Raise FileExistsError)
              | Posix =>
                  if path_eqb src dst then (w, Ok tt)
                  else
                    match s, t with
                    | File _, Dir => (w, Raise IsADirectoryError)
                    | Dir, File _ => (w, Raise NotADirectoryError)
                    | Dir, Dir =>
                        match listdir fs dst with
                        | [] => (commit w (move (prune fs dst) src dst)
                                          (Rename src dst), Ok tt)
                        | _ :: _ => (w, Raise OSError)
                        end
                    | File _, File _ =>
                        (commit w (move (prune fs dst) src dst)
                                  (Rename src dst), Ok tt)
                    end
              end
          | None =>
              match stat fs (os_path_dirname dst) with
              | None => (w, Raise FileNotFoundError)
              | Some (File _) => (w, Raise NotADirectoryError)
              | Some Dir => (commit w (move fs src dst) (Rename src dst), Ok tt)
              end
          end
    end.

(** Opening [p] for writing and storing [data] in it. *)
Definition write_file (p : path) (data : string) (ev : event) : M unit :=
  fun w =>
    match stat (disk w) p with
    | Some Dir => (w, Raise IsADirectoryError)
    | _ =>
        match stat (disk w) (os_path_dirname p) with
        | None => (w, Raise FileNotFoundError)
        | Some (File _) => (w, Raise NotADirectoryError)
        | Some Dir => (commit w (put (disk w) p (File data)) ev, Ok tt)
        end
    end.

(** [shutil.copy(src, dst)]: into [dst] when it is a directory, keeping the
    file name. *)
Definition shutil_copy (src dst : path) : M unit :=
  fun w =>
    let target :=
      match stat (disk w) dst with
      | Some Dir => os_path_join dst (os_path_basename src)
      | _ => dst
      end in
    match stat (disk w) src with
    | None => (w, Raise FileNotFoundError)
    | Some s =>
        if path_eqb src target then (w, Raise SameFileError)
        else
          match s with
          | Dir => (w, Raise IsADirectoryError)
          | File data => write_file target data (Copy src target) w
          end
    end.

(** [random.shuffle]: [for i in reversed(range(1, len(x))): j = randbelow(i+1);
    x[i], x[j] = x[j], x[i]]. *)
Definition randbelow (n : nat) : M nat :=
  fun w =>
    ({| disk := disk w;
        os_name := os_name w;
        random_tape := random_tape w;
        random_pos := S (random_pos w);
        journal := journal w |},
     Ok (random_tape w (random_pos w) mod n)%nat).

Fixpoint set_nth {A : Type} (i : nat) (a : A) (x : list A) : list A :=
  match x, i with
  | [], _ => []
  | _ :: rest, O => a :: rest
  | b :: rest, S i' => b :: set_nth i' a rest
  end.

Definition swap {A : Type} (i j : nat) (x : list A) : list A :=
  match nth_error x i, nth_error x j with
  | Some a, Some b => set_nth i b (set_nth j a x)
  | _, _ => x
  end.

Fixpoint shuffle_from {A : Type} (i : nat) (x : list A) : M (list A) :=
  match i with
  | O => ret x
  | S i' =>
      j <- randbelow (S i) ;;
      shuffle_from i' (swap i j x)
  end.

Definition random_shuffle {A : Type} (x : list A) : M (list A) :=
  shuffle_from (List.length x - 1) x.

(** ** Python values *)

Definition len {A : Type} (l : list A) : Z := Z.of_nat (List.length l).

(** [l[i]], with the wrap-around of negative indices. *)
Definition py_index {A : Type} (l : list A) (i : Z) : result A :=
  let k := if i <? 0 then i + len l else i in
  if (0 <=? k) && (k <? len l) then
    match nth_error l (Z.to_nat k) with
    | Some a => Ok a
    | None => Raise IndexError
    end
  else Raise IndexError.

(** [range(a, b)] *)
Definition py_range (a b : Z) : list Z :=
  map (fun k : nat => a + Z.of_nat k) (seq 0 (Z.to_nat (b - a))).

(** [str(i)] for an int. *)
Definition str (i : Z) : string := NilEmpty.string_of_int (Z.to_int i).

(** A dictionary with string keys, as the script's [d]. *)
Definition dict : Type := list (string * path).

Fixpoint dict_get (d : dict) (key : string) : result path :=
  match d with
  | [] => Raise KeyError
  | (k, v) :: rest => if String.eqb k key then Ok v else dict_get rest key
  end.

Fixpoint dict_set (d : dict) (key : string) (v : path) : dict :=
  match d with
  | [] => [(key, v)]
  | (k, u) :: rest =>
      if String.eqb k key then (k, v) :: rest else (k, u) :: dict_set rest key v
  end.

(** [csv.writer(f, quoting=csv.QUOTE_ALL)]: every field between quotes, a
    quote inside a field doubled, fields joined by commas, rows ended by
    CR LF. *)
Definition quote_char : ascii := ascii_of_nat 34.
Definition line_terminator : string :=
  String (ascii_of_nat 13) (String (ascii_of_nat 10) EmptyString).

Fixpoint csv_escape (field : string) : string :=
  match field with
  | EmptyString => EmptyString
  | String c rest =>
      if Ascii.eqb c quote_char
      then String c (String c (csv_escape rest))
      else String c (csv_escape rest)
  end.

Definition csv_field (field : string) : string :=
  String quote_char (csv_escape field ++ String quote_char EmptyString).

Definition writerow (fields : list string) : string :=
  (String.concat "," (map csv_field fields) ++ line_terminator)%string.

(** ** The functions of the script *)

Definition class_types : list string := ["benign"; "malign"]%string.
Definition split_types : list string := ["train"; "test"; "validation"]%string.

Fixpoint create_folders_in_dir (main_dir : path) (folder_string_list : list string)
  : M unit :=
  match folder_string_list with
  | [] => ret tt
  | s :: rest =>
      try_except (os_mkdir (os_path_join main_dir s)) FileExistsError (ret tt) ;;
      create_folders_in_dir main_dir rest
  end.

(** The handler of [FileNotFoundError] is [break]: it leaves the loop. *)
Fixpoint delete_folders_in_dir (main_dir : path) (folder_string_list : list string)
  : M unit :=
  match folder_string_list with
  | [] => ret tt
  | s :: rest =>
      fun w =>
        match shutil_rmtree (os_path_join main_dir s) w with
        | (w', Ok _) => delete_folders_in_dir main_dir rest w'
        | (w', Raise FileNotFoundError) => (w', Ok tt)
        | (w', Raise e) => (w', Raise e)
        end
  end.

Definition set_up_folder_structure : M (path * path) :=
  let base_dir : path := [] in
  create_folders_in_dir base_dir ["code"; "split_samples"]%string ;;
  let data_dir := os_path_join base_dir "split_samples" in
  let split_folders := ["test"; "train"; "validation"]%string in
  create_folders_in_dir data_dir split_folders ;;
  for_each split_folders
    (fun s =>
       let sub_dir := os_path_join data_dir s in
       create_folders_in_dir sub_dir ["benign"; "malign"]%string) ;;
  ret (base_dir, data_dir).

Definition remove_split_folders : M unit :=
  let base_dir : path := [] in
  delete_folders_in_dir base_dir ["code"; "split_samples"]%string.

Definition data_pattern (cfg : settings) : string := ("*." ++ DATA_TYPE cfg)%string.

Definition rename_data_class (cfg : settings) (d : dict) (class_type : string)
  : M unit :=
  dir <- lift (dict_get d class_type) ;;
  sample_names <- glob_glob dir (data_pattern cfg) ;;
  let num_samples := len sample_names in
  try_except
    (for_each (py_range 0 num_samples)
       (fun i =>
          dir' <- lift (dict_get d class_type) ;;
          let new_name := os_path_join dir' (str i ++ "." ++ DATA_TYPE cfg)%string in
          old_name <- lift (py_index sample_names i) ;;
          os_rename old_name new_name))
    FileExistsError
    (ret tt).

Definition rename_data (cfg : settings) (d : dict) : M unit :=
  for_each class_types (rename_data_class cfg d).

Definition num_of (num : per_split) (split_type : string) : result Z :=
  if String.eqb split_type "train" then Ok (at_train num)
  else if String.eqb split_type "test" then Ok (at_test num)
  else if String.eqb split_type "validation" then Ok (at_validation num)
  else Raise KeyError.

Definition split_data_class (cfg : settings) (d : dict) (class_type : string)
  : M unit :=
  dir <- lift (dict_get d class_type) ;;
  sample_names <- glob_glob dir (data_pattern cfg) ;;
  let total_num_samples := len sample_names in
  num <- lift (compute_num cfg total_num_samples) ;;
  let start_index := compute_start_index num in
  sample_names <- random_shuffle sample_names ;;
  for_each split_types
    (fun split_type =>
       split_dir <- lift (dict_get d split_type) ;;
       let to_dir := os_path_join split_dir class_type in
       si <- lift (num_of start_index split_type) ;;
       n <- lift (num_of num split_type) ;;
       for_each (py_range si (si + n))
         (fun i =>
            sample_location <- lift (py_index sample_names i) ;;
            shutil_copy sample_location to_dir)).

Definition split_data (cfg : settings) (d : dict) : M unit :=
  for_each class_types (split_data_class cfg d).

Definition copy_augmented_class (cfg : settings) (d : dict) (class_type : string)
  : M unit :=
  dir <- lift (dict_get d class_type) ;;
  let augmented_data_path := os_path_join dir "augmented" in
  aug_sample_names <- glob_glob augmented_data_path (data_pattern cfg) ;;
  let total_num_aug_samples := len aug_sample_names in
  train_dir <- lift (dict_get d "train") ;;
  let to_dir := os_path_join train_dir class_type in
  for_each (py_range 0 total_num_aug_samples)
    (fun i =>
       sample_location <- lift (py_index aug_sample_names i) ;;
       shutil_copy sample_location to_dir).

Definition copy_augmented_data_to_train (cfg : settings) (d : dict) : M unit :=
  for_each class_types (copy_augmented_class cfg d).

(** The rows are written one by one to the file opened with ['w']; the
    file holds their concatenation. *)
Definition csv_text (sample_names : list path) : string :=
  String.concat EmptyString (map (fun sample_path => writerow [os_path_basename sample_path])
                        sample_names).

Definition generate_csv_file (cfg : settings) (d : dict) (split_type class_type : string)
  : M unit :=
  split_dir <- lift (dict_get d split_type) ;;
  let folder_path := os_path_join split_dir class_type in
  sample_names <- glob_glob folder_path (data_pattern cfg) ;;
  code_dir <- lift (dict_get d "code") ;;
  let csv_filename :=
    os_path_join code_dir (class_type ++ "_" ++ split_type ++ ".csv")%string in
  write_file csv_filename (csv_text sample_names) (WriteFile csv_filename).

Definition generate_csv_files (cfg : settings) (d : dict) : M unit :=
  for_each split_types
    (fun split_type =>
       for_each class_types (generate_csv_file cfg d split_type)).

(** The dictionary of folder paths the main block builds. *)
Definition folder_paths (base_dir data_dir : path) : dict :=
  let d : dict := [] in
  let d := dict_set d "benign" (os_path_join base_dir "all_benign") in
  let d := dict_set d "malign" (os_path_join base_dir "all_malign") in
  let d := dict_set d "code" (os_path_join base_dir "code") in
  let d := dict_set d "train" (os_path_join data_dir "train") in
  let d := dict_set d "test" (os_path_join data_dir "test") in
  let d := dict_set d "validation" (os_path_join data_dir "validation") in
  d.

Definition main (cfg : settings) : M unit :=
  py_assert (check_settings cfg) ;;
  remove_split_folders ;;
  dirs <- set_up_folder_structure ;;
  let d := folder_paths (fst dirs) (snd dirs) in
  (if RENAME_DATA cfg then rename_data cfg d else ret tt) ;;
  (if INCLUDE_AUGMENTED_DATA_IN_TRAIN cfg
   then copy_augmented_data_to_train cfg d else ret tt) ;;
  split_data cfg d ;;
  generate_csv_files cfg d.

(** ** Vocabulary of the statements *)

(** [math.floor(ratio * n)] as the script computes it: the product is a
    float product. [exact_floor] below is the floor of the exact product. *)
Definition floor_mul (ratio : PyFloat.float) (n : Z) : result Z :=
  x <-- PyFloat.mul_int ratio n ;;;
  PyFloat.math_floor x.

(** The dictionary [d] of a run: [base_dir] is ["./"]. *)
Definition main_paths : dict := folder_paths [] (os_path_join [] "split_samples").

Definition class_dir (class_type : string) : path :=
  os_path_join [] ("all_" ++ class_type)%string.

Definition split_dir (split_type class_type : string) : path :=
  os_path_join (os_path_join (os_path_join [] "split_samples") split_type) class_type.

(** The matching source files of a class, in glob order. *)
Definition samples_of (cfg : settings) (fs : filesystem) (class_type : string)
  : list path :=
  glob_list fs (class_dir class_type) (data_pattern cfg).

Definition finite_nonneg (x : PyFloat.float) : Prop :=
  PyFloat.is_finite x = true /\ (0 <= PyFloat.F2Q x)%Q.

(** Ratios that are proportions: finite, non-negative, of exact sum one. *)
Definition proportions (cfg : settings) : Prop :=
  finite_nonneg (TRAIN cfg) /\ finite_nonneg (TEST cfg)
  /\ finite_nonneg (VALIDATION cfg)
  /\ (PyFloat.F2Q (TRAIN cfg) + PyFloat.F2Q (TEST cfg)
      + PyFloat.F2Q (VALIDATION cfg) == 1)%Q.

(** What the split counts need: the first two ratios are finite,
    non-negative and of exact sum at most one. *)
Definition usable_ratios (cfg : settings) : Prop :=
  finite_nonneg (TRAIN cfg) /\ finite_nonneg (TEST cfg)
  /\ (PyFloat.F2Q (TRAIN cfg) + PyFloat.F2Q (TEST cfg) <= 1)%Q.

(** The copy loops of [split_data] stay inside a list of [n] samples. *)
Definition indices_in_bounds (cfg : settings) (n : Z) : Prop :=
  exists num,
    compute_num cfg n = Ok num
    /\ 0 <= at_validation num
    /\ forall split_type si k i,
         num_of (compute_start_index num) split_type = Ok si ->
         num_of num split_type = Ok k ->
         In i (py_range si (si + k)) ->
         0 <= i < n
         /\ forall sample_names : list path,
              len sample_names = n -> exists x, py_index sample_names i = Ok x.

(** The mantissa [binary_round_aux] keeps of an exact product. *)
Definition round_mantissa (m : positive) (e : Z) : Z :=
  let r := fst (shr (shr_record_of_loc (Zpos m) loc_Exact) e
                    (fexp PyFloat.prec PyFloat.emax (Zpos (digits2_pos m) + e) - e)) in
  round_nearest_even (shr_m r) (loc_of_shr_record r).

(** Which of [1/100 .. 199/100] read back as the float [1.0]: only [100/100]. *)
Definition hundredths_table : bool :=
  forallb
    (fun k : nat =>
       implb (PyFloat.eqb (PyFloat.div (S754_finite false (Pos.of_nat k) 0)
                                       (S754_finite false 100 0)) PyFloat.one)
             (Nat.eqb k 100))
    (seq 1 199).

(** Settings used in examples. *)
Definition float_1_0 : PyFloat.float := Eval vm_compute in PyFloat.literal 1 1.
Definition float_0_0 : PyFloat.float := S754_zero false.
Definition float_0_5 : PyFloat.float := Eval vm_compute in PyFloat.literal 5 10.
Definition float_0_25 : PyFloat.float := Eval vm_compute in PyFloat.literal 25 100.
Definition float_0_108 : PyFloat.float := Eval vm_compute in PyFloat.literal 108 1000.

Definition with_ratios (tr te va : PyFloat.float) : settings :=
  {| TRAIN := tr; TEST := te; VALIDATION := va;
     DATA_TYPE := "png"; RENAME_DATA := false;
     INCLUDE_AUGMENTED_DATA_IN_TRAIN := true |}.

(** Two worlds with the same disk, platform and journal. *)
Definition same_disk (w w' : world) : Prop :=
  disk w' = disk w /\ os_name w' = os_name w /\ journal w' = journal w.

(** A disk on which a previous run left [split_samples] but no [code]. *)
Definition stale_world : world :=
  mkWorld
    [ (["all_benign"], Dir); (["all_benign"; "a.png"], File "a");
      (["all_malign"], Dir);
      (["split_samples"], Dir); (["split_samples"; "train"], Dir);
      (["split_samples"; "train"; "benign"], Dir);
      (["split_samples"; "train"; "benign"; "old.png"], File "old") ]%string
    Posix (fun _ => O) O [].


(** [p] lies below none of the [roots]. *)
Definition outside (roots : list path) (p : path) : Prop :=
  forall r, In r roots -> is_under r p = false.

(** A step that changed the disk only below [roots], and whose journal
    entries all satisfy [allowed]. *)
Definition confined (roots : list path) (allowed : event -> Prop) (w w' : world)
  : Prop :=
  (forall p, outside roots p -> lookup (disk w') p = lookup (disk w) p)
  /\ os_name w' = os_name w
  /\ exists evs, journal w' = journal w ++ evs /\ Forall allowed evs.

Definition preserves {A : Type} (R : world -> world -> Prop) (c : M A) : Prop :=
  forall w w' r, c w = (w', r) -> R w w'.

(** A copy of a file into one of the six split folders under its own name
    (or, if that folder is not a directory, onto the folder's path). *)
Definition split_copy (ev : event) : Prop :=
  exists src split_type class_type,
    In split_type split_types /\ In class_type class_types
    /\ (ev = Copy src (os_path_join (split_dir split_type class_type)
                                    (os_path_basename src))
        \/ ev = Copy src (split_dir split_type class_type)).

(** Any change that names only paths below [roots]. *)
Definition event_below (roots : list path) (ev : event) : Prop :=
  match ev with
  | Rmtree p | Mkdir p | WriteFile p | Copy _ p => ~ outside roots p
  | Rename _ _ => False
  end.

(** The copies of [srcs] into the directory [to_dir]. *)
Definition copies_into (to_dir : path) (srcs : list path) : list event :=
  map (fun src => Copy src (os_path_join to_dir (os_path_basename src))) srcs.

(** One copy loop of [split_data]. *)
Definition copy_range (sample_names : list path) (lo hi : Z) (to_dir : path) : M unit :=
  for_each (py_range lo hi)
    (fun i =>
       sample_location <- lift (py_index sample_names i) ;;
       shutil_copy sample_location to_dir).

(** The sample list of a class after [random.shuffle]. *)
Definition shuffled_samples (cfg : settings) (w : world) (class_type : string)
  : list path :=
  match snd (random_shuffle (samples_of cfg (disk w) class_type) w) with
  | Ok l => l
  | Raise _ => []
  end.

(** The run, without its rename stage, works below these two folders. *)
Definition output_roots : list path := [["code"%string]; ["split_samples"%string]].

(** A copy loop over a list of files. *)
Definition copy_all (to_dir : path) (srcs : list path) : M unit :=
  for_each srcs (fun src => shutil_copy src to_dir).

(** Copy loops in a row, each into its own directory. *)
Fixpoint copy_parts (parts : list (path * list path)) : M unit :=
  match parts with
  | [] => ret tt
  | (to_dir, srcs) :: rest => copy_all to_dir srcs ;; copy_parts rest
  end.

(** The three slices of the shuffled list. *)
Definition train_part (num : per_split) (shuffled : list path) : list path :=
  firstn (Z.to_nat (at_train num)) shuffled.

Definition test_part (num : per_split) (shuffled : list path) : list path :=
  firstn (Z.to_nat (at_test num)) (skipn (Z.to_nat (at_train num)) shuffled).

Definition validation_part (num : per_split) (shuffled : list path) : list path :=
  skipn (Z.to_nat (at_train num + at_test num)) shuffled.

(** None of the files is the place another one is copied to. *)
Definition sources_apart (parts : list (path * list path)) : Prop :=
  forall d l d' l' s s',
    In (d, l) parts -> In (d', l') parts -> In s l -> In s' l' ->
    s <> os_path_join d' (os_path_basename s').

(** The directories are not themselves places a file is copied to. *)
Definition dirs_apart (parts : list (path * list path)) : Prop :=
  forall d l d' l' s',
    In (d, l) parts -> In (d', l') parts -> In s' l' ->
    d <> os_path_join d' (os_path_basename s').

(** The three copy loops of one class, as (directory, files) pairs. *)
Definition split_parts (class_type : string) (num : per_split) (shuffled : list path)
  : list (path * list path) :=
  [ (split_dir "train" class_type, train_part num shuffled);
    (split_dir "test" class_type, test_part num shuffled);
    (split_dir "validation" class_type, validation_part num shuffled) ].


(** A disk after the folders were set up, with three benign samples, one
    of which also has an augmented version. *)
Definition ready_world : world :=
  mkWorld
    [ (["all_benign"], Dir);
      (["all_benign"; "a.png"], File "a");
      (["all_benign"; "b.png"], File "b");
      (["all_benign"; "c.png"], File "c");
      (["all_benign"; "augmented"], Dir);
      (["all_benign"; "augmented"; "a.png"], File "a-augmented");
      (["all_malign"], Dir);
      (["code"], Dir);
      (["split_samples"], Dir);
      (["split_samples"; "test"], Dir);
      (["split_samples"; "train"], Dir);
      (["split_samples"; "validation"], Dir);
      (["split_samples"; "test"; "benign"], Dir);
      (["split_samples"; "test"; "malign"], Dir);
      (["split_samples"; "train"; "benign"], Dir);
      (["split_samples"; "train"; "malign"], Dir);
      (["split_samples"; "validation"; "benign"], Dir);
      (["split_samples"; "validation"; "malign"], Dir) ]%string
    Posix (fun k => 3 * k + 1)%nat O [].

(** The manifest of a (split, class) pair. *)
Definition csv_path (split_type class_type : string) : path :=
  os_path_join (os_path_join [] "code") (class_type ++ "_" ++ split_type ++ ".csv")%string.


(** The name the rename stage gives to the [i]-th listed sample. *)
Definition rename_target (cfg : settings) (class_type : string) (i : Z) : path :=
  os_path_join (class_dir class_type) (str i ++ "." ++ DATA_TYPE cfg)%string.

(** Every listed sample is found, after the stage, under its number. *)
Definition renamed_in_glob_order (cfg : settings) (class_type : string) (w w' : world)
  : Prop :=
  forall (i : nat) (src : path),
    nth_error (samples_of cfg (disk w) class_type) i = Some src ->
    lookup (disk w') (rename_target cfg class_type (Z.of_nat i)) = lookup (disk w) src.

(** A folder whose listing starts with [1.png] and goes on with [0.png]. *)
Definition numbered_world (os : os_kind) : world :=
  mkWorld
    [ (["all_benign"], Dir);
      (["all_benign"; "1.png"], File "one");
      (["all_benign"; "0.png"], File "zero");
      (["all_malign"], Dir) ]%string
    os (fun _ => O) O [].

(** Renames of files of one directory, given by (old name, new name). *)
Definition rename_pairs (dir : path) (pairs : list (string * string)) : M unit :=
  for_each pairs
    (fun ab => os_rename (os_path_join dir (fst ab)) (os_path_join dir (snd ab))).

(** The renames of a class in the order of its listing. *)
Definition rename_events (cfg : settings) (class_type : string) (names : list path)
  : list event :=
  map (fun ix => Rename (snd ix) (rename_target cfg class_type (fst ix)))
      (combine (py_range 0 (len names)) names).

(** None of the numbered names of a class is taken. *)
Definition numbers_free (cfg : settings) (class_type : string) (fs : filesystem) : Prop :=
  forall i, 0 <= i < len (samples_of cfg fs class_type) ->
            lookup fs (rename_target cfg class_type i) = None.

(** A disk whose samples carry the names their owner gave them. *)
Definition unnumbered_world (os : os_kind) : world :=
  mkWorld
    [ (["all_benign"], Dir);
      (["all_benign"; "mole.png"], File "m");
      (["all_benign"; "freckle.png"], File "f");
      (["all_benign"; "notes.txt"], File "n");
      (["all_malign"], Dir);
      (["all_malign"; "lesion.png"], File "l") ]%string
    os (fun _ => O) O [].

(** The stages of [main] that run before any sample is copied. *)
Definition before_copies (cfg : settings) : M unit :=
  py_assert (check_settings cfg) ;;
  remove_split_folders ;;
  dirs <- set_up_folder_structure ;;
  let d := folder_paths (fst dirs) (snd dirs) in
  (if RENAME_DATA cfg then rename_data cfg d else ret tt).

(** None of the six split folders is a plain file. *)
Definition tidy (fs : filesystem) : Prop :=
  forall split_type class_type,
    In split_type split_types -> In class_type class_types ->
    lookup fs (split_dir split_type class_type) = None
    \/ lookup fs (split_dir split_type class_type) = Some Dir.

(** The six split folders are there. *)
Definition split_dirs_ready (fs : filesystem) : Prop :=
  forall split_type class_type,
    In split_type split_types -> In class_type class_types ->
    lookup fs (split_dir split_type class_type) = Some Dir.

(** A step after which each split folder is as before, gone, or a directory. *)
Definition settles (w w' : world) : Prop :=
  forall split_type class_type,
    In split_type split_types -> In class_type class_types ->
    lookup (disk w') (split_dir split_type class_type)
    = lookup (disk w) (split_dir split_type class_type)
    \/ lookup (disk w') (split_dir split_type class_type) = None
    \/ lookup (disk w') (split_dir split_type class_type) = Some Dir.

(** A step that leaves everything below [split_samples] as it is. *)
Definition keeps_splits (w w' : world) : Prop :=
  forall p, is_under ["split_samples"%string] p = true ->
            lookup (disk w') p = lookup (disk w) p.

(** A copy of an augmented sample into the train folder of its class. *)
Definition augmented_copy (ev : event) : Prop :=
  exists class_type name,
    In class_type class_types
    /\ ev = Copy (os_path_join (os_path_join (class_dir class_type) "augmented") name)
                 (os_path_join (split_dir "train" class_type) name).

(** A copy of a sample of the folder of [class_type] into one of its split
    folders, whose target holds in [w'] what the sample held in [w1]. *)
Definition class_copy (class_type : string) (w1 w' : world) (ev : event) : Prop :=
  exists split_type name data,
    In split_type split_types
    /\ ev = Copy (os_path_join (class_dir class_type) name)
                 (os_path_join (split_dir split_type class_type) name)
    /\ lookup (disk w1) (os_path_join (class_dir class_type) name) = Some (File data)
    /\ lookup (disk w') (os_path_join (split_dir split_type class_type) name)
       = Some (File data).

Definition main_copy (w1 w' : world) (ev : event) : Prop :=
  exists class_type, In class_type class_types /\ class_copy class_type w1 w' ev.

(** A folder that was created, or was found in place. *)
Definition there (p : path) (w : world) : Prop := lookup (disk w) p <> None.

(** ** Vocabulary of the further properties *)

(** A step that leaves every entry that was on the disk as it was. *)
Definition keeps_entries (w w' : world) : Prop :=
  forall p, lookup (disk w) p <> None -> lookup (disk w') p = lookup (disk w) p.

(** The journal entries of creating the folders [l] of [main_dir], in order. *)
Definition mkdirs (main_dir : path) (l : list string) : list event :=
  map (fun s => Mkdir (os_path_join main_dir s)) l.

(** The eleven folders of the output tree, in the order
    [set_up_folder_structure] asks for them. *)
Definition scaffold_paths : list path :=
  [ ["code"]; ["split_samples"];
    ["split_samples"; "test"]; ["split_samples"; "train"];
    ["split_samples"; "validation"];
    ["split_samples"; "test"; "benign"]; ["split_samples"; "test"; "malign"];
    ["split_samples"; "train"; "benign"]; ["split_samples"; "train"; "malign"];
    ["split_samples"; "validation"; "benign"];
    ["split_samples"; "validation"; "malign"] ]%string.

(** A disk with both class folders and nothing else. *)
Definition first_run_world : world :=
  mkWorld
    [ (["all_benign"], Dir);
      (["all_benign"; "a.png"], File "a");
      (["all_malign"], Dir);
      (["all_malign"; "z.png"], File "z") ]%string
    Posix (fun _ => O) O [].

(** The two class folders. *)
Definition class_roots : list path := [class_dir "benign"; class_dir "malign"].

(** A rename of an entry of a class folder to a numbered name in it. *)
Definition numbering (cfg : settings) (ev : event) : Prop :=
  exists class_type a i,
    In class_type class_types
    /\ ev = Rename (os_path_join (class_dir class_type) a)
                   (rename_target cfg class_type i).

(** The listed samples of a class already carry their numbers. *)
Definition numbered_in_order (cfg : settings) (class_type : string) (fs : filesystem)
  : Prop :=
  forall (i : nat) (src : path),
    nth_error (samples_of cfg fs class_type) i = Some src ->
    src = rename_target cfg class_type (Z.of_nat i).

(** The [augmented] folder of a class. *)
Definition augmented_dir (class_type : string) : path :=
  os_path_join (class_dir class_type) "augmented".

(** A copy of an entry of an [augmented] folder into the train folder of
    its class (or, if that folder is not a directory, onto its path). *)
Definition augmented_transfer (ev : event) : Prop :=
  exists class_type name,
    In class_type class_types
    /\ (ev = Copy (os_path_join (augmented_dir class_type) name)
                  (os_path_join (split_dir "train" class_type) name)
        \/ ev = Copy (os_path_join (augmented_dir class_type) name)
                     (split_dir "train" class_type)).

(** The writing of one of the six manifests. *)
Definition manifest_write (ev : event) : Prop :=
  exists split_type class_type,
    In split_type split_types /\ In class_type class_types
    /\ ev = WriteFile (csv_path split_type class_type).

(** A folder in which the samples are already numbered in listing order. *)
Definition renumbered_world (os : os_kind) : world :=
  mkWorld
    [ (["all_benign"], Dir);
      (["all_benign"; "0.png"], File "zero");
      (["all_benign"; "1.png"], File "one");
      (["all_malign"], Dir) ]%string
    os (fun _ => O) O [].

(** A step that leaves the listing of the folder [d] as it was. *)
Definition same_listing (d : path) (w w' : world) : Prop :=
  entry_names (disk w') d = entry_names (disk w) d.




(** The removal of one of the two output folders. *)
Definition reset_event (ev : event) : Prop :=
  ev = Rmtree ["code"%string] \/ ev = Rmtree ["split_samples"%string].

(** The creation of one of the eleven folders of the output tree. *)
Definition scaffold_event (ev : event) : Prop :=
  exists p, In p scaffold_paths /\ ev = Mkdir p.

(** A step whose journal entries all satisfy [allowed]. *)
Definition records (allowed : event -> Prop) (w w' : world) : Prop :=
  exists evs, journal w' = journal w ++ evs /\ Forall allowed evs.

(** ** Vocabulary of the statements on exact arithmetic, names and copies *)

(** [floor(N * ratio)] over the rationals, as the specification writes it. *)
Definition exact_floor (ratio : Q) (n : Z) : Z := Qfloor (inject_Z n * ratio).

(** The decimal ratios the script ships with, as rationals. *)
Definition decimal_0_7 : Q := 7 # 10.
Definition decimal_0_2 : Q := 2 # 10.

(** A folder name that is one path component: not empty, not [.] or [..],
    and without a separator (slash or backslash). *)
Fixpoint has_char (c : ascii) (s : string) : bool :=
  match s with
  | EmptyString => false
  | String a rest => Ascii.eqb a c || has_char c rest
  end.

Definition single_component (s : string) : bool :=
  negb (String.eqb s EmptyString)
  && negb (String.eqb s ".") && negb (String.eqb s "..")
  && negb (has_char "/" s) && negb (has_char (ascii_of_nat 92) s).




(** The ratios [-0.5, 0.2, 1.3]: their sum rounds to [1.0]. *)
Definition float_neg_0_5 : PyFloat.float :=
  Eval vm_compute in SFopp (PyFloat.literal 5 10).
Definition float_1_3 : PyFloat.float := Eval vm_compute in PyFloat.literal 13 10.

Definition negative_settings : settings :=
  with_ratios float_neg_0_5 float_0_2 float_1_3.

(** The files a journal says were copied, in order. *)
Definition copied_sources (evs : list event) : list path :=
  flat_map (fun ev => match ev with Copy src _ => [src] | _ => [] end) evs.

(** [name] ends with [suffix]. *)
Fixpoint ends_with (suffix name : string) : bool :=
  String.eqb name suffix
  || match name with
     | EmptyString => false
     | String _ rest => ends_with suffix rest
     end.






(** A copy job: a file and the directory it is copied into. *)
Definition job_target (j : path * path) : path :=
  os_path_join (snd j) (os_path_basename (fst j)).

Definition copy_jobs (jobs : list (path * path)) : M unit :=
  for_each jobs (fun j => shutil_copy (fst j) (snd j)).

(** The sample a copy loop of [split_data] takes at one of its indices:
    [sample_names[i]] for an [i] in [range(si, si + num[split_type])],
    where [w] is the world in which the class is reached. *)
Definition visits (cfg : settings) (split_type class_type : string) (w : world)
           (src : path) : Prop :=
  exists num si k i,
    compute_num cfg (len (samples_of cfg (disk w) class_type)) = Ok num
    /\ num_of (compute_start_index num) split_type = Ok si
    /\ num_of num split_type = Ok k
    /\ In i (py_range si (si + k))
    /\ py_index (shuffled_samples cfg w class_type) i = Ok src.

(** The classes a loop over [l] handles before [class_type]. *)
Fixpoint classes_before (class_type : string) (l : list string) : list string :=
  match l with
  | [] => []
  | c :: rest =>
      if String.eqb c class_type then [] else c :: classes_before class_type rest
  end.

(** The world in which [split_data], started in [w], reaches [class_type]. *)
Definition class_start (cfg : settings) (class_type : string) (w : world) : world :=
  fst (for_each (classes_before class_type class_types)
                (split_data_class cfg main_paths) w).

(** * Proofs *)

(** ** Rounding in binary64 *)

Lemma iter_pos_nat {A} (f : A -> A) (p : positive) (x : A) :
  iter_pos f p x = Nat.iter (Pos.to_nat p) f x.
Proof.
  revert x. induction p as [p IH | p IH | ]; intro x; simpl iter_pos.
  - rewrite !IH. rewrite Pos2Nat.inj_xI.
    replace (S (2 * Pos.to_nat p)) with (Pos.to_nat p + (Pos.to_nat p + 1))%nat by lia.
    rewrite !Nat.iter_add. reflexivity.
  - rewrite !IH. rewrite Pos2Nat.inj_xO.
    replace (2 * Pos.to_nat p)%nat with (Pos.to_nat p + Pos.to_nat p)%nat by lia.
    rewrite Nat.iter_add. reflexivity.
  - reflexivity.
Qed.

Lemma digits2_pos_bounds (m : positive) :
  2 ^ (Zpos (digits2_pos m) - 1) <= Zpos m < 2 ^ Zpos (digits2_pos m).
Proof.
  induction m as [m IH | m IH | ]; simpl digits2_pos.
  - rewrite Pos2Z.inj_succ.
    replace (Z.succ (Zpos (digits2_pos m)) - 1) with (Z.succ (Zpos (digits2_pos m) - 1)) by lia.
    rewrite !Z.pow_succ_r by lia. lia.
  - rewrite Pos2Z.inj_succ.
    replace (Z.succ (Zpos (digits2_pos m)) - 1) with (Z.succ (Zpos (digits2_pos m) - 1)) by lia.
    rewrite !Z.pow_succ_r by lia. lia.
  - simpl. lia.
Qed.

Lemma shr_1_m (r : shr_record) :
  0 <= shr_m r -> shr_m (shr_1 r) = shr_m r / 2.
Proof.
  destruct r as [m b s]; cbn [shr_m]. intros Hm.
  destruct m as [ | [p | p | ] | p]; cbn [shr_1 shr_m]; try lia; try reflexivity.
  - rewrite Pos2Z.inj_xI. apply Z.div_unique with 1; lia.
  - rewrite Pos2Z.inj_xO. apply Z.div_unique with 0; lia.
Qed.

Lemma shr_1_r (r : shr_record) :
  0 <= shr_m r -> Z.b2z (shr_r (shr_1 r)) = shr_m r mod 2.
Proof.
  destruct r as [m b s]; cbn [shr_m]. intros Hm.
  destruct m as [ | [p | p | ] | p]; cbn [shr_1 shr_r Z.b2z]; try lia; try reflexivity.
  - rewrite Pos2Z.inj_xI. apply Z.mod_unique with (Zpos p); lia.
  - rewrite Pos2Z.inj_xO. apply Z.mod_unique with (Zpos p); lia.
Qed.

Lemma shr_n_m (n : nat) (r : shr_record) :
  0 <= shr_m r ->
  shr_m (Nat.iter n shr_1 r) = shr_m r / 2 ^ Z.of_nat n.
Proof.
  intros Hm. induction n as [ | n IH].
  - simpl. now rewrite Z.div_1_r.
  - rewrite Nat2Z.inj_succ, Z.pow_succ_r by lia. simpl Nat.iter.
    rewrite shr_1_m.
    + rewrite IH. rewrite Z.div_div by lia. f_equal. lia.
    + rewrite IH. apply Z.div_pos; lia.
Qed.

Lemma shr_n_r (n : nat) (r : shr_record) :
  0 <= shr_m r ->
  Z.b2z (shr_r (Nat.iter (S n) shr_1 r)) = (shr_m r / 2 ^ Z.of_nat n) mod 2.
Proof.
  intros Hm. simpl Nat.iter. rewrite shr_1_r.
  - now rewrite shr_n_m.
  - rewrite shr_n_m by assumption. apply Z.div_pos; lia.
Qed.

Lemma round_nearest_even_le (r : shr_record) :
  round_nearest_even (shr_m r) (loc_of_shr_record r) <= shr_m r + Z.b2z (shr_r r).
Proof.
  destruct r as [m [ | ] [ | ]]; simpl; try lia.
  destruct (Z.even m); lia.
Qed.

Lemma round_nearest_even_ge (r : shr_record) :
  shr_m r <= round_nearest_even (shr_m r) (loc_of_shr_record r).
Proof.
  destruct r as [m [ | ] [ | ]]; simpl; try lia.
  destruct (Z.even m); lia.
Qed.

Lemma shr_exponent (r : shr_record) (e n : Z) :
  snd (shr r e n) = e + Z.max n 0.
Proof. destruct n; simpl; lia. Qed.

Lemma shr_mantissa (r : shr_record) (e n : Z) :
  0 <= shr_m r ->
  shr_m (fst (shr r e n)) = shr_m r / 2 ^ Z.max n 0.
Proof.
  intros Hm. destruct n as [ | p | p]; cbn [shr fst].
  - now rewrite Z.div_1_r.
  - rewrite iter_pos_nat, shr_n_m by assumption.
    rewrite positive_nat_Z. f_equal.
  - now rewrite Z.div_1_r.
Qed.

Lemma shr_round_exact (m e n : Z) :
  n <= 0 ->
  shr (shr_record_of_loc m loc_Exact) e n = (Build_shr_record m false false, e).
Proof. destruct n; simpl; intros; try reflexivity; lia. Qed.

Lemma shr_round_le (m e n : Z) :
  0 <= m -> 0 < n ->
  let r := fst (shr (shr_record_of_loc m loc_Exact) e n) in
  2 ^ n * round_nearest_even (shr_m r) (loc_of_shr_record r) <= m + 2 ^ (n - 1).
Proof.
  intros Hm Hn r.
  pose proof (round_nearest_even_le r) as Hle.
  destruct n as [ | p | p]; try lia.
  subst r. cbn [shr fst shr_record_of_loc] in *.
  rewrite iter_pos_nat in *.
  destruct (Pos2Nat.is_succ p) as [k Hk]. rewrite Hk in *.
  assert (Hp : Zpos p = Z.of_nat k + 1) by lia.
  set (r0 := Build_shr_record m false false) in *.
  assert (H0 : 0 <= shr_m r0) by (simpl; lia).
  pose proof (shr_n_r k r0 H0) as Hr.
  pose proof (shr_n_m (S k) r0 H0) as Hmk.
  cbn [shr_m r0] in Hr, Hmk.
  set (rk := Nat.iter (S k) shr_1 r0) in *.
  rewrite Nat2Z.inj_succ, Z.pow_succ_r in Hmk by lia.
  assert (0 < 2 ^ Z.of_nat k) by (apply Z.pow_pos_nonneg; lia).
  rewrite (Z.mul_comm 2), <- Z.div_div in Hmk by lia.
  set (h := m / 2 ^ Z.of_nat k) in *.
  assert (Hh : 2 ^ Z.of_nat k * h <= m) by (apply Z.mul_div_le; lia).
  assert (0 <= h) by (apply Z.div_pos; lia).
  pose proof (Z.div_mod h 2 ltac:(lia)) as Hdm.
  pose proof (Z.mod_pos_bound h 2 ltac:(lia)) as Hmod.
  rewrite Hp. replace (Z.of_nat k + 1 - 1) with (Z.of_nat k) by lia.
  rewrite Z.pow_add_r by lia. change (2 ^ 1) with 2.
  nia.
Qed.


Lemma fexp_eq (t : Z) : fexp PyFloat.prec PyFloat.emax t = Z.max (t - 53) (-1074).
Proof. reflexivity. Qed.

Lemma round_mantissa_nonneg (m : positive) (e : Z) : 0 <= round_mantissa m e.
Proof.
  unfold round_mantissa.
  set (r := fst _).
  pose proof (round_nearest_even_ge r) as H.
  assert (0 <= shr_m r); [ | lia].
  subst r. rewrite shr_mantissa by (simpl; lia). simpl shr_m.
  apply Z.div_pos; [lia | apply Z.pow_pos_nonneg; lia].
Qed.

Lemma binary_round_aux_unfold (s : bool) (m : positive) (e : Z) :
  let e1 := e + Z.max (fexp PyFloat.prec PyFloat.emax (Zpos (digits2_pos m) + e) - e) 0 in
  let m1 := round_mantissa m e in
  let n2 := fexp PyFloat.prec PyFloat.emax (Zdigits2 m1 + e1) - e1 in
  binary_round_aux PyFloat.prec PyFloat.emax s (Zpos m) e loc_Exact =
  match m1 / 2 ^ Z.max n2 0 with
  | Z0 => S754_zero s
  | Zpos p => if e1 + Z.max n2 0 <=? PyFloat.emax - PyFloat.prec
              then S754_finite s p (e1 + Z.max n2 0) else S754_infinity s
  | Zneg _ => S754_nan
  end.
Proof.
  intros e1 m1 n2.
  unfold binary_round_aux, shr_fexp. cbn [Zdigits2].
  rewrite (surjective_pairing (shr _ e _)).
  rewrite shr_exponent. fold e1. fold (round_mantissa m e). fold m1.
  rewrite (surjective_pairing (shr _ e1 _)).
  rewrite shr_exponent. fold n2.
  rewrite shr_mantissa by (simpl; apply round_mantissa_nonneg).
  reflexivity.
Qed.


Lemma shiftl_scaled (m e K : Z) :
  0 <= K -> 0 <= e + K -> Z.shiftl m e = (m * 2 ^ (e + K)) / 2 ^ K.
Proof.
  intros HK HeK.
  assert (0 < 2 ^ K) by (apply Z.pow_pos_nonneg; lia).
  destruct (Z.le_gt_cases 0 e) as [He | He].
  - rewrite Z.shiftl_mul_pow2 by lia.
    rewrite Z.pow_add_r by lia. rewrite Z.mul_assoc.
    now rewrite Z.div_mul by lia.
  - rewrite Z.shiftl_div_pow2 by lia.
    replace K with ((e + K) + - e) at 2 by lia.
    rewrite (Z.pow_add_r 2 (e + K) (- e)) by lia.
    assert (0 < 2 ^ (e + K)) by (apply Z.pow_pos_nonneg; lia).
    assert (0 < 2 ^ (- e)) by (apply Z.pow_pos_nonneg; lia).
    rewrite (Z.mul_comm (2 ^ (e + K))).
    rewrite Z.div_mul_cancel_r by lia. reflexivity.
Qed.

Lemma Zdigits2_lower (m : Z) : 0 < m -> 2 ^ (Zdigits2 m - 1) <= m.
Proof.
  destruct m as [ | p | p]; try lia. intros _. cbn [Zdigits2].
  apply digits2_pos_bounds.
Qed.

Lemma Zdigits2_nonneg (m : Z) : 0 <= Zdigits2 m.
Proof. destruct m; simpl; lia. Qed.

Lemma pow2_lt_inv (a b : Z) : 0 <= a -> 2 ^ a < 2 ^ b -> a < b.
Proof.
  intros Ha H. destruct (Z.lt_ge_cases a b) as [ | Hge]; [assumption | ].
  destruct (Z.lt_ge_cases b 0) as [Hb | Hb].
  - rewrite (Z.pow_neg_r 2 b) in H by lia.
    assert (0 < 2 ^ a) by (apply Z.pow_pos_nonneg; lia). lia.
  - assert (2 ^ b <= 2 ^ a) by (apply Z.pow_le_mono_r; lia). lia.
Qed.

Lemma binary_round_aux_floor (m : positive) (e K : Z) :
  0 <= K -> 0 <= e + K ->
  Zpos m * 2 ^ (e + K) < 2 ^ (53 + K) ->
  exists a,
    PyFloat.math_floor
      (binary_round_aux PyFloat.prec PyFloat.emax false (Zpos m) e loc_Exact) = Ok a
    /\ 0 <= a
    /\ a * 2 ^ 53 * 2 ^ K <= (2 ^ 53 + 1) * (Zpos m * 2 ^ (e + K)).
Proof.
  intros HK HeK HX.
  rewrite binary_round_aux_unfold. cbv zeta.
  pose proof (digits2_pos_bounds m) as Hd.
  pose proof (round_mantissa_nonneg m e) as Hm1.
  assert (Hm1le :
    let n := Z.max (Zpos (digits2_pos m) + e - 53) (-1074) - e in
    (n <= 0 -> round_mantissa m e = Zpos m) /\
    (0 < n -> 2 ^ n * round_mantissa m e <= Zpos m + 2 ^ (n - 1))).
  { unfold round_mantissa. rewrite fexp_eq. split; intros Hn.
    - rewrite shr_round_exact by assumption. reflexivity.
    - apply shr_round_le; lia. }
  cbv zeta in Hm1le.
  remember (Zpos (digits2_pos m)) as d eqn:Ed.
  assert (Hd1 : 1 <= d) by (subst d; lia).
  remember (Zpos m * 2 ^ (e + K)) as X eqn:EX.
  assert (HPeK : 0 < 2 ^ (e + K)) by (apply Z.pow_pos_nonneg; lia).
  assert (HPK : 0 < 2 ^ K) by (apply Z.pow_pos_nonneg; lia).
  assert (HXnn : 0 <= X) by (subst X; apply Z.mul_nonneg_nonneg; lia).
  assert (HdX : 2 ^ (d - 1 + (e + K)) <= X).
  { rewrite Z.pow_add_r by lia. subst X. nia. }
  assert (Hde : d + e <= 53).
  { assert (d - 1 + (e + K) < 53 + K); [ | lia].
    apply pow2_lt_inv; lia. }
  rewrite !fexp_eq.
  set (f := Z.max (d + e - 53) (-1074)).
  set (n := f - e).
  fold f n in Hm1le.
  remember (round_mantissa m e) as m1 eqn:Em1.
  set (e1 := e + Z.max n 0).
  assert (He1 : e1 <= 52) by (subst e1 n f; lia).
  assert (He1K : 0 <= e1 + K) by (subst e1; lia).
  set (V1 := m1 * 2 ^ (e1 + K)).
  assert (HV1 : V1 <= X + (if 0 <? n then 2 ^ (n - 1 + (e + K)) else 0)).
  { destruct Hm1le as [Hle Hgt]. subst V1 e1.
    destruct (Z.ltb_spec 0 n) as [Hn | Hn].
    - specialize (Hgt Hn).
      replace (e + Z.max n 0 + K) with (n + (e + K)) by lia.
      rewrite (Z.pow_add_r 2 n (e + K)), (Z.pow_add_r 2 (n - 1) (e + K)) by lia.
      subst X.
      apply (Z.mul_le_mono_nonneg_r _ _ (2 ^ (e + K))) in Hgt; lia.
    - rewrite (Hle Hn). replace (e + Z.max n 0 + K) with (e + K) by lia.
      subst X. lia. }
  assert (HV1b : V1 < 2 ^ (54 + K)).
  { replace (54 + K) with (1 + (53 + K)) by lia.
    rewrite (Z.pow_add_r 2 1) by lia. change (2 ^ 1) with 2.
    destruct (Z.ltb_spec 0 n) as [Hn | Hn]; [ | lia].
    assert (2 ^ (n - 1 + (e + K)) <= 2 ^ (53 + K)); [ | lia].
    apply Z.pow_le_mono_r; subst n f; lia. }
  set (d1 := Zdigits2 m1).
  assert (Hd1e1 : d1 + e1 <= 54).
  { destruct (Z.eq_dec m1 0) as [E | E].
    - subst d1. rewrite E. simpl. lia.
    - pose proof (Zdigits2_lower m1 ltac:(lia)) as Hlow. fold d1 in Hlow.
      pose proof (Zdigits2_nonneg m1) as Hnn. fold d1 in Hnn.
      assert (d1 <> 0).
      { subst d1. destruct m1; simpl; lia. }
      assert (2 ^ (d1 - 1 + (e1 + K)) <= V1).
      { rewrite Z.pow_add_r by lia. subst V1.
        assert (0 < 2 ^ (e1 + K)) by (apply Z.pow_pos_nonneg; lia). nia. }
      assert (d1 - 1 + (e1 + K) < 54 + K); [ | lia].
      apply pow2_lt_inv; lia. }
  set (n2 := Z.max (d1 + e1 - 53) (-1074) - e1).
  set (s2 := Z.max n2 0).
  assert (Hs2 : 0 <= s2) by (subst s2; lia).
  assert (He2 : e1 + s2 <= 971) by (subst s2 n2; lia).
  assert (HPs2 : 0 < 2 ^ s2) by (apply Z.pow_pos_nonneg; lia).
  pose proof (Z.mul_div_le m1 (2 ^ s2) HPs2) as Hm2.
  assert (Hm2nn : 0 <= m1 / 2 ^ s2) by (apply Z.div_pos; lia).
  destruct (m1 / 2 ^ s2) as [ | p | p] eqn:Em2; try lia.
  - exists 0. cbn [PyFloat.math_floor].
    split; [reflexivity | split; [lia | ]].
    change (0 <= (2 ^ 53 + 1) * X). apply Z.mul_nonneg_nonneg; lia.
  - replace (e1 + s2 <=? PyFloat.emax - PyFloat.prec) with true
      by (symmetry; apply Z.leb_le; unfold PyFloat.emax, PyFloat.prec; lia).
    cbn [PyFloat.math_floor cond_Zopp].
    exists (Z.shiftl (Zpos p) (e1 + s2)). split; [reflexivity | ].
    rewrite (shiftl_scaled (Zpos p) (e1 + s2) K) by lia.
    set (V2 := Zpos p * 2 ^ (e1 + s2 + K)).
    assert (HV2 : V2 <= V1).
    { subst V2 V1. replace (e1 + s2 + K) with (s2 + (e1 + K)) by lia.
      rewrite Z.pow_add_r by lia.
      assert (0 < 2 ^ (e1 + K)) by (apply Z.pow_pos_nonneg; lia). nia. }
    assert (HV2nn : 0 <= V2).
    { subst V2. assert (0 < 2 ^ (e1 + s2 + K)) by (apply Z.pow_pos_nonneg; lia). nia. }
    pose proof (Z.mul_div_le V2 (2 ^ K) HPK) as Ha.
    assert (Hann : 0 <= V2 / 2 ^ K) by (apply Z.div_pos; lia).
    split; [assumption | ].
    set (a := V2 / 2 ^ K) in *.
    destruct (Z.ltb_spec 0 n) as [Hn | Hn]; [ | nia].
    destruct (Z.le_gt_cases (-1074) (d + e - 53)) as [Hnorm | Hsub].
    + (* normal range: the rounding error is at most X / 2^53 *)
      assert (Hn' : n - 1 + (e + K) = (d - 54) + (e + K)) by (subst n f; lia).
      assert (2 ^ 53 * 2 ^ (n - 1 + (e + K)) <= X).
      { rewrite <- Z.pow_add_r by (subst n f; lia).
        etransitivity; [ | exact HdX].
        apply Z.pow_le_mono_r; lia. }
      nia.
    + (* below the normal range the result is less than one *)
      assert (Ha0 : a = 0);
        [ | rewrite Ha0; change (0 <= (2 ^ 53 + 1) * X);
            apply Z.mul_nonneg_nonneg; lia].
      assert (V1 < 2 ^ K); [ | nia].
      assert (HK1 : 1 <= K) by (subst n f; lia).
      replace (2 ^ K) with (2 * 2 ^ (K - 1))
        by (rewrite <- Z.pow_succ_r by lia; f_equal; lia).
      assert (X < 2 ^ (K - 1)).
      { apply Z.lt_le_trans with (2 ^ (d + (e + K))).
        - rewrite Z.pow_add_r by lia. subst X. nia.
        - apply Z.pow_le_mono_r; lia. }
      assert (2 ^ (n - 1 + (e + K)) <= 2 ^ (K - 1)).
      { apply Z.pow_le_mono_r; subst n f; lia. }
      lia.
Qed.


Lemma iter_xO_value (p d : positive) :
  Zpos (Pos.iter xO p d) = Zpos p * 2 ^ Zpos d.
Proof.
  induction d as [ | d IH] using Pos.peano_ind.
  - simpl. lia.
  - rewrite Pos.iter_succ, Pos2Z.inj_xO, IH, Pos2Z.inj_succ, Z.pow_succ_r by lia. lia.
Qed.

Lemma iter_xO_digits (p d : positive) :
  Zpos (digits2_pos (Pos.iter xO p d)) = Zpos (digits2_pos p) + Zpos d.
Proof.
  induction d as [ | d IH] using Pos.peano_ind.
  - simpl. lia.
  - rewrite Pos.iter_succ. cbn [digits2_pos]. rewrite Pos2Z.inj_succ, IH. lia.
Qed.

(** A mantissa that already fits is returned as it is. *)
Lemma binary_round_aux_fits (s : bool) (m : positive) (e : Z) :
  Z.max (Zpos (digits2_pos m) + e - 53) (-1074) <= e -> e <= 971 ->
  binary_round_aux PyFloat.prec PyFloat.emax s (Zpos m) e loc_Exact
  = S754_finite s m e.
Proof.
  intros Hfit He.
  rewrite binary_round_aux_unfold. cbv zeta.
  assert (Hm1 : round_mantissa m e = Zpos m).
  { unfold round_mantissa. rewrite fexp_eq.
    rewrite shr_round_exact by lia. reflexivity. }
  rewrite Hm1. cbn [Zdigits2]. rewrite !fexp_eq.
  replace (Z.max (Z.max (Zpos (digits2_pos m) + e - 53) (-1074) - e) 0) with 0 by lia.
  replace (e + 0) with e by lia.
  replace (Z.max (Z.max (Zpos (digits2_pos m) + e - 53) (-1074) - e) 0) with 0 by lia.
  rewrite Z.div_1_r.
  replace (e + 0) with e by lia.
  replace (e <=? PyFloat.emax - PyFloat.prec) with true; [reflexivity | ].
  symmetry. apply Z.leb_le. unfold PyFloat.emax, PyFloat.prec. lia.
Qed.

(** Ints below [2^53] convert to floats exactly. *)
Lemma of_int_exact (n : Z) :
  0 < n < 2 ^ 53 ->
  exists m e, PyFloat.of_int n = Ok (S754_finite false m e)
              /\ e <= 0 /\ Zpos m = n * 2 ^ (- e).
Proof.
  intros [Hpos Hlt]. destruct n as [ | p | p]; try lia.
  unfold PyFloat.of_int, binary_normalize, binary_round.
  pose proof (digits2_pos_bounds p) as Hd.
  assert (Hdp : Zpos (digits2_pos p) <= 53).
  { assert (Zpos (digits2_pos p) - 1 < 53); [ | lia].
    apply pow2_lt_inv; lia. }
  rewrite fexp_eq. rewrite Z.add_0_r.
  unfold shl_align.
  destruct (Z.max (Zpos (digits2_pos p) - 53) (-1074) - 0) as [ | q | q] eqn:Eq.
  - rewrite binary_round_aux_fits by lia.
    exists p, 0. repeat split; simpl; lia.
  - lia.
  - rewrite binary_round_aux_fits.
    + eexists _, _. split; [reflexivity | ]. split; [lia | ].
      rewrite iter_xO_value. f_equal. f_equal. lia.
    + rewrite iter_xO_digits. lia.
    + lia.
Qed.

Lemma of_int_zero : PyFloat.of_int 0 = Ok (S754_zero false).
Proof. reflexivity. Qed.


Lemma floor_mul_bound (r : PyFloat.float) (n : Z) :
  PyFloat.is_finite r = true ->
  (0 <= PyFloat.F2Q r)%Q -> (PyFloat.F2Q r <= 1)%Q ->
  0 <= n < 2 ^ 53 ->
  exists a, floor_mul r n = Ok a /\ 0 <= a /\
    a * 2 ^ 53 * Zpos (Qden (PyFloat.F2Q r))
    <= (2 ^ 53 + 1) * n * Qnum (PyFloat.F2Q r).
Proof.
  intros Hfin Hnn Hle1 Hn.
  unfold floor_mul, PyFloat.mul_int.
  destruct (Z.eq_dec n 0) as [-> | Hn0].
  { rewrite of_int_zero. cbn [bind_result].
    exists 0. destruct r as [s | s | | s m e]; try discriminate; simpl.
    - repeat split; lia.
    - repeat split; lia. }
  destruct (of_int_exact n ltac:(lia)) as (mn & en & -> & Hen & Hmn).
  cbn [bind_result].
  destruct r as [s | s | | s m e]; try discriminate.
  { exists 0. simpl. repeat split; lia. }
  destruct s.
  { exfalso. unfold Qle in Hnn.
    destruct e as [ | p | p]; cbn [PyFloat.F2Q cond_Zopp Qnum Qden inject_Z] in Hnn.
    - simpl in Hnn. lia.
    - assert (0 < 2 ^ Zpos p) by (apply Z.pow_pos_nonneg; lia).
      rewrite Z.mul_1_r in Hnn. change (0 * 1) with 0 in Hnn.
      rewrite Z.mul_opp_l in Hnn. nia.
    - rewrite Z.mul_1_r in Hnn. lia. }
  unfold PyFloat.mul, SFmul. cbn [xorb].
  (* the scaling exponent: the denominators of both factors *)
  set (K := Z.max (- e) 0 + - en).
  assert (HK : 0 <= K) by (subst K; lia).
  assert (HeK : 0 <= e + en + K) by (subst K; lia).
  assert (Pen : 0 < 2 ^ (- en)) by (apply Z.pow_pos_nonneg; lia).
  assert (HQ : Qnum (PyFloat.F2Q (S754_finite false m e)) = Zpos m * 2 ^ Z.max e 0
               /\ Zpos (Qden (PyFloat.F2Q (S754_finite false m e))) = 2 ^ Z.max (- e) 0).
  { destruct e as [ | p | p]; cbn [PyFloat.F2Q cond_Zopp Qnum Qden inject_Z].
    - split; reflexivity.
    - split; [ | reflexivity]. f_equal.
    - split; [simpl; lia | ]. rewrite Pos2Z.inj_pow. reflexivity. }
  destruct HQ as [HQn HQd].
  assert (HX : Zpos (m * mn) * 2 ^ (e + en + K) = (Zpos m * 2 ^ Z.max e 0) * Zpos mn).
  { rewrite Pos2Z.inj_mul. replace (e + en + K) with (Z.max e 0) by (subst K; lia). ring. }
  assert (HPK : 2 ^ K = 2 ^ Z.max (- e) 0 * 2 ^ (- en)).
  { subst K. rewrite Z.pow_add_r by lia. reflexivity. }
  assert (Hval : Zpos m * 2 ^ Z.max e 0 <= 2 ^ Z.max (- e) 0).
  { unfold Qle in Hle1. rewrite HQn, HQd in Hle1.
    change (Qnum 1) with 1 in Hle1. change (Zpos (Qden 1)) with 1 in Hle1. lia. }
  assert (Pe : 0 < 2 ^ Z.max (- e) 0) by (apply Z.pow_pos_nonneg; lia).
  destruct (binary_round_aux_floor (m * mn) (e + en) K HK HeK) as (a & Ha & Ha0 & Hab).
  { rewrite HX. rewrite Z.pow_add_r by lia. rewrite HPK. rewrite Hmn. nia. }
  exists a. split; [exact Ha | ]. split; [exact Ha0 | ].
  rewrite HQn, HQd. rewrite HX, HPK, Hmn in Hab.
  set (Rn := Zpos m * 2 ^ Z.max e 0) in *.
  set (Rd := 2 ^ Z.max (- e) 0) in *.
  set (P := 2 ^ (- en)) in *.
  apply Z.mul_le_mono_pos_r with P; [assumption | ].
  etransitivity; [ | etransitivity; [exact Hab | ]]; [ | ].
  - apply Z.eq_le_incl. ring.
  - apply Z.eq_le_incl. ring.
Qed.

(** The two floors never add up to more than [n]. *)
Lemma floors_le_total (tr te : PyFloat.float) (n : Z) :
  PyFloat.is_finite tr = true -> PyFloat.is_finite te = true ->
  (0 <= PyFloat.F2Q tr)%Q -> (0 <= PyFloat.F2Q te)%Q ->
  (PyFloat.F2Q tr + PyFloat.F2Q te <= 1)%Q ->
  0 <= n < 2 ^ 53 ->
  exists a b, floor_mul tr n = Ok a /\ floor_mul te n = Ok b /\
              0 <= a /\ 0 <= b /\ a + b <= n.
Proof.
  intros Ftr Fte Htr Hte Hsum Hn.
  assert (Htr1 : (PyFloat.F2Q tr <= 1)%Q).
  { apply Qle_trans with (PyFloat.F2Q tr + PyFloat.F2Q te)%Q; [ | assumption].
    rewrite <- (Qplus_0_r (PyFloat.F2Q tr)) at 1.
    apply Qplus_le_compat; [apply Qle_refl | assumption]. }
  assert (Hte1 : (PyFloat.F2Q te <= 1)%Q).
  { apply Qle_trans with (PyFloat.F2Q tr + PyFloat.F2Q te)%Q; [ | assumption].
    rewrite <- (Qplus_0_l (PyFloat.F2Q te)) at 1.
    apply Qplus_le_compat; [assumption | apply Qle_refl]. }
  destruct (floor_mul_bound tr n Ftr Htr Htr1 Hn) as (a & Ea & Ha & Hab).
  destruct (floor_mul_bound te n Fte Hte Hte1 Hn) as (b & Eb & Hb & Hbb).
  exists a, b. repeat split; try assumption.
  unfold Qle, Qplus in Hsum, Htr, Hte. cbn [Qnum Qden] in Hsum, Htr, Hte.
  rewrite Pos2Z.inj_mul in Hsum.
  set (n1 := Qnum (PyFloat.F2Q tr)) in *. set (d1 := Zpos (Qden (PyFloat.F2Q tr))) in *.
  set (n2 := Qnum (PyFloat.F2Q te)) in *. set (d2 := Zpos (Qden (PyFloat.F2Q te))) in *.
  assert (Hd1 : 0 < d1) by (subst d1; lia).
  assert (Hd2 : 0 < d2) by (subst d2; lia).
  clearbody n1 d1 n2 d2.
  assert (H53 : 2 ^ 53 = 9007199254740992) by reflexivity.
  rewrite H53 in *.
  assert (Hs : (a + b) * 9007199254740992 * (d1 * d2)
               <= 9007199254740993 * n * (d1 * d2)).
  { nia. }
  assert ((a + b) * 9007199254740992 <= 9007199254740993 * n).
  { apply Z.mul_le_mono_pos_r with (d1 * d2); [nia | exact Hs]. }
  lia.
Qed.


Lemma Zdigits2_upper (m : Z) : 0 <= m -> m < 2 ^ Zdigits2 m.
Proof.
  destruct m as [ | p | p]; try lia; intros _; cbn [Zdigits2].
  - simpl. lia.
  - apply digits2_pos_bounds.
Qed.

(** The sign of a rounded result is the sign asked for, and its exponent is
    at least the one the format assigns to the input's magnitude. *)
Lemma binary_round_aux_shape (sx : bool) (mx ex : Z) (lx : location) :
  match binary_round_aux PyFloat.prec PyFloat.emax sx mx ex lx with
  | S754_zero s | S754_infinity s => s = sx
  | S754_finite s _ e =>
      s = sx /\ Z.max (Zdigits2 mx + ex - 53) (-1074) <= e
  | S754_nan => True
  end.
Proof.
  unfold binary_round_aux, shr_fexp.
  rewrite (surjective_pairing (shr _ ex _)).
  rewrite shr_exponent.
  match goal with |- context [shr ?r ?e ?n] =>
    rewrite (surjective_pairing (shr r e n)); rewrite (shr_exponent r e n) end.
  rewrite !fexp_eq.
  destruct (shr_m _) as [ | p | p]; try reflexivity; try exact I.
  destruct (_ <=? _); [ | reflexivity].
  split; [reflexivity | lia].
Qed.

Lemma eqb_one_finite (s : bool) (m : positive) (e : Z) :
  PyFloat.eqb (S754_finite s m e) PyFloat.one = true -> s = false /\ e = -52.
Proof.
  unfold PyFloat.eqb, SFeqb, PyFloat.one, SFcompare.
  destruct s; [discriminate | ].
  destruct (e ?= -52) eqn:E; try discriminate.
  intros _. split; [reflexivity | now apply Z.compare_eq].
Qed.

Lemma hundredths_table_ok : hundredths_table = true.
Proof. vm_compute. reflexivity. Qed.

Lemma div_100_is_one (p : positive) :
  PyFloat.eqb (PyFloat.div (S754_finite false p 0) (S754_finite false 100 0))
              PyFloat.one = true ->
  p = 100%positive.
Proof.
  intros H.
  assert (Hlt : Zpos p < 200).
  { revert H. unfold PyFloat.div, SFdiv, SFdiv_core_binary.
    change (Zdigits2 100) with 7. rewrite fexp_eq.
    remember (Z.min (Z.max (Zdigits2 (Zpos p) + 0 - (7 + 0) - 53) (-1074)) (0 - 0))
      as e' eqn:Ee'.
    remember (0 - 0 - e') as s eqn:Es.
    assert (Hs : 0 <= s) by lia.
    remember (match s with Z0 => Zpos p | Zpos _ => Z.shiftl (Zpos p) s | Zneg _ => 0 end)
      as m' eqn:Em'.
    assert (Hm' : m' = Zpos p * 2 ^ s).
    { subst m'. clear Es. destruct s as [ | q | q]; try lia.
      rewrite Z.shiftl_mul_pow2 by lia. reflexivity. }
    pose proof (Z.div_eucl_eq m' 100 ltac:(lia)) as Hdiv.
    pose proof (Z.mod_pos_bound m' 100 ltac:(lia)) as Hmod.
    unfold Z.modulo in Hmod.
    destruct (Z.div_eucl m' 100) as [q r].
    intros H.
    pose proof (binary_round_aux_shape (xorb false false) q e' (new_location 100 r)) as Hshape.
    destruct (binary_round_aux _ _ _ q e' _) as [s0 | s0 | | sg m e];
      try discriminate; try (destruct s0; discriminate).
    destruct Hshape as [_ Hexp].
    apply eqb_one_finite in H. destruct H as [_ ->].
    assert (Hq : 0 <= q).
    { assert (0 < 2 ^ s) by (apply Z.pow_pos_nonneg; lia). nia. }
    pose proof (Zdigits2_upper q Hq) as Hup.
    pose proof (Zdigits2_nonneg q) as Hnn.
    assert (Hd : Zdigits2 q <= 1 + s) by lia.
    assert (2 ^ Zdigits2 q <= 2 ^ (1 + s)) by (apply Z.pow_le_mono_r; lia).
    rewrite Z.pow_add_r in * by lia. change (2 ^ 1) with 2 in *.
    assert (0 < 2 ^ s) by (apply Z.pow_pos_nonneg; lia).
    nia. }
  pose proof hundredths_table_ok as T. unfold hundredths_table in T.
  rewrite forallb_forall in T.
  specialize (T (Pos.to_nat p)). rewrite Pos2Nat.id in T.
  rewrite H in T. cbn [implb] in T.
  assert (Hin : In (Pos.to_nat p) (seq 1 199)) by (apply in_seq; lia).
  specialize (T Hin). apply Nat.eqb_eq in T. lia.
Qed.


Lemma round_half_even_hundred (q : Q) :
  PyFloat.round_half_even (q * inject_Z 100) = 100
  <-> (199 # 200 <= q)%Q /\ (q <= 201 # 200)%Q.
Proof.
  destruct q as [n d].
  unfold PyFloat.round_half_even, Qle, Qmult, inject_Z. cbn [Qnum Qden].
  rewrite Pos.mul_1_r.
  pose proof (Z.div_mod (n * 100) (Zpos d) ltac:(lia)) as Hdm.
  pose proof (Z.mod_pos_bound (n * 100) (Zpos d) ltac:(lia)) as Hmod.
  set (k := n * 100 / Zpos d) in *.
  set (r := (n * 100) mod Zpos d) in *.
  clearbody k r.
  assert (HD : 0 < Zpos d) by lia.
  set (D := Zpos d) in *. clearbody D.
  destruct (Z.compare_spec (2 * r) D) as [E | L | G].
  - destruct (Z.even k) eqn:Ek.
    + split; [intros ->; lia | ]. intros [H1 H2].
      assert (99 <= k <= 100) by nia.
      destruct (Z.eq_dec k 99) as [-> | ]; [discriminate | lia].
    + split; intros H.
      * assert (k = 99) by lia. subst k. lia.
      * destruct H as [H1 H2].
        assert (99 <= k <= 100) by nia.
        destruct (Z.eq_dec k 100) as [-> | ]; [discriminate | lia].
  - split; [intros ->; lia | ]. intros [H1 H2]. nia.
  - split; intros H.
    + assert (k = 99) by lia. subst k. lia.
    + destruct H as [H1 H2]. assert (k = 99) by nia. lia.
Qed.

Lemma eqb_one_refl : PyFloat.eqb PyFloat.one PyFloat.one = true.
Proof. reflexivity. Qed.

(** The assertion holds exactly when the float sum rounds to 1.00. *)
Lemma check_settings_spec (cfg : settings) :
  check_settings cfg = true
  <-> PyFloat.round_half_even (PyFloat.F2Q (settings_sum cfg) * inject_Z 100) = 100.
Proof.
  unfold check_settings.
  destruct (settings_sum cfg) as [s | s | | s m e].
  - split; [destruct s; discriminate | discriminate].
  - split; [destruct s; discriminate | discriminate].
  - split; discriminate.
  - unfold PyFloat.py_round.
    change (Pos.of_nat (10 ^ 2)) with 100%positive.
    destruct (PyFloat.round_half_even _) as [ | k | k].
    + split; [destruct s; discriminate | discriminate].
    + split; intros H.
      * apply div_100_is_one in H. now subst k.
      * assert (k = 100%positive) by congruence. subst k. reflexivity.
    + split; [ | discriminate]. intros H. exfalso. revert H.
      unfold PyFloat.div, SFdiv.
      destruct (SFdiv_core_binary _ _ _ _ _ _) as [[mz ez] lz].
      pose proof (binary_round_aux_shape (xorb true false) mz ez lz) as Hshape.
      destruct (binary_round_aux _ _ _ mz ez lz) as [s0 | s0 | | s0 m0 e0].
      * destruct s0; discriminate.
      * destruct s0; discriminate.
      * discriminate.
      * destruct Hshape as [-> _]. discriminate.
Qed.

Lemma check_settings_interval (cfg : settings) :
  check_settings cfg = true
  <-> (199 # 200 <= PyFloat.F2Q (settings_sum cfg))%Q
      /\ (PyFloat.F2Q (settings_sum cfg) <= 201 # 200)%Q.
Proof. rewrite check_settings_spec. apply round_half_even_hundred. Qed.


(** ** Split counts *)

Lemma compute_num_floor_mul (cfg : settings) (n : Z) :
  compute_num cfg n =
  (a <-- floor_mul (TRAIN cfg) n ;;;
   b <-- floor_mul (TEST cfg) n ;;;
   Ok {| at_train := a; at_test := b; at_validation := n - (a + b) |}).
Proof.
  unfold compute_num, floor_mul.
  destruct (PyFloat.mul_int (TRAIN cfg) n) as [x | e]; [ | reflexivity].
  cbn [bind_result].
  destruct (PyFloat.math_floor x) as [a | e]; [ | reflexivity].
  cbn [bind_result].
  destruct (PyFloat.mul_int (TEST cfg) n) as [y | e]; reflexivity.
Qed.

Lemma in_py_range (a b i : Z) : In i (py_range a b) <-> a <= i < b.
Proof.
  unfold py_range. rewrite in_map_iff. split.
  - intros (k & <- & Hk). apply in_seq in Hk. lia.
  - intros H. exists (Z.to_nat (i - a)). split; [lia | ].
    apply in_seq. lia.
Qed.

Lemma py_index_ok {A : Type} (l : list A) (i : Z) :
  0 <= i < len l -> exists x, py_index l i = Ok x /\ nth_error l (Z.to_nat i) = Some x.
Proof.
  intros H. unfold py_index.
  destruct (Z.ltb_spec i 0) as [ | _]; [lia | ].
  destruct (Z.leb_spec 0 i) as [_ | ]; [ | lia].
  destruct (Z.ltb_spec i (len l)) as [_ | ]; [ | lia].
  cbn [andb].
  destruct (nth_error l (Z.to_nat i)) as [x | ] eqn:E.
  - exists x. split; reflexivity.
  - apply nth_error_None in E. unfold len in H. lia.
Qed.

Lemma num_of_cases (num : per_split) (split_type : string) (v : Z) :
  num_of num split_type = Ok v ->
  (split_type = "train"%string /\ v = at_train num)
  \/ (split_type = "test"%string /\ v = at_test num)
  \/ (split_type = "validation"%string /\ v = at_validation num).
Proof.
  unfold num_of.
  destruct (String.eqb_spec split_type "train"); [intros [= <-]; auto | ].
  destruct (String.eqb_spec split_type "test"); [intros [= <-]; auto | ].
  destruct (String.eqb_spec split_type "validation"); [intros [= <-]; auto | ].
  discriminate.
Qed.

Lemma usable_of_proportions (cfg : settings) : proportions cfg -> usable_ratios cfg.
Proof.
  intros (Htr & Hte & Hva & Hsum). repeat split; try apply Htr; try apply Hte.
  destruct Hva as [_ Hva].
  rewrite <- Hsum.
  rewrite <- (Qplus_0_r (_ + _)) at 1.
  apply Qplus_le_compat; [apply Qle_refl | exact Hva].
Qed.

(** With usable ratios and fewer than [2^53] samples, the counts are
    defined, non-negative, and the first two stay within the total. *)
Lemma compute_num_defined (cfg : settings) (n : Z) :
  usable_ratios cfg -> 0 <= n < 2 ^ 53 ->
  exists a b,
    compute_num cfg n
    = Ok {| at_train := a; at_test := b; at_validation := n - (a + b) |}
    /\ 0 <= a /\ 0 <= b /\ a + b <= n.
Proof.
  intros ((Ftr & Htr) & (Fte & Hte) & Hsum) Hn.
  destruct (floors_le_total _ _ n Ftr Fte Htr Hte Hsum Hn)
    as (a & b & Ea & Eb & Ha & Hb & Hab).
  exists a, b. rewrite compute_num_floor_mul, Ea, Eb. cbn [bind_result].
  repeat split; assumption.
Qed.

Lemma compute_num_parts (cfg : settings) (n : Z) (num : per_split) :
  compute_num cfg n = Ok num ->
  floor_mul (TRAIN cfg) n = Ok (at_train num)
  /\ floor_mul (TEST cfg) n = Ok (at_test num)
  /\ at_validation num = n - at_train num - at_test num.
Proof.
  rewrite compute_num_floor_mul.
  destruct (floor_mul (TRAIN cfg) n) as [a | e]; cbn [bind_result]; [ | discriminate].
  destruct (floor_mul (TEST cfg) n) as [b | e]; cbn [bind_result]; [ | discriminate].
  intros [= <-]. cbn [at_train at_test at_validation]. repeat split; lia.
Qed.

(** The two scenarios of the specification, and a total on which the float
    product [0.7 * 90] falls just below 63. *)
Example counts_10 :
  compute_num shipped_settings 10
  = Ok {| at_train := 7; at_test := 2; at_validation := 1 |}.
Proof. vm_compute. reflexivity. Qed.

Example counts_3 :
  compute_num shipped_settings 3
  = Ok {| at_train := 2; at_test := 0; at_validation := 1 |}.
Proof. vm_compute. reflexivity. Qed.

Example counts_90 :
  compute_num shipped_settings 90
  = Ok {| at_train := 62; at_test := 18; at_validation := 10 |}.
Proof. vm_compute. reflexivity. Qed.

(** The bound on the number of samples is not idle in the arithmetic:
    beyond [2^53] an int is rounded on its way to a float. With ratios
    [1.0, 0.0, 0.0] and [2^53 + 3] names, [num['train']] would be
    [2^53 + 4] and [num['validation']] would be [-1]. No list of file
    names is that long. *)
Lemma counts_beyond_2_53 :
  compute_num (with_ratios float_1_0 float_0_0 float_0_0) (2 ^ 53 + 3)
  = Ok {| at_train := 2 ^ 53 + 4; at_test := 0; at_validation := -1 |}.
Proof. vm_compute. reflexivity. Qed.

(** ** The assertion on the settings *)

Lemma add_finite (x y : PyFloat.float) :
  PyFloat.is_finite (PyFloat.add x y) = true ->
  PyFloat.is_finite x = true /\ PyFloat.is_finite y = true.
Proof.
  destruct x as [sx | sx | | sx mx ex], y as [sy | sy | | sy my ey];
    cbn; try (intros; split; (reflexivity || discriminate));
    destruct sx, sy; cbn; intros; split; (reflexivity || discriminate).
Qed.

Lemma check_settings_finite (cfg : settings) :
  check_settings cfg = true ->
  PyFloat.is_finite (TRAIN cfg) = true
  /\ PyFloat.is_finite (TEST cfg) = true
  /\ PyFloat.is_finite (VALIDATION cfg) = true.
Proof.
  unfold check_settings. intros H.
  assert (Hs : PyFloat.is_finite (settings_sum cfg) = true).
  { destruct (settings_sum cfg) as [s | s | | s m e]; try reflexivity.
    - destruct s; discriminate.
    - discriminate. }
  unfold settings_sum in Hs.
  apply add_finite in Hs. destruct Hs as [Hs Hva].
  apply add_finite in Hs. tauto.
Qed.

Lemma main_assertion (cfg : settings) (w : world) :
  check_settings cfg = false -> main cfg w = (w, Raise AssertionError).
Proof. intros H. unfold main, bind, py_assert. rewrite H. reflexivity. Qed.

(** C4, as stated, fails: the float sum of [0.7, 0.2, 0.108] is within
    0.01 of 1.0 (and so is the exact sum of the three values), yet the
    assertion rejects these settings. *)
Lemma settings_check_counterexample :
  let cfg := with_ratios float_0_7 float_0_2 float_0_108 in
  (Qabs (PyFloat.F2Q (settings_sum cfg) - 1) <= 1 # 100)%Q
  /\ (Qabs (PyFloat.F2Q (TRAIN cfg) + PyFloat.F2Q (TEST cfg)
            + PyFloat.F2Q (VALIDATION cfg) - 1) <= 1 # 100)%Q
  /\ check_settings cfg = false.
Proof.
  cbv zeta. split; [ | split].
  - vm_compute. discriminate.
  - vm_compute. discriminate.
  - vm_compute. reflexivity.
Qed.

(** C4, amended: the assertion passes exactly when the float sum
    [TRAIN+TEST+VALIDATION] lies between 0.995 and 1.005 (it is compared with
    1.0 after rounding to two decimals, so the tolerance is 0.005); when it
    fails, the run stops with [AssertionError] and the world is untouched. *)
Theorem settings_check_tolerance (cfg : settings) (w : world) :
  (check_settings cfg = true
   <-> (199 # 200 <= PyFloat.F2Q (settings_sum cfg))%Q
       /\ (PyFloat.F2Q (settings_sum cfg) <= 201 # 200)%Q)
  /\ (check_settings cfg = false -> main cfg w = (w, Raise AssertionError)).
Proof.
  split; [apply check_settings_interval | apply main_assertion].
Qed.

Lemma settings_check_tolerance_witness :
  main (with_ratios float_0_7 float_0_2 float_0_108)
       (mkWorld [] Posix (fun _ => O) O [])
  = (mkWorld [] Posix (fun _ => O) O [], Raise AssertionError).
Proof.
  apply (proj2 (settings_check_tolerance
                  (with_ratios float_0_7 float_0_2 float_0_108)
                  (mkWorld [] Posix (fun _ => O) O []))).
  vm_compute. reflexivity.
Defined.

Example shipped_settings_pass : check_settings shipped_settings = true.
Proof. vm_compute. reflexivity. Qed.

(** ** Paths and the disk *)

Lemma path_eqb_eq (p q : path) : path_eqb p q = true <-> p = q.
Proof.
  revert q. induction p as [ | a p IH]; intros [ | b q]; cbn [path_eqb];
    try (split; (reflexivity || discriminate)).
  rewrite andb_true_iff, String.eqb_eq, IH. split.
  - intros [-> ->]. reflexivity.
  - intros [= -> ->]. split; reflexivity.
Qed.

Lemma path_eqb_refl (p : path) : path_eqb p p = true.
Proof. now apply path_eqb_eq. Qed.

Lemma path_eqb_neq (p q : path) : path_eqb p q = false <-> p <> q.
Proof.
  rewrite <- path_eqb_eq. destruct (path_eqb p q); split; congruence.
Qed.

Lemma is_under_iff (d p : path) : is_under d p = true <-> exists s, p = d ++ s.
Proof.
  revert p. induction d as [ | a d IH]; intros p; cbn [is_under].
  - split; [intros _; now exists p | reflexivity].
  - destruct p as [ | b p].
    + split; [discriminate | intros [s Hs]; discriminate].
    + rewrite andb_true_iff, String.eqb_eq, IH. split.
      * intros [-> [s ->]]. now exists s.
      * intros [s [= -> ->]]. split; [reflexivity | now exists s].
Qed.

Lemma is_under_refl (d : path) : is_under d d = true.
Proof. apply is_under_iff. exists []. now rewrite app_nil_r. Qed.

Lemma is_under_app (d s : path) : is_under d (d ++ s) = true.
Proof. apply is_under_iff. now exists s. Qed.

Lemma is_under_trans (a b c : path) :
  is_under a b = true -> is_under b c = true -> is_under a c = true.
Proof.
  rewrite !is_under_iff. intros [s ->] [t ->]. exists (s ++ t).
  now rewrite app_assoc.
Qed.

Lemma not_under_above (r d p : path) :
  is_under r d = true -> is_under r p = false -> is_under d p = false.
Proof.
  intros Hrd Hrp. destruct (is_under d p) eqn:E; [ | reflexivity].
  rewrite (is_under_trans r d p Hrd E) in Hrp. discriminate.
Qed.

Lemma join_neq (d : path) (a b : string) :
  a <> b -> os_path_join d a <> os_path_join d b.
Proof.
  unfold os_path_join. intros Hab H. apply app_inv_head in H. congruence.
Qed.

Lemma dirname_join (d : path) (a : string) : os_path_dirname (os_path_join d a) = d.
Proof. apply removelast_last. Qed.

Lemma basename_join (d : path) (a : string) : os_path_basename (os_path_join d a) = a.
Proof. apply last_last. Qed.

Lemma join_not_nil (d : path) (a : string) : os_path_join d a <> [].
Proof. unfold os_path_join. destruct d; discriminate. Qed.

Lemma stat_join (fs : filesystem) (d : path) (a : string) :
  stat fs (os_path_join d a) = lookup fs (os_path_join d a).
Proof.
  unfold stat. destruct (os_path_join d a) eqn:E; [ | reflexivity].
  now apply join_not_nil in E.
Qed.

Lemma is_under_siblings (d : path) (a b : string) (s : path) :
  is_under (os_path_join d a) (os_path_join d b ++ s) = true -> a = b.
Proof.
  unfold os_path_join. rewrite is_under_iff. intros [t H].
  rewrite <- !app_assoc in H. apply app_inv_head in H.
  cbn in H. congruence.
Qed.

Lemma lookup_put_eq (fs : filesystem) (p : path) (n : node) :
  lookup (put fs p n) p = Some n.
Proof.
  induction fs as [ | [q m] fs IH]; cbn [put lookup].
  - now rewrite path_eqb_refl.
  - destruct (path_eqb q p) eqn:E; cbn [lookup]; rewrite E; [reflexivity | exact IH].
Qed.

Lemma lookup_put_neq (fs : filesystem) (p q : path) (n : node) :
  p <> q -> lookup (put fs p n) q = lookup fs q.
Proof.
  intros Hpq. induction fs as [ | [r m] fs IH]; cbn [put lookup].
  - apply path_eqb_neq in Hpq. now rewrite Hpq.
  - destruct (path_eqb r p) eqn:E; cbn [lookup].
    + apply path_eqb_eq in E. subst r.
      apply path_eqb_neq in Hpq. now rewrite Hpq.
    + now rewrite IH.
Qed.

Lemma lookup_prune_under (fs : filesystem) (p q : path) :
  is_under p q = true -> lookup (prune fs p) q = None.
Proof.
  intros H. induction fs as [ | [r m] fs IH]; cbn [prune filter lookup fst];
    [reflexivity | ].
  fold (prune fs p).
  destruct (is_under p r) eqn:E; cbn [negb]; [exact IH | ].
  cbn [lookup]. destruct (path_eqb r q) eqn:Erq; [ | exact IH].
  apply path_eqb_eq in Erq. congruence.
Qed.

Lemma lookup_prune_other (fs : filesystem) (p q : path) :
  is_under p q = false -> lookup (prune fs p) q = lookup fs q.
Proof.
  intros H. induction fs as [ | [r m] fs IH]; cbn [prune filter lookup fst];
    [reflexivity | ].
  fold (prune fs p).
  destruct (is_under p r) eqn:E; cbn [negb lookup].
  - destruct (path_eqb r q) eqn:Erq; [ | exact IH].
    apply path_eqb_eq in Erq. congruence.
  - now rewrite IH.
Qed.

Lemma stat_put_neq (fs : filesystem) (p q : path) (n : node) :
  p <> q -> stat (put fs p n) q = stat fs q.
Proof. intros H. destruct q; cbn [stat]; [reflexivity | now apply lookup_put_neq]. Qed.

(** A new entry elsewhere does not change a listing. *)
Lemma entry_names_put_other (fs : filesystem) (p d : path) (n : node) :
  os_path_dirname p <> d \/ lookup fs p <> None ->
  entry_names (put fs p n) d = entry_names fs d.
Proof.
  intros H. unfold entry_names.
  induction fs as [ | [q m] fs IH]; cbn [put flat_map fst].
  - destruct H as [H | H]; [ | now cbn in H].
    destruct p; [reflexivity | ].
    apply path_eqb_neq in H. rewrite H. reflexivity.
  - destruct (path_eqb q p) eqn:E; cbn [flat_map fst]; [reflexivity | ].
    f_equal. apply IH.
    destruct H as [H | H]; [now left | right].
    cbn [lookup] in H. now rewrite E in H.
Qed.



Lemma glob_list_NoDup (fs : filesystem) (d : path) (pat : string) :
  NoDup (glob_list fs d pat).
Proof.
  unfold glob_list. destruct (stat fs d) as [[ | ] | ]; try constructor.
  apply Injective_map_NoDup.
  - intros a b H. unfold os_path_join in H. apply app_inv_head in H. congruence.
  - apply NoDup_filter. apply NoDup_nodup.
Qed.

Lemma glob_list_children (fs : filesystem) (d : path) (pat : string) (p : path) :
  In p (glob_list fs d pat) -> exists name, p = os_path_join d name.
Proof.
  unfold glob_list. destruct (stat fs d) as [[ | ] | ]; try contradiction.
  rewrite in_map_iff. intros (name & <- & _). now exists name.
Qed.

Lemma glob_list_basenames_NoDup (fs : filesystem) (d : path) (pat : string) :
  NoDup (map os_path_basename (glob_list fs d pat)).
Proof.
  unfold glob_list. destruct (stat fs d) as [[ | ] | ]; try constructor.
  rewrite map_map.
  erewrite map_ext; [ | intros a; apply basename_join].
  rewrite map_id. apply NoDup_filter. apply NoDup_nodup.
Qed.

(** ** The shuffle is a permutation *)

Lemma set_nth_length {A : Type} (i : nat) (a : A) (x : list A) :
  List.length (set_nth i a x) = List.length x.
Proof.
  revert i. induction x as [ | b x IH]; intros [ | i]; cbn; try reflexivity.
  now rewrite IH.
Qed.

Lemma nth_set_nth {A : Type} (i k : nat) (a d : A) (x : list A) :
  (i < List.length x)%nat ->
  nth k (set_nth i a x) d = if Nat.eqb k i then a else nth k x d.
Proof.
  revert i k. induction x as [ | b x IH]; intros i k Hi; cbn in Hi; [lia | ].
  destruct i as [ | i], k as [ | k]; cbn; try reflexivity.
  apply IH. lia.
Qed.

Lemma swap_Permutation {A : Type} (i j : nat) (x : list A) :
  Permutation x (swap i j x).
Proof.
  unfold swap.
  destruct (nth_error x i) as [a | ] eqn:Ei; [ | reflexivity].
  destruct (nth_error x j) as [b | ] eqn:Ej; [ | reflexivity].
  assert (Hi : (i < List.length x)%nat) by (apply nth_error_Some; congruence).
  assert (Hj : (j < List.length x)%nat) by (apply nth_error_Some; congruence).
  apply (Permutation_nth _ _ a). cbv zeta.
  split; [now rewrite !set_nth_length | ].
  exists (fun k => if Nat.eqb k i then j else if Nat.eqb k j then i else k).
  split; [ | split].
  - intros k Hk. destruct (Nat.eqb_spec k i); [assumption | ].
    destruct (Nat.eqb_spec k j); assumption.
  - intros k k' Hk Hk'.
    destruct (Nat.eqb_spec k i), (Nat.eqb_spec k' i),
             (Nat.eqb_spec k j), (Nat.eqb_spec k' j); lia.
  - intros k Hk.
    rewrite nth_set_nth by (now rewrite set_nth_length).
    rewrite nth_set_nth by assumption.
    destruct (Nat.eqb_spec k i) as [-> | Hki].
    + symmetry. now apply nth_error_nth.
    + destruct (Nat.eqb_spec k j) as [-> | Hkj]; [ | reflexivity].
      symmetry. now apply nth_error_nth.
Qed.

Lemma shuffle_from_spec {A : Type} (i : nat) (x : list A) (w : world) :
  exists w' x',
    shuffle_from i x w = (w', Ok x') /\ Permutation x x' /\ same_disk w w'.
Proof.
  revert x w. induction i as [ | i IH]; intros x w; cbn [shuffle_from].
  - exists w, x. repeat split; reflexivity.
  - unfold bind, randbelow.
    set (w1 := {| disk := disk w; os_name := os_name w;
                  random_tape := random_tape w;
                  random_pos := S (random_pos w); journal := journal w |}).
    set (j := (random_tape w (random_pos w) mod S (S i))%nat).
    destruct (IH (swap (S i) j x) w1) as (w' & x' & E & HP & HD).
    exists w', x'. split; [exact E | ]. split.
    + etransitivity; [apply swap_Permutation | exact HP].
    + exact HD.
Qed.

Lemma random_shuffle_spec {A : Type} (x : list A) (w : world) :
  exists w' x',
    random_shuffle x w = (w', Ok x') /\ Permutation x x' /\ same_disk w w'.
Proof. apply shuffle_from_spec. Qed.

(** ** Loops *)

Lemma for_each_cons {A : Type} (x : A) (l : list A) (body : A -> M unit) (w : world) :
  for_each (x :: l) body w =
  match body x w with
  | (w', Ok _) => for_each l body w'
  | (w', Raise e) => (w', Raise e)
  end.
Proof. reflexivity. Qed.

Lemma bind_lift_ok {A B : Type} (x : A) (k : A -> M B) (w : world) :
  (y <- lift (Ok x) ;; k y) w = k x w.
Proof. reflexivity. Qed.

Lemma for_each_app {A : Type} (l1 l2 : list A) (body : A -> M unit) (w : world) :
  for_each (l1 ++ l2) body w =
  match for_each l1 body w with
  | (w', Ok _) => for_each l2 body w'
  | (w', Raise e) => (w', Raise e)
  end.
Proof.
  revert w. induction l1 as [ | x l1 IH]; intros w; cbn [app].
  - reflexivity.
  - rewrite !for_each_cons.
    destruct (body x w) as [w1 [[] | e]]; [apply IH | reflexivity].
Qed.

Lemma py_range_cons (a b : Z) : a < b -> py_range a b = a :: py_range (a + 1) b.
Proof.
  intros H. unfold py_range.
  replace (Z.to_nat (b - a)) with (S (Z.to_nat (b - (a + 1)))) by lia.
  cbn [seq map]. f_equal; [lia | ].
  rewrite <- seq_shift, map_map. apply map_ext. intros k. lia.
Qed.

Lemma py_range_nil (a b : Z) : b <= a -> py_range a b = [].
Proof. intros H. unfold py_range. replace (Z.to_nat (b - a)) with O by lia. reflexivity. Qed.

(** A loop over a range of valid indices is a loop over the slice. *)
Lemma for_each_slice {A : Type} (l : list A) (f : A -> M unit) (n s : nat) (w : world) :
  (s + n <= List.length l)%nat ->
  for_each (py_range (Z.of_nat s) (Z.of_nat s + Z.of_nat n))
           (fun i => x <- lift (py_index l i) ;; f x) w
  = for_each (firstn n (skipn s l)) f w.
Proof.
  revert s w. induction n as [ | n IH]; intros s w Hs.
  - rewrite py_range_nil by lia. reflexivity.
  - rewrite py_range_cons by lia.
    destruct (py_index_ok l (Z.of_nat s)) as (x & Hx & Hnth);
      [unfold len; lia | ].
    rewrite Nat2Z.id in Hnth.
    assert (Hskip : skipn s l = x :: skipn (S s) l).
    { clear -Hnth. revert s Hnth. induction l as [ | y l IHl]; intros [ | s] H;
        cbn in *; try discriminate.
      - now injection H as ->.
      - now apply IHl. }
    rewrite Hskip. cbn [firstn]. rewrite !for_each_cons. cbv beta.
    rewrite Hx, bind_lift_ok.
    destruct (f x w) as [w1 [[] | e]]; [ | reflexivity].
    replace (Z.of_nat s + Z.of_nat (S n)) with (Z.of_nat (S s) + Z.of_nat n) by lia.
    replace (Z.of_nat s + 1) with (Z.of_nat (S s)) by lia.
    apply IH. lia.
Qed.

(** ** The reset stage *)


(** C3 fails on the code: with [code] absent and [split_samples] present,
    the reset stage returns normally and has removed nothing. *)
Example reset_leaves_split_samples :
  stat (disk stale_world) ["code"%string] = None
  /\ stat (disk stale_world) ["split_samples"%string] = Some Dir
  /\ exists w', remove_split_folders stale_world = (w', Ok tt)
                /\ stat (disk w') ["split_samples"%string] = Some Dir
                /\ lookup (disk w') ["split_samples"; "train"; "benign"; "old.png"]%string
                   = Some (File "old").
Proof.
  split; [reflexivity | split; [reflexivity | ]].
  exists stale_world. repeat split; reflexivity.
Qed.

(** The stale file then shows up in the next run's manifest. *)
Example stale_file_survives_a_run :
  let w' := fst (main shipped_settings stale_world) in
  snd (main shipped_settings stale_world) = Ok tt
  /\ lookup (disk w') ["split_samples"; "train"; "benign"; "old.png"]%string
     = Some (File "old").
Proof. vm_compute. split; reflexivity. Qed.

(** In the three other cases the stage does what C3 says. *)
Lemma reset_removes_both (w : world) :
  stat (disk w) ["code"%string] = Some Dir ->
  stat (disk w) ["split_samples"%string] = Some Dir
  \/ stat (disk w) ["split_samples"%string] = None ->
  exists w', remove_split_folders w = (w', Ok tt)
             /\ stat (disk w') ["code"%string] = None
             /\ stat (disk w') ["split_samples"%string] = None.
Proof.
  intros Hc Hs. unfold remove_split_folders. cbn [delete_folders_in_dir].
  unfold shutil_rmtree at 1. cbn [os_path_join app]. rewrite Hc.
  unfold shutil_rmtree. cbn [commit disk stat] in *.
  rewrite lookup_prune_other by reflexivity.
  destruct Hs as [Hs | Hs]; rewrite Hs.
  - eexists. split; [reflexivity | ]. cbn [commit disk]. split.
    + rewrite lookup_prune_other by reflexivity.
      now apply lookup_prune_under.
    + now apply lookup_prune_under.
  - eexists. split; [reflexivity | ]. cbn [commit disk]. split.
    + now apply lookup_prune_under.
    + rewrite lookup_prune_other by reflexivity. exact Hs.
Qed.

(** ** Steps that stay inside a part of the disk *)

Lemma confined_refl (roots : list path) (allowed : event -> Prop) (w : world) :
  confined roots allowed w w.
Proof.
  split; [reflexivity | split; [reflexivity | ]].
  exists []. split; [now rewrite app_nil_r | constructor].
Qed.

Lemma confined_trans (roots : list path) (allowed : event -> Prop) (w1 w2 w3 : world) :
  confined roots allowed w1 w2 -> confined roots allowed w2 w3 ->
  confined roots allowed w1 w3.
Proof.
  intros (H1 & O1 & evs1 & J1 & F1) (H2 & O2 & evs2 & J2 & F2).
  split; [ | split].
  - intros p Hp. now rewrite H2, H1.
  - congruence.
  - exists (evs1 ++ evs2). split.
    + now rewrite J2, J1, app_assoc.
    + apply Forall_app. now split.
Qed.

Lemma confined_same_disk (roots : list path) (allowed : event -> Prop) (w w' : world) :
  same_disk w w' -> confined roots allowed w w'.
Proof.
  intros (Hd & Ho & Hj). split; [ | split].
  - intros p _. now rewrite Hd.
  - exact Ho.
  - exists []. split; [now rewrite app_nil_r | constructor].
Qed.

Lemma confined_commit (roots : list path) (allowed : event -> Prop)
      (w : world) (fs : filesystem) (ev : event) :
  (forall p, outside roots p -> lookup fs p = lookup (disk w) p) ->
  allowed ev ->
  confined roots allowed w (commit w fs ev).
Proof.
  intros Hfs Hev. split; [exact Hfs | split; [reflexivity | ]].
  exists [ev]. split; [reflexivity | now constructor].
Qed.

Section Preservation.
Variable R : world -> world -> Prop.
Hypothesis R_refl : forall w, R w w.
Hypothesis R_trans : forall w1 w2 w3, R w1 w2 -> R w2 w3 -> R w1 w3.

Lemma preserves_ret {A : Type} (a : A) : preserves R (ret a).
Proof. intros w w' r [= <- _]. apply R_refl. Qed.

Lemma preserves_lift {A : Type} (x : result A) : preserves R (lift x).
Proof. intros w w' r [= <- _]. apply R_refl. Qed.

Lemma preserves_bind {A B : Type} (c : M A) (k : A -> M B) :
  preserves R c -> (forall a, preserves R (k a)) -> preserves R (bind c k).
Proof.
  intros Hc Hk w w' r. unfold bind.
  destruct (c w) as [w1 [a | e]] eqn:E.
  - intros Hka. eapply R_trans; [eapply Hc, E | eapply Hk, Hka].
  - intros [= <- _]. eapply Hc, E.
Qed.

Lemma preserves_bind_lift {A B : Type} (x : result A) (k : A -> M B) :
  (forall a, x = Ok a -> preserves R (k a)) -> preserves R (bind (lift x) k).
Proof.
  intros Hk w w' r. unfold bind, lift. destruct x as [a | e].
  - now apply Hk.
  - intros [= <- _]. apply R_refl.
Qed.

Lemma preserves_bind_value {A B : Type} (c : M A) (k : A -> M B) (P : A -> Prop) :
  preserves R c ->
  (forall w w' a, c w = (w', Ok a) -> P a) ->
  (forall a, P a -> preserves R (k a)) ->
  preserves R (bind c k).
Proof.
  intros Hc HP Hk w w' r. unfold bind.
  destruct (c w) as [w1 [a | e]] eqn:E.
  - intros Hka. eapply R_trans; [eapply Hc, E | eapply Hk, Hka].
    eapply HP, E.
  - intros [= <- _]. eapply Hc, E.
Qed.

Lemma preserves_for_each {A : Type} (l : list A) (body : A -> M unit) :
  (forall x, In x l -> preserves R (body x)) -> preserves R (for_each l body).
Proof.
  induction l as [ | x l IH]; intros Hbody; cbn [for_each].
  - apply preserves_ret.
  - apply preserves_bind.
    + apply Hbody. now left.
    + intros _. apply IH. intros y Hy. apply Hbody. now right.
Qed.

Lemma preserves_try_except {A : Type} (c : M A) (e : exn) (handler : M A) :
  preserves R c -> preserves R handler -> preserves R (try_except c e handler).
Proof.
  intros Hc Hh w w' r. unfold try_except.
  destruct (c w) as [w1 [a | e']] eqn:E.
  - intros [= <- _]. eapply Hc, E.
  - destruct (exn_eqb e' e).
    + intros Hr. eapply R_trans; [eapply Hc, E | eapply Hh, Hr].
    + intros [= <- _]. eapply Hc, E.
Qed.

Lemma preserves_glob (dir : path) (pat : string) : preserves R (glob_glob dir pat).
Proof. intros w w' r [= <- _]. apply R_refl. Qed.

End Preservation.

Lemma preserves_shuffle {A : Type} (roots : list path) (allowed : event -> Prop)
      (x : list A) :
  preserves (confined roots allowed) (random_shuffle x).
Proof.
  intros w w' r H.
  destruct (random_shuffle_spec x w) as (w1 & x1 & E & _ & HD).
  rewrite E in H. injection H as <- _. now apply confined_same_disk.
Qed.

Lemma outside_neq (roots : list path) (r p q : path) :
  In r roots -> is_under r q = true -> outside roots p -> q <> p.
Proof.
  intros Hr Hq Hp ->. specialize (Hp r Hr). congruence.
Qed.

Lemma preserves_write_file (roots : list path) (allowed : event -> Prop)
      (r p : path) (data : string) (ev : event) :
  In r roots -> is_under r p = true -> allowed ev ->
  preserves (confined roots allowed) (write_file p data ev).
Proof.
  intros Hr Hp Hev w w' res. unfold write_file.
  destruct (stat (disk w) p) as [[ | ] | ];
    destruct (stat (disk w) (os_path_dirname p)) as [[ | ] | ];
    intros [= <- _]; try apply confined_refl;
    apply confined_commit; try assumption;
    intros q Hq; apply lookup_put_neq; eapply outside_neq; eassumption.
Qed.

Lemma preserves_copy (roots : list path) (allowed : event -> Prop) (r src dst : path) :
  In r roots -> is_under r dst = true ->
  allowed (Copy src dst) ->
  allowed (Copy src (os_path_join dst (os_path_basename src))) ->
  preserves (confined roots allowed) (shutil_copy src dst).
Proof.
  intros Hr Hd Ha1 Ha2 w w' res. unfold shutil_copy.
  set (target := match stat (disk w) dst with
                 | Some Dir => os_path_join dst (os_path_basename src)
                 | _ => dst end).
  assert (Ht : is_under r target = true /\ allowed (Copy src target)).
  { subst target. destruct (stat (disk w) dst) as [[ | ] | ]; try (split; assumption).
    split; [ | assumption].
    eapply is_under_trans; [exact Hd | apply is_under_app]. }
  destruct Ht as [Ht Ha].
  destruct (stat (disk w) src) as [[data | ] | ].
  - destruct (path_eqb src target).
    + intros [= <- _]. apply confined_refl.
    + now apply preserves_write_file with (r := r).
  - destruct (path_eqb src target); intros [= <- _]; apply confined_refl.
  - intros [= <- _]. apply confined_refl.
Qed.

Lemma split_copy_intro (src : path) (split_type class_type : string) :
  In split_type split_types -> In class_type class_types ->
  split_copy (Copy src (split_dir split_type class_type))
  /\ split_copy (Copy src (os_path_join (split_dir split_type class_type)
                                       (os_path_basename src))).
Proof.
  intros Hs Hc. split; exists src, split_type, class_type; auto.
Qed.

Lemma main_paths_class (class_type : string) :
  In class_type class_types ->
  dict_get main_paths class_type = Ok (class_dir class_type).
Proof. intros [<- | [<- | []]]; reflexivity. Qed.

Lemma main_paths_split (split_type : string) :
  In split_type split_types ->
  dict_get main_paths split_type
  = Ok (os_path_join (os_path_join [] "split_samples") split_type).
Proof. intros [<- | [<- | [<- | []]]]; reflexivity. Qed.

Lemma split_dir_below (split_type class_type : string) :
  is_under ["split_samples"%string] (split_dir split_type class_type) = true.
Proof. reflexivity. Qed.

Lemma split_data_class_confined (cfg : settings) (class_type : string) :
  In class_type class_types ->
  preserves (confined [["split_samples"%string]] split_copy)
            (split_data_class cfg main_paths class_type).
Proof.
  intros Hc.
  pose proof (confined_refl [["split_samples"%string]] split_copy)
    as Rr.
  pose proof (confined_trans [["split_samples"%string]] split_copy)
    as Rt.
  unfold split_data_class.
  apply preserves_bind_lift; try assumption. intros dir _.
  apply preserves_bind; try assumption; [now apply preserves_glob | intros names].
  apply preserves_bind_lift; try assumption. intros num _.
  apply preserves_bind; try assumption; [apply preserves_shuffle | intros shuffled].
  apply preserves_for_each; try assumption. intros split_type Hs.
  rewrite (main_paths_split split_type Hs).
  apply preserves_bind_lift; try assumption. intros sd [= <-].
  apply preserves_bind_lift; try assumption. intros si _.
  apply preserves_bind_lift; try assumption. intros n _.
  apply preserves_for_each; try assumption. intros i _.
  apply preserves_bind_lift; try assumption. intros src _.
  destruct (split_copy_intro src split_type class_type Hs Hc).
  apply preserves_copy with (r := ["split_samples"%string]);
    [now left | reflexivity | assumption | assumption].
Qed.

Lemma split_data_confined (cfg : settings) :
  preserves (confined [["split_samples"%string]] split_copy)
            (split_data cfg main_paths).
Proof.
  apply preserves_for_each.
  - apply confined_refl.
  - apply confined_trans.
  - intros class_type Hc. now apply split_data_class_confined.
Qed.

(** The whole run, without the rename stage, works below [code] and
    [split_samples]. *)



Lemma not_outside (roots : list path) (r p : path) :
  In r roots -> is_under r p = true -> ~ outside roots p.
Proof. intros Hr Hp Ho. specialize (Ho r Hr). congruence. Qed.













Lemma set_up_folder_structure_value (w w' : world) (dirs : path * path) :
  set_up_folder_structure w = (w', Ok dirs) ->
  dirs = ([], os_path_join [] "split_samples").
Proof.
  unfold set_up_folder_structure. cbv zeta. unfold bind.
  repeat match goal with
         | |- context [match ?c ?x with (_, _) => _ end] =>
             destruct (c x) as [? [[] | ?]]
         end; try discriminate.
  unfold ret. now intros [= _ <-].
Qed.


(** ** The split of one class *)

Lemma split_data_class_unfold (cfg : settings) (class_type : string) (w : world) :
  In class_type class_types ->
  split_data_class cfg main_paths class_type w =
  match compute_num cfg (len (samples_of cfg (disk w) class_type)) with
  | Raise e => (w, Raise e)
  | Ok num =>
      match random_shuffle (samples_of cfg (disk w) class_type) w with
      | (w1, Ok sample_names) =>
          (copy_range sample_names 0 (0 + at_train num)
                      (split_dir "train" class_type) ;;
           copy_range sample_names (at_train num) (at_train num + at_test num)
                      (split_dir "test" class_type) ;;
           copy_range sample_names (at_train num + at_test num)
                      (at_train num + at_test num + at_validation num)
                      (split_dir "validation" class_type) ;;
           ret tt) w1
      | (w1, Raise e) => (w1, Raise e)
      end
  end.
Proof.
  intros Hc. unfold split_data_class.
  rewrite (main_paths_class class_type Hc).
  rewrite bind_lift_ok.
  unfold bind at 1. unfold glob_glob at 1. fold (samples_of cfg (disk w) class_type).
  unfold bind at 1. unfold lift at 1.
  destruct (compute_num cfg _) as [num | e]; [ | reflexivity].
  unfold bind at 1.
  destruct (random_shuffle _ w) as [w1 [sample_names | e]]; [ | reflexivity].
  reflexivity.
Qed.

Lemma floor_mul_zero (r : PyFloat.float) :
  PyFloat.is_finite r = true -> floor_mul r 0 = Ok 0.
Proof. destruct r as [s | s | | s m e]; try discriminate; reflexivity. Qed.

Lemma compute_num_zero (cfg : settings) :
  PyFloat.is_finite (TRAIN cfg) = true -> PyFloat.is_finite (TEST cfg) = true ->
  compute_num cfg 0 = Ok {| at_train := 0; at_test := 0; at_validation := 0 |}.
Proof.
  intros Htr Hte. rewrite compute_num_floor_mul.
  rewrite (floor_mul_zero _ Htr), (floor_mul_zero _ Hte). reflexivity.
Qed.

Lemma split_data_class_empty (cfg : settings) (class_type : string) (w : world) :
  PyFloat.is_finite (TRAIN cfg) = true -> PyFloat.is_finite (TEST cfg) = true ->
  In class_type class_types ->
  samples_of cfg (disk w) class_type = [] ->
  split_data_class cfg main_paths class_type w = (w, Ok tt).
Proof.
  intros Htr Hte Hc Hnone.
  rewrite split_data_class_unfold by assumption.
  rewrite Hnone. change (len (@nil path)) with 0.
  rewrite (compute_num_zero cfg Htr Hte). reflexivity.
Qed.

(** C8. For settings that pass the assertion, a class without matching
    source files gets the counts 0, 0, 0; its split performs no copy, raises
    nothing, and leaves the world exactly as it was. *)
Theorem empty_class_is_skipped (cfg : settings) (class_type : string) (w : world) :
  check_settings cfg = true ->
  In class_type class_types ->
  samples_of cfg (disk w) class_type = [] ->
  compute_num cfg (len (samples_of cfg (disk w) class_type))
  = Ok {| at_train := 0; at_test := 0; at_validation := 0 |}
  /\ split_data_class cfg main_paths class_type w = (w, Ok tt).
Proof.
  intros Hcheck Hc Hnone.
  destruct (check_settings_finite cfg Hcheck) as (Htr & Hte & _).
  split; [ | now apply split_data_class_empty].
  rewrite Hnone. change (len (@nil path)) with 0.
  apply (compute_num_zero cfg Htr Hte).
Qed.

Lemma empty_class_is_skipped_witness :
  split_data_class shipped_settings main_paths "malign" stale_world
  = (stale_world, Ok tt).
Proof.
  apply (empty_class_is_skipped shipped_settings "malign" stale_world).
  - vm_compute. reflexivity.
  - cbn. tauto.
  - reflexivity.
Defined.

(** With both classes empty the whole split stage is a no-op. *)
Corollary empty_dataset_is_skipped (cfg : settings) (w : world) :
  check_settings cfg = true ->
  (forall class_type, In class_type class_types ->
                      samples_of cfg (disk w) class_type = []) ->
  split_data cfg main_paths w = (w, Ok tt).
Proof.
  intros Hcheck Hnone.
  destruct (check_settings_finite cfg Hcheck) as (Htr & Hte & _).
  unfold split_data, class_types. rewrite for_each_cons.
  rewrite (split_data_class_empty cfg "benign" w Htr Hte
             (or_introl eq_refl) (Hnone _ (or_introl eq_refl))).
  cbv beta iota. rewrite for_each_cons.
  rewrite (split_data_class_empty cfg "malign" w Htr Hte
             (or_intror (or_introl eq_refl))
             (Hnone _ (or_intror (or_introl eq_refl)))).
  reflexivity.
Qed.

(** ** Copy loops *)

Lemma stat_file_lookup (fs : filesystem) (p : path) (data : string) :
  stat fs p = Some (File data) -> lookup fs p = Some (File data) /\ p <> [].
Proof. destruct p; cbn [stat]; [discriminate | intros H; split; [exact H | discriminate]]. Qed.

Lemma shutil_copy_ok (src to_dir : path) (w w' : world) :
  stat (disk w) to_dir = Some Dir ->
  shutil_copy src to_dir w = (w', Ok tt) ->
  exists data,
    stat (disk w) src = Some (File data)
    /\ src <> os_path_join to_dir (os_path_basename src)
    /\ lookup (disk w) (os_path_join to_dir (os_path_basename src)) <> Some Dir
    /\ w' = commit w (put (disk w) (os_path_join to_dir (os_path_basename src))
                          (File data))
                   (Copy src (os_path_join to_dir (os_path_basename src))).
Proof.
  intros Hdir. unfold shutil_copy. rewrite Hdir.
  destruct (stat (disk w) src) as [[data | ] | ]; try discriminate.
  - destruct (path_eqb src _) eqn:E; [discriminate | ].
    apply path_eqb_neq in E.
    unfold write_file. rewrite stat_join, dirname_join, Hdir.
    destruct (lookup (disk w) _) as [[d' | ] | ] eqn:Et; try discriminate;
      intros [= <-]; exists data; repeat split; try assumption; discriminate.
  - destruct (path_eqb src _); discriminate.
Qed.

Lemma join_inj_name (d : path) (a b : string) :
  os_path_join d a = os_path_join d b -> a = b.
Proof. unfold os_path_join. intros H. apply app_inv_head in H. congruence. Qed.

(** What a completed copy loop has done. *)
Lemma copy_all_ok (to_dir : path) (srcs : list path) (w w' : world) :
  stat (disk w) to_dir = Some Dir -> to_dir <> [] ->
  copy_all to_dir srcs w = (w', Ok tt) ->
  journal w' = journal w ++ copies_into to_dir srcs
  /\ os_name w' = os_name w
  /\ (forall p, (forall s, In s srcs -> p <> os_path_join to_dir (os_path_basename s)) ->
                lookup (disk w') p = lookup (disk w) p)
  /\ ((forall s s', In s srcs -> In s' srcs ->
                    s <> os_path_join to_dir (os_path_basename s')) ->
      (forall s, In s srcs -> exists data, stat (disk w) s = Some (File data))
      /\ (NoDup (map os_path_basename srcs) ->
          forall s data, In s srcs -> stat (disk w) s = Some (File data) ->
            lookup (disk w') (os_path_join to_dir (os_path_basename s))
            = Some (File data))).
Proof.
  intros Hdir Hnn. unfold copy_all. revert w Hdir.
  induction srcs as [ | src srcs IH]; intros w Hdir H.
  - injection H as <-. cbn [copies_into map]. rewrite app_nil_r.
    repeat split; try reflexivity; intros; contradiction.
  - rewrite for_each_cons in H.
    destruct (shutil_copy src to_dir w) as [w1 [[] | e]] eqn:E; [ | discriminate].
    destruct (shutil_copy_ok src to_dir w w1 Hdir E) as (data & Hsrc & Hne & Hnd & ->).
    set (target := os_path_join to_dir (os_path_basename src)) in *.
    assert (Hdir1 : stat (disk (commit w (put (disk w) target (File data))
                                       (Copy src target))) to_dir = Some Dir).
    { cbn [commit disk]. rewrite stat_put_neq; [exact Hdir | ].
      subst target. unfold os_path_join. intros Heq.
      apply (f_equal (@List.length string)) in Heq.
      rewrite length_app in Heq. cbn in Heq. lia. }
    destruct (IH _ Hdir1 H) as (Hj & Ho & Hframe & Hrest).
    cbn [commit disk journal os_name] in *.
    split; [ | split; [ | split]].
    + rewrite Hj. cbn [copies_into map]. now rewrite <- app_assoc.
    + exact Ho.
    + intros p Hp. rewrite Hframe.
      * apply lookup_put_neq. intros <-. apply (Hp src); [now left | reflexivity].
      * intros s Hs. apply Hp. now right.
    + intros Hapart.
      destruct (Hrest (fun s s' Hs Hs' => Hapart s s' (or_intror Hs) (or_intror Hs')))
        as [Hfiles Hcontent].
      split.
      * intros s [<- | Hs]; [now exists data | ].
        destruct (Hfiles s Hs) as [d Hd].
        rewrite stat_put_neq in Hd; [now exists d | ].
        intros <-. now apply (Hapart target src (or_intror Hs) (or_introl eq_refl)).
      * intros Hnodup s d Hin Hs.
        inversion Hnodup as [ | b bs Hnotin Hnodup']; subst.
        destruct Hin as [<- | Hin].
        -- rewrite Hframe.
           ++ rewrite Hsrc in Hs. injection Hs as <-. apply lookup_put_eq.
           ++ intros s' Hs' Heq. apply Hnotin.
              apply join_inj_name in Heq. rewrite Heq. now apply in_map.
        -- apply Hcontent; try assumption.
           rewrite stat_put_neq; [exact Hs | ].
           intros <-. now apply (Hapart target src (or_intror Hin) (or_introl eq_refl)).
Qed.

Lemma copy_all_total (to_dir : path) (srcs : list path) (w : world) :
  stat (disk w) to_dir = Some Dir -> to_dir <> [] ->
  (forall s, In s srcs -> exists data, stat (disk w) s = Some (File data)) ->
  (forall s s', In s srcs -> In s' srcs ->
                s <> os_path_join to_dir (os_path_basename s')) ->
  (forall s, In s srcs ->
             lookup (disk w) (os_path_join to_dir (os_path_basename s)) <> Some Dir) ->
  exists w', copy_all to_dir srcs w = (w', Ok tt).
Proof.
  intros Hdir Hnn. unfold copy_all. revert w Hdir.
  induction srcs as [ | src srcs IH]; intros w Hdir Hfiles Hapart Htargets.
  - now exists w.
  - rewrite for_each_cons.
    destruct (Hfiles src (or_introl eq_refl)) as [data Hsrc].
    assert (Hc : shutil_copy src to_dir w
                 = (commit w (put (disk w) (os_path_join to_dir (os_path_basename src))
                                  (File data))
                           (Copy src (os_path_join to_dir (os_path_basename src))), Ok tt)).
    { unfold shutil_copy. rewrite Hdir, Hsrc.
      assert (E : path_eqb src (os_path_join to_dir (os_path_basename src)) = false).
      { apply path_eqb_neq. apply Hapart; now left. }
      rewrite E. unfold write_file. rewrite stat_join, dirname_join, Hdir.
      destruct (lookup (disk w) _) as [[d' | ] | ] eqn:El; try reflexivity.
      now contradiction (Htargets src (or_introl eq_refl)). }
    rewrite Hc.
    apply IH; cbn [commit disk].
    + rewrite stat_put_neq; [exact Hdir | ].
      unfold os_path_join. intros Heq.
      apply (f_equal (@List.length string)) in Heq.
      rewrite length_app in Heq. cbn in Heq. lia.
    + intros s Hs. destruct (Hfiles s (or_intror Hs)) as [d Hd].
      exists d. rewrite stat_put_neq; [exact Hd | ].
      intros <-. now apply (Hapart _ src (or_intror Hs) (or_introl eq_refl)).
    + intros s s' Hs Hs'. apply Hapart; now right.
    + intros s Hs.
      destruct (list_eq_dec string_dec
                  (os_path_join to_dir (os_path_basename src))
                  (os_path_join to_dir (os_path_basename s))) as [<- | Hne].
      * rewrite lookup_put_eq. discriminate.
      * rewrite lookup_put_neq by assumption. now apply Htargets; right.
Qed.

(** A loop that meets an element on which its body always raises does not
    complete. *)
Lemma for_each_raise {A : Type} (l : list A) (body : A -> M unit) (x : A) (w w' : world) :
  In x l -> (forall w0, exists e, body x w0 = (w0, Raise e)) ->
  for_each l body w <> (w', Ok tt).
Proof.
  intros Hin Hx. revert w. induction l as [ | y l IH]; intros w; [contradiction | ].
  rewrite for_each_cons. destruct Hin as [-> | Hin].
  - destruct (Hx w) as [e ->]. discriminate.
  - destruct (body y w) as [w1 [[] | e]]; [now apply IH | discriminate].
Qed.

Lemma py_index_out_of_range {A : Type} (l : list A) (i : Z) :
  len l <= i -> py_index l i = Raise IndexError.
Proof.
  intros H. unfold py_index. unfold len in *.
  destruct (Z.ltb_spec i 0) as [ | _]; [lia | ].
  destruct (Z.ltb_spec i (Z.of_nat (List.length l))) as [ | _]; [lia | ].
  now rewrite andb_false_r.
Qed.

(** A completed copy loop from a non-negative start stayed inside the list. *)
Lemma copy_range_in_bounds (sample_names : list path) (lo hi : Z) (to_dir : path)
      (w w' : world) :
  0 <= lo ->
  copy_range sample_names lo hi to_dir w = (w', Ok tt) ->
  hi <= lo \/ hi <= len sample_names.
Proof.
  intros Hlo H.
  destruct (Z.le_gt_cases hi lo) as [ | Hgt]; [now left | right].
  destruct (Z.le_gt_cases hi (len sample_names)) as [ | Hbig]; [assumption | ].
  exfalso. revert H. unfold copy_range.
  apply for_each_raise with (x := Z.max lo (len sample_names)).
  - apply in_py_range. lia.
  - intros w0. exists IndexError.
    unfold bind, lift. rewrite py_index_out_of_range by lia. reflexivity.
Qed.

Lemma copy_range_slice (sample_names : list path) (lo hi : Z) (to_dir : path) (w : world) :
  0 <= lo <= hi -> hi <= len sample_names ->
  copy_range sample_names lo hi to_dir w
  = copy_all to_dir (firstn (Z.to_nat (hi - lo)) (skipn (Z.to_nat lo) sample_names)) w.
Proof.
  intros Hlo Hhi. unfold copy_range, copy_all.
  rewrite <- for_each_slice by (unfold len in Hhi; lia).
  do 2 f_equal; lia.
Qed.

Lemma floor_mul_nonneg (r : PyFloat.float) (n a : Z) :
  finite_nonneg r -> 0 <= n -> floor_mul r n = Ok a -> 0 <= a.
Proof.
  intros [Hfin Hnn] Hn. unfold floor_mul, PyFloat.mul_int, PyFloat.of_int.
  destruct n as [ | p | p]; try lia.
  - cbn [binary_normalize bind_result].
    destruct r as [s | s | | s m e]; try discriminate; cbn; intros [= <-]; lia.
  - cbn [binary_normalize]. unfold binary_round.
    destruct (shl_align _ _ _) as [mz ez].
    pose proof (binary_round_aux_shape false (Zpos mz) ez loc_Exact) as Hy.
    destruct (binary_round_aux _ _ _ _ _ _) as [sy | sy | | sy my ey];
      cbv beta iota; cbn [bind_result]; try discriminate.
    + destruct r as [s | s | | s m e]; try discriminate; cbn; intros [= <-]; lia.
    + destruct r as [s | s | | s m e]; try discriminate; cbn; discriminate.
    + destruct Hy as [Hsy _]. subst sy.
      destruct r as [s | s | | s m e]; try discriminate.
      { cbn. intros [= <-]. lia. }
      destruct s.
      { exfalso. unfold Qle in Hnn.
        destruct e as [ | q | q]; cbn [PyFloat.F2Q cond_Zopp Qnum Qden inject_Z] in Hnn.
        - cbn in Hnn. lia.
        - assert (0 < 2 ^ Zpos q) by (apply Z.pow_pos_nonneg; lia).
          rewrite Z.mul_1_r in Hnn. change (0 * 1) with 0 in Hnn.
          rewrite Z.mul_opp_l in Hnn. nia.
        - rewrite Z.mul_1_r in Hnn. lia. }
      unfold PyFloat.mul, SFmul. cbn [xorb].
      pose proof (binary_round_aux_shape false (Zpos (m * my)) (e + ey) loc_Exact) as Hz.
      destruct (binary_round_aux _ _ _ _ _ _) as [sz | sz | | sz mz' ez'];
        cbn [PyFloat.math_floor]; try discriminate.
      * intros [= <-]. lia.
      * destruct Hz as [Hsz _]. subst sz. cbn [cond_Zopp]. intros [= <-].
           apply Z.shiftl_nonneg. lia.
Qed.

(** ** Several copy loops in a row *)

Lemma copy_all_no_new_dir (to_dir : path) (srcs : list path) (w w' : world) (p : path) :
  stat (disk w) to_dir = Some Dir -> to_dir <> [] ->
  copy_all to_dir srcs w = (w', Ok tt) ->
  lookup (disk w') p = Some Dir -> lookup (disk w) p = Some Dir.
Proof.
  intros Hdir Hnn. unfold copy_all. revert w Hdir.
  induction srcs as [ | src srcs IH]; intros w Hdir H.
  - injection H as <-. auto.
  - rewrite for_each_cons in H.
    destruct (shutil_copy src to_dir w) as [w1 [[] | e]] eqn:E; [ | discriminate].
    destruct (shutil_copy_ok src to_dir w w1 Hdir E) as (data & Hsrc & Hne & Hnd & ->).
    intros Hp.
    assert (Hdir1 : stat (disk (commit w (put (disk w)
                                     (os_path_join to_dir (os_path_basename src))
                                     (File data))
                                  (Copy src (os_path_join to_dir (os_path_basename src)))))
                         to_dir = Some Dir).
    { cbn [commit disk]. rewrite stat_put_neq; [exact Hdir | ].
      unfold os_path_join. intros Heq.
      apply (f_equal (@List.length string)) in Heq.
      rewrite length_app in Heq. cbn in Heq. lia. }
    specialize (IH _ Hdir1 H Hp). cbn [commit disk] in IH.
    destruct (list_eq_dec string_dec (os_path_join to_dir (os_path_basename src)) p)
      as [<- | Hneq].
    + rewrite lookup_put_eq in IH. discriminate.
    + now rewrite lookup_put_neq in IH.
Qed.

Lemma stat_nonempty (fs : filesystem) (p : path) : p <> [] -> stat fs p = lookup fs p.
Proof. destruct p; [congruence | reflexivity]. Qed.

Lemma join_neq_dirs (d d' : path) (a b : string) :
  d <> d' -> os_path_join d a <> os_path_join d' b.
Proof.
  unfold os_path_join. intros Hd H. apply app_inj_tail in H. now destruct H.
Qed.


Lemma copy_parts_ok (parts : list (path * list path)) (w w' : world) :
  (forall d l, In (d, l) parts -> stat (disk w) d = Some Dir /\ d <> []) ->
  dirs_apart parts ->
  copy_parts parts w = (w', Ok tt) ->
  journal w' = journal w ++ flat_map (fun dl => copies_into (fst dl) (snd dl)) parts
  /\ (forall p, (forall d l s, In (d, l) parts -> In s l ->
                               p <> os_path_join d (os_path_basename s)) ->
                lookup (disk w') p = lookup (disk w) p)
  /\ (forall p, lookup (disk w') p = Some Dir -> lookup (disk w) p = Some Dir)
  /\ (sources_apart parts ->
      (forall d l s, In (d, l) parts -> In s l ->
                     exists data, stat (disk w) s = Some (File data))
      /\ (NoDup (map fst parts) ->
          (forall d l, In (d, l) parts -> NoDup (map os_path_basename l)) ->
          forall d l s data, In (d, l) parts -> In s l ->
            stat (disk w) s = Some (File data) ->
            lookup (disk w') (os_path_join d (os_path_basename s)) = Some (File data))).
Proof.
  revert w. induction parts as [ | [d0 l0] rest IH]; intros w Hdirs Hdt H.
  - injection H as <-. cbn [flat_map]. rewrite app_nil_r.
    repeat split; try reflexivity; try tauto; intros; contradiction.
  - cbn [copy_parts] in H. unfold bind in H.
    destruct (copy_all d0 l0 w) as [w1 [[] | e]] eqn:E; [ | discriminate].
    destruct (Hdirs d0 l0 (or_introl eq_refl)) as [Hd0 Hnn0].
    destruct (copy_all_ok d0 l0 w w1 Hd0 Hnn0 E) as (Hj1 & _ & Hframe1 & Hrest1).
    assert (Hdirs1 : forall d l, In (d, l) rest -> stat (disk w1) d = Some Dir /\ d <> []).
    { intros d l Hin. destruct (Hdirs d l (or_intror Hin)) as [Hd Hnn].
      split; [ | exact Hnn].
      rewrite stat_nonempty in * by assumption. rewrite Hframe1; [exact Hd | ].
      intros s Hs. eapply Hdt; [right; exact Hin | left; reflexivity | exact Hs]. }
    assert (Hdt1 : dirs_apart rest).
    { intros d l d' l' s' Hin Hin' Hs'. eapply Hdt; [right | right | ]; eassumption. }
    destruct (IH w1 Hdirs1 Hdt1 H) as (Hj & Hframe & Hnodir & Hrest).
    split; [ | split; [ | split]].
    + rewrite Hj, Hj1. cbn [flat_map fst snd]. now rewrite app_assoc.
    + intros p Hp. transitivity (lookup (disk w1) p).
      * apply Hframe. intros d l s Hin Hs. apply (Hp d l s); [now right | exact Hs].
      * apply Hframe1. intros s Hs. apply (Hp d0 l0 s); [now left | exact Hs].
    + intros p Hp. apply Hnodir in Hp.
      eapply copy_all_no_new_dir; eassumption.
    + intros Hapart.
      assert (Hapart0 : forall s s', In s l0 -> In s' l0 ->
                                     s <> os_path_join d0 (os_path_basename s')).
      { intros s s' Hs Hs'.
        apply (Hapart d0 l0 d0 l0 s s'); try assumption; now left. }
      assert (Hapart1 : sources_apart rest).
      { intros d l d' l' s s' Hin Hin' Hs Hs'.
        apply (Hapart d l d' l' s s'); try assumption; now right. }
      destruct (Hrest1 Hapart0) as [Hfiles0 Hcontent0].
      destruct (Hrest Hapart1) as [Hfiles Hcontent].
      assert (Hback : forall d l s, In (d, l) rest -> In s l ->
                                    stat (disk w1) s = stat (disk w) s).
      { intros d l s Hin Hs.
        destruct (Hfiles d l s Hin Hs) as [data Hdata].
        destruct (stat_file_lookup _ _ _ Hdata) as [_ Hnn].
        rewrite !stat_nonempty by assumption. apply Hframe1.
        intros s' Hs'.
        apply (Hapart d l d0 l0 s s'); try assumption; [now right | now left]. }
      split.
      * intros d l s [[= <- <-] | Hin] Hs; [now apply Hfiles0 | ].
        destruct (Hfiles d l s Hin Hs) as [data Hdata].
        exists data. now rewrite <- (Hback d l s Hin Hs).
      * intros Hnd Hndl d l s data Hin Hs Hdata.
        inversion Hnd as [ | d1 ds Hnotin Hnd']; subst.
        destruct Hin as [[= <- <-] | Hin].
        -- rewrite Hframe.
           ++ apply Hcontent0; try assumption.
              apply (Hndl d0 l0). now left.
           ++ intros d' l' s' Hin' Hs'. apply join_neq_dirs.
              intros <-. apply Hnotin. cbn [fst].
              change d0 with (fst (d0, l')). now apply in_map.
        -- apply Hcontent with (l := l); try assumption.
           ++ intros d' l' Hin'. apply (Hndl d' l'). now right.
           ++ now rewrite (Hback d l s Hin Hs).
Qed.

Lemma copy_parts_total (parts : list (path * list path)) (w : world) :
  (forall d l, In (d, l) parts -> stat (disk w) d = Some Dir /\ d <> []) ->
  dirs_apart parts -> sources_apart parts ->
  (forall d l s, In (d, l) parts -> In s l ->
                 exists data, stat (disk w) s = Some (File data)) ->
  (forall d l s, In (d, l) parts -> In s l ->
                 lookup (disk w) (os_path_join d (os_path_basename s)) <> Some Dir) ->
  exists w', copy_parts parts w = (w', Ok tt).
Proof.
  revert w. induction parts as [ | [d0 l0] rest IH];
    intros w Hdirs Hdt Hapart Hfiles Htargets.
  - now exists w.
  - cbn [copy_parts]. unfold bind.
    destruct (Hdirs d0 l0 (or_introl eq_refl)) as [Hd0 Hnn0].
    destruct (copy_all_total d0 l0 w Hd0 Hnn0) as [w1 E].
    + intros s Hs. eapply Hfiles; [left; reflexivity | exact Hs].
    + intros s s' Hs Hs'.
      apply (Hapart d0 l0 d0 l0 s s'); try assumption; now left.
    + intros s Hs. eapply Htargets; [left; reflexivity | exact Hs].
    + rewrite E.
      destruct (copy_all_ok d0 l0 w w1 Hd0 Hnn0 E) as (_ & _ & Hframe1 & _).
      apply IH.
      * intros d l Hin. destruct (Hdirs d l (or_intror Hin)) as [Hd Hnn].
        split; [ | exact Hnn].
        rewrite stat_nonempty in * by assumption. rewrite Hframe1; [exact Hd | ].
        intros s Hs. eapply Hdt; [right; exact Hin | left; reflexivity | exact Hs].
      * intros d l d' l' s' Hin Hin' Hs'. eapply Hdt; [right | right | ]; eassumption.
      * intros d l d' l' s s' Hin Hin' Hs Hs'.
        apply (Hapart d l d' l' s s'); try assumption; now right.
      * intros d l s Hin Hs.
        destruct (Hfiles d l s (or_intror Hin) Hs) as [data Hdata].
        exists data.
        destruct (stat_file_lookup _ _ _ Hdata) as [_ Hnn].
        rewrite stat_nonempty in * by assumption. rewrite Hframe1; [exact Hdata | ].
        intros s' Hs'.
        apply (Hapart d l d0 l0 s s'); try assumption; [now right | now left].
      * intros d l s Hin Hs Hdir.
        apply (copy_all_no_new_dir d0 l0 w w1 _ Hd0 Hnn0 E) in Hdir.
        revert Hdir. eapply Htargets; [right; exact Hin | exact Hs].
Qed.

(** ** Every sample goes to exactly one split *)

Lemma parts_cover (num : per_split) (shuffled : list path) :
  0 <= at_train num -> 0 <= at_test num ->
  train_part num shuffled ++ test_part num shuffled ++ validation_part num shuffled
  = shuffled.
Proof.
  intros Ha Hb. unfold train_part, test_part, validation_part.
  rewrite Z2Nat.inj_add by assumption.
  rewrite <- (firstn_skipn (Z.to_nat (at_train num)) shuffled) at 4.
  f_equal.
  rewrite <- (firstn_skipn (Z.to_nat (at_test num))
                (skipn (Z.to_nat (at_train num)) shuffled)) at 2.
  f_equal. now rewrite skipn_skipn, Nat.add_comm.
Qed.

Lemma three_loops_as_parts (class_type : string) (num : per_split)
      (shuffled : list path) (w : world) :
  0 <= at_train num -> 0 <= at_test num ->
  at_train num + at_test num <= len shuffled ->
  at_validation num = len shuffled - (at_train num + at_test num) ->
  (copy_range shuffled 0 (0 + at_train num) (split_dir "train" class_type) ;;
   copy_range shuffled (at_train num) (at_train num + at_test num)
              (split_dir "test" class_type) ;;
   copy_range shuffled (at_train num + at_test num)
              (at_train num + at_test num + at_validation num)
              (split_dir "validation" class_type) ;;
   ret tt) w
  = copy_parts (split_parts class_type num shuffled) w.
Proof.
  intros Ha Hb Hab Hc. unfold split_parts. cbn [copy_parts].
  unfold bind at 1 4.
  rewrite copy_range_slice by lia.
  replace (Z.to_nat (0 + at_train num - 0)) with (Z.to_nat (at_train num)) by lia.
  change (skipn (Z.to_nat 0) shuffled) with shuffled.
  fold (train_part num shuffled).
  destruct (copy_all _ (train_part num shuffled) w) as [w1 [[] | e]]; [ | reflexivity].
  unfold bind at 1 3.
  rewrite copy_range_slice by lia.
  replace (Z.to_nat (at_train num + at_test num - at_train num))
    with (Z.to_nat (at_test num)) by lia.
  fold (test_part num shuffled).
  destruct (copy_all _ (test_part num shuffled) w1) as [w2 [[] | e]]; [ | reflexivity].
  unfold bind at 1 2.
  rewrite copy_range_slice by lia.
  rewrite firstn_all2.
  - reflexivity.
  - rewrite length_skipn. unfold len in *. lia.
Qed.

Lemma in_firstn {A : Type} (n : nat) (l : list A) (x : A) :
  In x (firstn n l) -> In x l.
Proof.
  intros H. rewrite <- (firstn_skipn n l). apply in_or_app. now left.
Qed.

Lemma in_skipn {A : Type} (n : nat) (l : list A) (x : A) :
  In x (skipn n l) -> In x l.
Proof.
  intros H. rewrite <- (firstn_skipn n l). apply in_or_app. now right.
Qed.

Lemma split_dirs_differ (class_type : string) :
  NoDup (map fst (split_parts class_type
                    {| at_train := 0; at_test := 0; at_validation := 0 |} [])).
Proof.
  cbn. repeat constructor; cbn; intros H;
    repeat (destruct H as [H | H]; [discriminate H | ]); exact H.
Qed.

Lemma split_parts_dirs (class_type : string) (num : per_split) (shuffled : list path)
      (d : path) (l : list path) :
  In (d, l) (split_parts class_type num shuffled) ->
  (exists split_type, In split_type split_types /\ d = split_dir split_type class_type)
  /\ List.length d = 3%nat
  /\ forall s, In s l -> In s shuffled.
Proof.
  unfold split_parts, train_part, test_part, validation_part.
  intros [[= <- <-] | [[= <- <-] | [[= <- <-] | []]]];
    (split; [eexists; split; [ | reflexivity]; cbn; tauto | split; [reflexivity | ]]);
    intros s Hs.
  - eapply in_firstn, Hs.
  - eapply in_skipn, in_firstn, Hs.
  - eapply in_skipn, Hs.
Qed.

Lemma sample_length (cfg : settings) (fs : filesystem) (class_type : string) (s : path) :
  In s (samples_of cfg fs class_type) -> List.length s = 2%nat.
Proof.
  intros H. apply glob_list_children in H. destruct H as [name ->]. reflexivity.
Qed.

Lemma NoDup_map_part {A B : Type} (f : A -> B) (l1 l2 l3 : list A) :
  NoDup (map f (l1 ++ l2 ++ l3)) ->
  NoDup (map f l1) /\ NoDup (map f l2) /\ NoDup (map f l3).
Proof.
  rewrite !map_app. intros H.
  split; [eapply NoDup_app_remove_r, H | ].
  apply NoDup_app_remove_l in H.
  split; [eapply NoDup_app_remove_r, H | eapply NoDup_app_remove_l, H].
Qed.

(** The split of one class, in full. *)
Lemma split_data_class_effect (cfg : settings) (class_type : string) (w : world) :
  In class_type class_types ->
  finite_nonneg (TRAIN cfg) -> finite_nonneg (TEST cfg) ->
  (forall split_type, In split_type split_types ->
                      stat (disk w) (split_dir split_type class_type) = Some Dir) ->
  let names := samples_of cfg (disk w) class_type in
  let shuffled := shuffled_samples cfg w class_type in
  Permutation names shuffled
  /\ (forall w',
        split_data_class cfg main_paths class_type w = (w', Ok tt) ->
        exists num,
          compute_num cfg (len names) = Ok num
          /\ train_part num shuffled ++ test_part num shuffled
             ++ validation_part num shuffled = shuffled
          /\ NoDup shuffled
          /\ len (train_part num shuffled) = at_train num
          /\ len (test_part num shuffled) = at_test num
          /\ len (validation_part num shuffled) = at_validation num
          /\ journal w'
             = journal w
               ++ copies_into (split_dir "train" class_type) (train_part num shuffled)
               ++ copies_into (split_dir "test" class_type) (test_part num shuffled)
               ++ copies_into (split_dir "validation" class_type)
                              (validation_part num shuffled)
          /\ (forall to_dir part src,
                In (to_dir, part) (split_parts class_type num shuffled) ->
                In src part ->
                exists data,
                  stat (disk w) src = Some (File data)
                  /\ lookup (disk w') (os_path_join to_dir (os_path_basename src))
                     = Some (File data))
          /\ (forall p,
                (forall to_dir part src,
                   In (to_dir, part) (split_parts class_type num shuffled) ->
                   In src part ->
                   p <> os_path_join to_dir (os_path_basename src)) ->
                lookup (disk w') p = lookup (disk w) p))
  /\ ((PyFloat.F2Q (TRAIN cfg) + PyFloat.F2Q (TEST cfg) <= 1)%Q ->
      len names < 2 ^ 53 ->
      (forall src, In src names -> exists data, stat (disk w) src = Some (File data)) ->
      (forall split_type src,
         In split_type split_types -> In src names ->
         lookup (disk w) (os_path_join (split_dir split_type class_type)
                                       (os_path_basename src)) <> Some Dir) ->
      exists w', split_data_class cfg main_paths class_type w = (w', Ok tt)).
Proof.
  intros Hc Htr Hte Hdirs names shuffled.
  destruct (random_shuffle_spec names w) as (w1 & sh & Esh & Hperm & Hd1 & Ho1 & Hj1).
  assert (Eshuffled : shuffled = sh).
  { subst shuffled. unfold shuffled_samples. fold names. now rewrite Esh. }
  rewrite Eshuffled. clear Eshuffled shuffled.
  assert (Hlen : len sh = len names).
  { unfold len. f_equal. symmetry. now apply Permutation_length. }
  assert (Hlen0 : 0 <= len names) by (unfold len; lia).
  assert (Hnodup : NoDup sh).
  { eapply Permutation_NoDup; [exact Hperm | apply glob_list_NoDup]. }
  assert (Hnodupb : NoDup (map os_path_basename sh)).
  { eapply Permutation_NoDup; [apply Permutation_map, Hperm | ].
    apply glob_list_basenames_NoDup. }
  assert (Hsample : forall s, In s sh -> List.length s = 2%nat).
  { intros s Hs. apply (sample_length cfg (disk w) class_type).
    eapply Permutation_in; [symmetry; exact Hperm | exact Hs]. }
  (* facts about the three loops, for any counts *)
  assert (Hparts : forall num,
             (forall d l, In (d, l) (split_parts class_type num sh) ->
                          stat (disk w1) d = Some Dir /\ d <> [])
             /\ dirs_apart (split_parts class_type num sh)
             /\ sources_apart (split_parts class_type num sh)).
  { intros num. split; [ | split].
    - intros d l Hin.
      destruct (split_parts_dirs _ _ _ _ _ Hin) as ((st & Hst & ->) & _ & _).
      rewrite Hd1. split; [now apply Hdirs | discriminate].
    - intros d l d' l' s' Hin Hin' Hs' Heq.
      destruct (split_parts_dirs _ _ _ _ _ Hin) as (_ & Hl & _).
      destruct (split_parts_dirs _ _ _ _ _ Hin') as (_ & Hl' & _).
      apply (f_equal (@List.length string)) in Heq.
      unfold os_path_join in Heq. rewrite length_app in Heq. cbn in Heq. lia.
    - intros d l d' l' s s' Hin Hin' Hs Hs' Heq.
      destruct (split_parts_dirs _ _ _ _ _ Hin) as (_ & _ & Hsub).
      destruct (split_parts_dirs _ _ _ _ _ Hin') as (_ & Hl' & _).
      apply (f_equal (@List.length string)) in Heq.
      rewrite (Hsample s (Hsub s Hs)) in Heq.
      unfold os_path_join in Heq. rewrite length_app in Heq. cbn in Heq. lia. }
  split; [exact Hperm | split].
  - (* a completed run *)
    intros w' Hrun. rewrite split_data_class_unfold in Hrun by assumption.
    fold names in Hrun.
    destruct (compute_num cfg (len names)) as [num | e] eqn:Enum; [ | discriminate].
    rewrite Esh in Hrun.
    exists num. split; [reflexivity | ].
    destruct (compute_num_parts cfg (len names) num Enum) as (Ea & Eb & Ec).
    pose proof (floor_mul_nonneg _ _ _ Htr Hlen0 Ea) as Ha.
    pose proof (floor_mul_nonneg _ _ _ Hte Hlen0 Eb) as Hb.
    assert (Hab : at_train num + at_test num <= len sh).
    { pose proof Hrun as Hrun'. unfold bind at 1 in Hrun'.
      destruct (copy_range sh 0 _ _ w1) as [w2 [[] | e]] eqn:E1; [ | discriminate].
      apply copy_range_in_bounds in E1; [ | lia].
      unfold bind at 1 in Hrun'.
      destruct (copy_range sh (at_train num) _ _ w2) as [w3 [[] | e]] eqn:E2;
        [ | discriminate].
      apply copy_range_in_bounds in E2; lia. }
    rewrite three_loops_as_parts in Hrun by lia.
    destruct (Hparts num) as (Hpd & Hpa & Hps).
    destruct (copy_parts_ok _ w1 w' Hpd Hpa Hrun) as (Hj & Hframe & _ & Hrest).
    destruct (Hrest Hps) as [Hfiles Hcontent].
    pose proof (parts_cover num sh Ha Hb) as Hcover.
    split; [exact Hcover | ]. split; [exact Hnodup | ].
    assert (Hl1 : len (train_part num sh) = at_train num).
    { unfold len, train_part in *. rewrite length_firstn. lia. }
    assert (Hl2 : len (test_part num sh) = at_test num).
    { unfold len, test_part in *. rewrite length_firstn, length_skipn. lia. }
    assert (Hl3 : len (validation_part num sh) = at_validation num).
    { unfold len, validation_part in *. rewrite length_skipn. lia. }
    repeat (split; [assumption | ]).
    split; [ | split]; [ | | intros p Hp; rewrite <- Hd1; now apply Hframe].
    + rewrite Hj, Hj1. cbn [split_parts flat_map fst snd]. now rewrite app_nil_r.
    + intros to_dir part src Hin Hsrc.
      destruct (Hfiles to_dir part src Hin Hsrc) as [data Hdata].
      exists data. rewrite Hd1 in Hdata. split; [exact Hdata | ].
      apply Hcontent with (l := part); try assumption.
      * apply split_dirs_differ.
      * rewrite <- Hcover in Hnodupb.
        apply NoDup_map_part in Hnodupb. destruct Hnodupb as (N1 & N2 & N3).
        intros d l [[= <- <-] | [[= <- <-] | [[= <- <-] | []]]]; assumption.
      * now rewrite Hd1.
  - (* it completes *)
    intros Hsum Hbig Hfiles Htargets.
    destruct (compute_num_defined cfg (len names)) as (a & b & Enum & Ha & Hb & Hab).
    { repeat split; try apply Htr; try apply Hte. exact Hsum. }
    { lia. }
    rewrite split_data_class_unfold by assumption.
    fold names. rewrite Enum, Esh.
    rewrite three_loops_as_parts by (cbn; lia).
    destruct (Hparts {| at_train := a; at_test := b;
                        at_validation := len names - (a + b) |}) as (Hpd & Hpa & Hps).
    apply copy_parts_total; try assumption.
    + intros d l s Hin Hs.
      destruct (split_parts_dirs _ _ _ _ _ Hin) as (_ & _ & Hsub).
      rewrite Hd1. apply Hfiles.
      eapply Permutation_in; [symmetry; exact Hperm | now apply Hsub].
    + intros d l s Hin Hs.
      destruct (split_parts_dirs _ _ _ _ _ Hin) as ((st & Hst & ->) & _ & Hsub).
      rewrite Hd1. apply Htargets; [exact Hst | ].
      eapply Permutation_in; [symmetry; exact Hperm | now apply Hsub].
Qed.

(** C2, amended. Let the three split folders of the class be directories
    and the first two ratios be finite and non-negative, which the
    assertion of the main block does not see to. The shuffled list is a
    permutation of the matching source files. Whenever the split of the
    class completes, the first [num['train']] shuffled files have been
    copied to train, the next [num['test']] to test and the remainder to
    validation: the journal grows by exactly these copies, the three slices
    make up the shuffled list, which has no repetition, and every target
    holds its source's content. It does complete when the two ratios sum to
    at most one, there are fewer than [2^53] samples, every sample is a
    regular file and no directory stands at a target. *)
Theorem split_assigns_each_sample_once (cfg : settings) (class_type : string) (w : world) :
  In class_type class_types ->
  finite_nonneg (TRAIN cfg) -> finite_nonneg (TEST cfg) ->
  (forall split_type, In split_type split_types ->
                      stat (disk w) (split_dir split_type class_type) = Some Dir) ->
  let names := samples_of cfg (disk w) class_type in
  let shuffled := shuffled_samples cfg w class_type in
  Permutation names shuffled
  /\ (forall w',
        split_data_class cfg main_paths class_type w = (w', Ok tt) ->
        exists num,
          compute_num cfg (len names) = Ok num
          /\ train_part num shuffled ++ test_part num shuffled
             ++ validation_part num shuffled = shuffled
          /\ NoDup shuffled
          /\ len (train_part num shuffled) = at_train num
          /\ len (test_part num shuffled) = at_test num
          /\ len (validation_part num shuffled) = at_validation num
          /\ journal w'
             = journal w
               ++ copies_into (split_dir "train" class_type) (train_part num shuffled)
               ++ copies_into (split_dir "test" class_type) (test_part num shuffled)
               ++ copies_into (split_dir "validation" class_type)
                              (validation_part num shuffled)
          /\ forall to_dir part src,
               In (to_dir, part) (split_parts class_type num shuffled) ->
               In src part ->
               exists data,
                 stat (disk w) src = Some (File data)
                 /\ lookup (disk w') (os_path_join to_dir (os_path_basename src))
                    = Some (File data))
  /\ ((PyFloat.F2Q (TRAIN cfg) + PyFloat.F2Q (TEST cfg) <= 1)%Q ->
      len names < 2 ^ 53 ->
      (forall src, In src names -> exists data, stat (disk w) src = Some (File data)) ->
      (forall split_type src,
         In split_type split_types -> In src names ->
         lookup (disk w) (os_path_join (split_dir split_type class_type)
                                       (os_path_basename src)) <> Some Dir) ->
      exists w', split_data_class cfg main_paths class_type w = (w', Ok tt)).
Proof.
  intros Hc Htr Hte Hdirs names shuffled.
  destruct (split_data_class_effect cfg class_type w Hc Htr Hte Hdirs)
    as (Hperm & Hok & Htotal).
  split; [exact Hperm | split; [ | exact Htotal]].
  intros w' Hrun.
  destruct (Hok w' Hrun) as (num & H1 & H2 & H3 & H4 & H5 & H6 & H7 & H8 & _).
  exists num. repeat (split; [assumption | ]). exact H8.
Qed.

Lemma split_assigns_each_sample_once_witness :
  Permutation (samples_of shipped_settings (disk ready_world) "benign")
              (shuffled_samples shipped_settings ready_world "benign")
  /\ exists w', split_data_class shipped_settings main_paths "benign" ready_world
                = (w', Ok tt).
Proof.
  destruct (split_assigns_each_sample_once shipped_settings "benign" ready_world)
    as (Hperm & _ & Htotal).
  - cbn. tauto.
  - split; [reflexivity | vm_compute; discriminate].
  - split; [reflexivity | vm_compute; discriminate].
  - intros split_type [<- | [<- | [<- | []]]]; reflexivity.
  - split; [exact Hperm | ]. apply Htotal.
    + vm_compute. discriminate.
    + vm_compute. reflexivity.
    + intros src [<- | [<- | [<- | []]]]; eexists; reflexivity.
    + intros split_type src [<- | [<- | [<- | []]]] [<- | [<- | [<- | []]]];
        vm_compute; discriminate.
Defined.

(** ** Manifests *)

Lemma for_each_map {A B : Type} (f : A -> B) (l : list A) (body : B -> M unit) (w : world) :
  for_each (map f l) body w = for_each l (fun a => body (f a)) w.
Proof.
  revert w. induction l as [ | a l IH]; intros w; cbn [map]; [reflexivity | ].
  rewrite !for_each_cons. destruct (body (f a) w) as [w1 [[] | e]]; [apply IH | reflexivity].
Qed.






Lemma csv_text_rows (sample_names : list path) :
  csv_text sample_names
  = String.concat EmptyString (map writerow
                          (map (fun sample_path => [os_path_basename sample_path])
                               sample_names)).
Proof. unfold csv_text. now rewrite map_map. Qed.

Lemma writerow_single (name : string) :
  writerow [name]
  = (String quote_char (csv_escape name ++ String quote_char EmptyString)
     ++ line_terminator)%string.
Proof. reflexivity. Qed.

(** ** Renaming *)

Lemma skipn_length_app {A : Type} (l s : list A) : skipn (List.length l) (l ++ s) = s.
Proof. induction l as [ | a l IH]; [reflexivity | exact IH]. Qed.

Lemma lookup_move_other (fs : filesystem) (src dst q : path) :
  is_under src q = false -> is_under dst q = false ->
  lookup (move fs src dst) q = lookup fs q.
Proof.
  intros Hs Hd. unfold move.
  induction fs as [ | [p n] fs IH]; cbn [map lookup fst snd]; [reflexivity | ].
  destruct (is_under src p) eqn:E; cbn [lookup].
  - assert (E1 : path_eqb (reroot src dst p) q = false).
    { apply path_eqb_neq. intros <-. unfold reroot in Hd.
      now rewrite is_under_app in Hd. }
    assert (E2 : path_eqb p q = false).
    { apply path_eqb_neq. intros <-. congruence. }
    now rewrite E1, E2.
  - now rewrite IH.
Qed.

Lemma lookup_move_dst (fs : filesystem) (src dst : path) :
  lookup fs dst = None ->
  lookup (move fs src dst) dst = lookup fs src.
Proof.
  unfold move.
  induction fs as [ | [p n] fs IH]; cbn [map lookup fst snd]; [reflexivity | ].
  destruct (path_eqb p dst) eqn:Epd; [discriminate | ]. intros Hnone.
  destruct (is_under src p) eqn:E; cbn [lookup].
  - apply is_under_iff in E. destruct E as [s ->].
    unfold reroot. rewrite skipn_length_app.
    destruct s as [ | a s].
    + rewrite !app_nil_r, !path_eqb_refl. reflexivity.
    + assert (E1 : path_eqb (dst ++ a :: s) dst = false).
      { apply path_eqb_neq. intros H. apply (f_equal (@List.length string)) in H.
        rewrite length_app in H. cbn in H. lia. }
      assert (E2 : path_eqb (src ++ a :: s) src = false).
      { apply path_eqb_neq. intros H. apply (f_equal (@List.length string)) in H.
        rewrite length_app in H. cbn in H. lia. }
      rewrite E1, E2. now apply IH.
  - rewrite Epd.
    assert (E2 : path_eqb p src = false).
    { apply path_eqb_neq. intros ->. now rewrite is_under_refl in E. }
    rewrite E2. now apply IH.
Qed.

Lemma lookup_move_src (fs : filesystem) (src dst : path) :
  is_under dst src = false ->
  lookup (move fs src dst) src = None.
Proof.
  intros Hd. unfold move.
  induction fs as [ | [p n] fs IH]; cbn [map lookup fst snd]; [reflexivity | ].
  destruct (is_under src p) eqn:E; cbn [lookup].
  - assert (E1 : path_eqb (reroot src dst p) src = false).
    { apply path_eqb_neq. intros H. unfold reroot in H.
      rewrite <- H, is_under_app in Hd. discriminate. }
    now rewrite E1.
  - assert (E2 : path_eqb p src = false).
    { apply path_eqb_neq. intros ->. now rewrite is_under_refl in E. }
    now rewrite E2.
Qed.

Lemma siblings_under (dir : path) (a b : string) :
  a <> b -> is_under (os_path_join dir a) (os_path_join dir b) = false.
Proof.
  intros Hab. destruct (is_under _ _) eqn:E; [ | reflexivity].
  exfalso. apply Hab.
  apply (is_under_siblings dir a b []). now rewrite app_nil_r.
Qed.

Lemma child_not_above (dir : path) (a : string) :
  is_under (os_path_join dir a) dir = false.
Proof.
  destruct (is_under _ _) eqn:E; [ | reflexivity].
  apply is_under_iff in E. destruct E as [s Hs].
  apply (f_equal (@List.length string)) in Hs.
  unfold os_path_join in Hs. rewrite !length_app in Hs. cbn in Hs. lia.
Qed.

(** One rename of a file of [dir] to a free name of [dir]. *)
Lemma os_rename_free (dir : path) (a b : string) (w : world) :
  dir <> [] -> lookup (disk w) dir = Some Dir ->
  lookup (disk w) (os_path_join dir a) <> None ->
  lookup (disk w) (os_path_join dir b) = None ->
  os_rename (os_path_join dir a) (os_path_join dir b) w
  = (commit w (move (disk w) (os_path_join dir a) (os_path_join dir b))
              (Rename (os_path_join dir a) (os_path_join dir b)), Ok tt).
Proof.
  intros Hnn Hdir Ha Hb. unfold os_rename.
  assert (Hab : a <> b) by (intros ->; congruence).
  rewrite !stat_join, dirname_join, (stat_nonempty _ _ Hnn), Hdir, Hb.
  destruct (lookup (disk w) (os_path_join dir a)) as [n | ]; [ | congruence].
  now rewrite (siblings_under dir a b Hab).
Qed.

Lemma rename_pairs_effect (dir : path) (pairs : list (string * string)) (w : world) :
  dir <> [] -> lookup (disk w) dir = Some Dir ->
  NoDup (map fst pairs) -> NoDup (map snd pairs) ->
  (forall a, In a (map fst pairs) -> lookup (disk w) (os_path_join dir a) <> None) ->
  (forall b, In b (map snd pairs) -> lookup (disk w) (os_path_join dir b) = None) ->
  exists w',
    rename_pairs dir pairs w = (w', Ok tt)
    /\ journal w'
       = journal w
         ++ map (fun ab => Rename (os_path_join dir (fst ab)) (os_path_join dir (snd ab)))
                pairs
    /\ (forall q,
          (forall a, In a (map fst pairs) -> is_under (os_path_join dir a) q = false) ->
          (forall b, In b (map snd pairs) -> is_under (os_path_join dir b) q = false) ->
          lookup (disk w') q = lookup (disk w) q)
    /\ (forall a b, In (a, b) pairs ->
                    lookup (disk w') (os_path_join dir b)
                    = lookup (disk w) (os_path_join dir a)
                    /\ lookup (disk w') (os_path_join dir a) = None).
Proof.
  intros Hnn. unfold rename_pairs. revert w.
  induction pairs as [ | [a b] pairs IH]; intros w Hdir Hnda Hndb Hsrc Hdst.
  - exists w. cbn [map]. rewrite app_nil_r.
    repeat split; try reflexivity; intros; contradiction.
  - rewrite for_each_cons. cbn [fst snd map] in *.
    inversion Hnda as [ | a0 as0 Hna Hnda']; subst.
    inversion Hndb as [ | b0 bs0 Hnb Hndb']; subst.
    rewrite (os_rename_free dir a b w Hnn Hdir (Hsrc a (or_introl eq_refl))
               (Hdst b (or_introl eq_refl))).
    assert (Hdisjoint : forall x y, In x (a :: map fst pairs) ->
                                    In y (b :: map snd pairs) -> x <> y).
    { intros x y Hx Hy ->. apply (Hsrc y Hx). now apply Hdst. }
    set (src := os_path_join dir a) in *. set (dst := os_path_join dir b) in *.
    destruct (IH (commit w (move (disk w) src dst) (Rename src dst)))
      as (w' & Erun & Hj & Hframe & Hmoved); try assumption.
    + cbn [commit disk]. rewrite lookup_move_other; [exact Hdir | | ];
        apply child_not_above.
    + intros a' Ha'. cbn [commit disk]. rewrite lookup_move_other.
      * apply Hsrc. now right.
      * apply siblings_under. intros E. apply Hna. now rewrite E.
      * apply siblings_under. intros E.
        apply (Hdisjoint a' b); [now right | now left | now symmetry].
    + intros b' Hb'. cbn [commit disk]. rewrite lookup_move_other.
      * apply Hdst. now right.
      * apply siblings_under. intros E.
        apply (Hdisjoint a b'); [now left | now right | exact E].
      * apply siblings_under. intros E. apply Hnb. now rewrite E.
    + exists w'. cbn [commit disk journal] in *.
      split; [exact Erun | ]. split; [ | split].
      * rewrite Hj. now rewrite <- app_assoc.
      * intros q Hqa Hqb. rewrite Hframe.
        -- apply lookup_move_other; [apply Hqa | apply Hqb]; now left.
        -- intros a' Ha'. apply Hqa. now right.
        -- intros b' Hb'. apply Hqb. now right.
      * intros a' b' [[= <- <-] | Hin].
        -- split.
           ++ rewrite Hframe.
              ** apply lookup_move_dst, Hdst. now left.
              ** intros a' Ha'. apply siblings_under. intros E.
                 apply (Hdisjoint a' b); [now right | now left | exact E].
              ** intros b' Hb'. apply siblings_under. intros E.
                 apply Hnb. now rewrite <- E.
           ++ rewrite Hframe.
              ** apply lookup_move_src. apply siblings_under. intros E.
                 apply (Hdisjoint a b); [now left | now left | now symmetry].
              ** intros a' Ha'. apply siblings_under. intros E.
                 apply Hna. now rewrite <- E.
              ** intros b' Hb'. apply siblings_under. intros E.
                 apply (Hdisjoint a b'); [now left | now right | now symmetry].
        -- assert (Ha' : In a' (map fst pairs)).
           { change a' with (fst (a', b')). now apply in_map. }
           assert (Hb' : In b' (map snd pairs)).
           { change b' with (snd (a', b')). now apply in_map. }
           destruct (Hmoved a' b' Hin) as [H1 H2]. split; [ | exact H2].
           rewrite H1. apply lookup_move_other.
           ++ apply siblings_under. intros E. apply Hna. now rewrite E.
           ++ apply siblings_under. intros E.
              apply (Hdisjoint a' b); [now right | now left | now symmetry].
Qed.

Lemma str_inj (i j : Z) : str i = str j -> i = j.
Proof.
  unfold str. intros H. apply to_int_inj.
  apply (f_equal NilEmpty.int_of_string) in H.
  rewrite !NilEmpty.isi in H. congruence.
Qed.

Lemma append_length (s t : string) :
  String.length (s ++ t) = (String.length s + String.length t)%nat.
Proof. induction s as [ | c s IH]; cbn; [reflexivity | now rewrite IH]. Qed.

Lemma append_inv_tail (s1 s2 t : string) : (s1 ++ t = s2 ++ t)%string -> s1 = s2.
Proof.
  revert s2. induction s1 as [ | c s1 IH]; intros [ | c2 s2] H; cbn in H.
  - reflexivity.
  - apply (f_equal String.length) in H. cbn in H. rewrite append_length in H. lia.
  - apply (f_equal String.length) in H. cbn in H. rewrite append_length in H. lia.
  - injection H as -> H. f_equal. now apply IH.
Qed.

Lemma numbered_name_inj (ext : string) (i j : Z) :
  (str i ++ "." ++ ext = str j ++ "." ++ ext)%string -> i = j.
Proof. intros H. apply append_inv_tail in H. now apply str_inj. Qed.

Lemma for_each_ext {A : Type} (l : list A) (f g : A -> M unit) (w : world) :
  (forall a w0, In a l -> f a w0 = g a w0) -> for_each l f w = for_each l g w.
Proof.
  revert w. induction l as [ | a l IH]; intros w H; [reflexivity | ].
  rewrite !for_each_cons, (H a w (or_introl eq_refl)).
  destruct (g a w) as [w1 [[] | e]]; [ | reflexivity].
  apply IH. intros b w0 Hb. apply H. now right.
Qed.

Lemma len_app {A : Type} (l1 l2 : list A) : len (l1 ++ l2) = len l1 + len l2.
Proof. unfold len. rewrite length_app. lia. Qed.

Lemma py_index_middle {A : Type} (pre : list A) (a : A) (rest : list A) (i : Z) :
  i = len pre -> py_index (pre ++ a :: rest) i = Ok a.
Proof.
  intros ->. destruct (py_index_ok (pre ++ a :: rest) (len pre)) as (x & -> & Hx).
  - rewrite len_app. unfold len. cbn [List.length]. lia.
  - unfold len in Hx. rewrite Nat2Z.id, nth_error_app2, Nat.sub_diag in Hx by lia.
    cbn in Hx. congruence.
Qed.

(** The loop of the rename stage, as renames of (old name, numbered name). *)
Lemma rename_loop_pairs (dir : path) (ext : string) (pre rest : list string) (w : world) :
  for_each (py_range (len pre) (len pre + len rest))
    (fun i =>
       old_name <- lift (py_index (map (os_path_join dir) (pre ++ rest)) i) ;;
       os_rename old_name (os_path_join dir (str i ++ "." ++ ext)%string)) w
  = rename_pairs dir
      (combine rest (map (fun i => (str i ++ "." ++ ext)%string)
                         (py_range (len pre) (len pre + len rest)))) w.
Proof.
  revert pre w. induction rest as [ | a rest IH]; intros pre w.
  - rewrite py_range_nil by (unfold len; cbn; lia). reflexivity.
  - rewrite py_range_cons by (unfold len; cbn [List.length]; lia).
    unfold rename_pairs. cbn [map combine]. rewrite !for_each_cons. cbn [fst snd].
    rewrite map_app. cbn [map].
    unfold bind at 1. unfold lift at 1.
    rewrite py_index_middle by (unfold len; now rewrite length_map).
    destruct (os_rename _ _ w) as [w1 [[] | e]]; [ | reflexivity].
    specialize (IH (pre ++ [a]) w1).
    rewrite <- app_assoc in IH. cbn [app] in IH.
    rewrite len_app in IH. change (len [a]) with 1 in IH.
    replace (len pre + len (a :: rest)) with (len pre + 1 + len rest)
      by (unfold len; cbn [List.length]; lia).
    rewrite map_app in IH. exact IH.
Qed.

Lemma combine_nth_error {A B : Type} (l1 : list A) (l2 : list B) (i : nat) (a : A) (b : B) :
  nth_error l1 i = Some a -> nth_error l2 i = Some b -> In (a, b) (combine l1 l2).
Proof.
  revert l2 i. induction l1 as [ | x l1 IH]; intros [ | y l2] [ | i] H1 H2;
    cbn in *; try discriminate.
  - left. congruence.
  - right. eapply IH; eassumption.
Qed.

Lemma map_fst_combine {A B : Type} (l1 : list A) (l2 : list B) :
  List.length l1 = List.length l2 -> map fst (combine l1 l2) = l1.
Proof.
  revert l2. induction l1 as [ | x l1 IH]; intros [ | y l2] H; cbn in *;
    try discriminate; [reflexivity | ].
  f_equal. apply IH. lia.
Qed.

Lemma map_snd_combine {A B : Type} (l1 : list A) (l2 : list B) :
  List.length l1 = List.length l2 -> map snd (combine l1 l2) = l2.
Proof.
  revert l2. induction l1 as [ | x l1 IH]; intros [ | y l2] H; cbn in *;
    try discriminate; [reflexivity | ].
  f_equal. apply IH. lia.
Qed.

Lemma py_range_length (a b : Z) : List.length (py_range a b) = Z.to_nat (b - a).
Proof. unfold py_range. now rewrite length_map, length_seq. Qed.

Lemma py_range_NoDup (a b : Z) : NoDup (py_range a b).
Proof.
  unfold py_range. apply Injective_map_NoDup; [ | apply seq_NoDup].
  intros x y H. lia.
Qed.

Lemma py_range_nth_error (n : Z) (i : nat) :
  Z.of_nat i < n -> nth_error (py_range 0 n) i = Some (Z.of_nat i).
Proof.
  intros H. unfold py_range. rewrite nth_error_map.
  rewrite nth_error_seq.
  destruct (Nat.ltb_spec i (Z.to_nat (n - 0))) as [_ | ]; [reflexivity | lia].
Qed.

Lemma join_split (p : path) :
  p <> [] -> os_path_join (os_path_dirname p) (os_path_basename p) = p.
Proof.
  intros H. unfold os_path_join, os_path_dirname, os_path_basename.
  symmetry. now apply app_removelast_last.
Qed.

Lemma in_lookup (fs : filesystem) (p : path) (n : node) :
  In (p, n) fs -> lookup fs p <> None.
Proof.
  induction fs as [ | [q m] fs IH]; [contradiction | ].
  intros [[= -> ->] | H]; cbn [lookup fst snd].
  - now rewrite path_eqb_refl.
  - destruct (path_eqb q p); [discriminate | now apply IH].
Qed.

Lemma listdir_present (fs : filesystem) (d : path) (a : string) :
  In a (listdir fs d) -> lookup fs (os_path_join d a) <> None.
Proof.
  unfold listdir. rewrite nodup_In. unfold entry_names. rewrite in_flat_map.
  intros ([p n] & Hin & Ha). cbn [fst] in Ha.
  destruct p as [ | c p]; [contradiction | ].
  destruct (path_eqb (os_path_dirname (c :: p)) d) eqn:E; [ | contradiction].
  apply path_eqb_eq in E. destruct Ha as [<- | []]. subst d.
  rewrite join_split by discriminate. eapply in_lookup; eassumption.
Qed.

(** An entry at or below a child of [dir] is not listed in a directory
    that is not below [dir]. *)
Lemma below_child_dirname (dir : path) (a : string) (q d : path) :
  is_under (os_path_join dir a) q = true -> is_under dir d = false ->
  path_eqb (os_path_dirname q) d = false.
Proof.
  intros Hq Hd. apply path_eqb_neq. intros <-.
  apply is_under_iff in Hq. destruct Hq as [s ->].
  unfold os_path_join, os_path_dirname in Hd.
  rewrite <- app_assoc in Hd. cbn [app] in Hd.
  rewrite removelast_app in Hd by discriminate.
  now rewrite is_under_app in Hd.
Qed.

Lemma entry_names_move_other (fs : filesystem) (dir : path) (a b : string) (d : path) :
  is_under dir d = false ->
  entry_names (move fs (os_path_join dir a) (os_path_join dir b)) d = entry_names fs d.
Proof.
  intros Hd. unfold entry_names, move.
  induction fs as [ | [p n] fs IH]; cbn [map flat_map fst snd]; [reflexivity | ].
  rewrite IH. f_equal.
  destruct (is_under (os_path_join dir a) p) eqn:E; [ | reflexivity].
  cbn [fst].
  assert (E' : is_under (os_path_join dir b) (reroot (os_path_join dir a) (os_path_join dir b) p)
               = true) by apply is_under_app.
  pose proof (below_child_dirname dir a p d E Hd) as H1.
  pose proof (below_child_dirname dir b _ d E' Hd) as H2.
  destruct (reroot _ _ p) as [ | c' p']; destruct p as [ | c p];
    rewrite ?H1, ?H2; reflexivity.
Qed.

Lemma entry_names_prune_other (fs : filesystem) (dir : path) (b : string) (d : path) :
  is_under dir d = false ->
  entry_names (prune fs (os_path_join dir b)) d = entry_names fs d.
Proof.
  intros Hd. unfold entry_names, prune.
  induction fs as [ | [p n] fs IH]; cbn [filter flat_map fst snd]; [reflexivity | ].
  destruct (is_under (os_path_join dir b) p) eqn:E; cbn [negb flat_map fst].
  - rewrite IH. pose proof (below_child_dirname dir b p d E Hd) as H1.
    destruct p; rewrite ?H1; reflexivity.
  - now rewrite IH.
Qed.

(** Whatever a rename inside [dir] does, it leaves the other listings alone. *)
Lemma os_rename_listing (dir : path) (a b : string) (d : path) (w w' : world)
      (r : result unit) :
  is_under dir d = false ->
  os_rename (os_path_join dir a) (os_path_join dir b) w = (w', r) ->
  entry_names (disk w') d = entry_names (disk w) d.
Proof.
  intros Hd. unfold os_rename.
  repeat match goal with
         | |- context [match ?x with _ => _ end] => destruct x
         end;
    intros [= <- <-]; cbn [commit disk]; try reflexivity;
    rewrite ?entry_names_move_other, ?entry_names_prune_other by exact Hd;
    reflexivity.
Qed.

Lemma rename_pairs_listing (dir : path) (pairs : list (string * string)) (d : path)
      (w w' : world) (r : result unit) :
  is_under dir d = false ->
  rename_pairs dir pairs w = (w', r) ->
  entry_names (disk w') d = entry_names (disk w) d.
Proof.
  intros Hd. unfold rename_pairs. revert w.
  induction pairs as [ | [a b] pairs IH]; intros w.
  - intros [= <- <-]. reflexivity.
  - rewrite for_each_cons. cbn [fst snd].
    destruct (os_rename _ _ w) as [w1 [[] | e]] eqn:E1.
    + intros H. rewrite (IH _ H). eapply os_rename_listing; eassumption.
    + intros [= <- <-]. eapply os_rename_listing; eassumption.
Qed.

Lemma rename_data_class_unfold (cfg : settings) (class_type : string) (w : world) :
  In class_type class_types ->
  rename_data_class cfg main_paths class_type w =
  try_except
    (for_each (py_range 0 (len (samples_of cfg (disk w) class_type)))
       (fun i =>
          old_name <- lift (py_index (samples_of cfg (disk w) class_type) i) ;;
          os_rename old_name (rename_target cfg class_type i)))
    FileExistsError (ret tt) w.
Proof. intros [<- | [<- | []]]; reflexivity. Qed.

Lemma events_of_pairs (dir : path) (tn : Z -> string) (ns : list string) (ks : list Z) :
  map (fun ab => Rename (os_path_join dir (fst ab)) (os_path_join dir (snd ab)))
      (combine ns (map tn ks))
  = map (fun ix => Rename (snd ix) (os_path_join dir (tn (fst ix))))
        (combine ks (map (os_path_join dir) ns)).
Proof.
  revert ks. induction ns as [ | a ns IH]; intros [ | k ks]; cbn; try reflexivity.
  f_equal. apply IH.
Qed.

Lemma class_dir_not_nil (class_type : string) : class_dir class_type <> [].
Proof. discriminate. Qed.

(** The rename stage on one class whose numbered names are all free. *)
Lemma rename_data_class_effect (cfg : settings) (class_type : string) (w : world) :
  In class_type class_types ->
  numbers_free cfg class_type (disk w) ->
  exists w',
    rename_data_class cfg main_paths class_type w = (w', Ok tt)
    /\ journal w'
       = journal w ++ rename_events cfg class_type (samples_of cfg (disk w) class_type)
    /\ renamed_in_glob_order cfg class_type w w'
    /\ (forall src, In src (samples_of cfg (disk w) class_type) ->
                    lookup (disk w') src = None)
    /\ (forall q,
          (forall a, is_under (os_path_join (class_dir class_type) a) q = false) ->
          lookup (disk w') q = lookup (disk w) q)
    /\ (forall d, is_under (class_dir class_type) d = false ->
                  entry_names (disk w') d = entry_names (disk w) d).
Proof.
  intros Hc Hfree. rewrite (rename_data_class_unfold cfg class_type w Hc).
  unfold numbers_free, renamed_in_glob_order, rename_events in *.
  unfold samples_of, glob_list in *.
  destruct (stat (disk w) (class_dir class_type)) as [[data | ] | ] eqn:Hstat;
    try (exists w; cbn [map combine]; rewrite app_nil_r;
         repeat split; try reflexivity; intros; try contradiction; try reflexivity;
         match goal with H : nth_error [] ?i = Some _ |- _ => destruct i; discriminate H end).
  rewrite stat_nonempty in Hstat by apply class_dir_not_nil.
  set (dir := class_dir class_type) in *.
  set (ns := filter (glob_match (data_pattern cfg)) (listdir (disk w) dir)) in *.
  set (tn := fun i : Z => (str i ++ "." ++ DATA_TYPE cfg)%string).
  assert (Hlen : len (map (os_path_join dir) ns) = len ns).
  { unfold len. now rewrite length_map. }
  rewrite Hlen in *.
  pose proof (rename_loop_pairs dir (DATA_TYPE cfg) [] ns w) as Hloop.
  cbn [app] in Hloop. change (len (@nil string)) with 0 in Hloop.
  rewrite Z.add_0_l in Hloop.
  assert (Hlens : List.length ns = List.length (map tn (py_range 0 (len ns)))).
  { rewrite length_map, py_range_length. unfold len. lia. }
  destruct (rename_pairs_effect dir (combine ns (map tn (py_range 0 (len ns)))) w)
    as (w' & Erun & Hj & Hframe & Hmoved).
  - apply class_dir_not_nil.
  - exact Hstat.
  - rewrite map_fst_combine by exact Hlens. apply NoDup_filter, NoDup_nodup.
  - rewrite map_snd_combine by exact Hlens.
    apply Injective_map_NoDup; [ | apply py_range_NoDup].
    intros i j H. now apply (numbered_name_inj (DATA_TYPE cfg)).
  - rewrite map_fst_combine by exact Hlens. intros a Ha.
    apply listdir_present. unfold ns in Ha. now apply filter_In in Ha.
  - rewrite map_snd_combine by exact Hlens. intros b Hb.
    apply in_map_iff in Hb. destruct Hb as (i & <- & Hi).
    apply in_py_range in Hi. apply (Hfree i). lia.
  - exists w'. unfold try_except.
    change (for_each (py_range 0 (len ns))
              (fun i => old_name <- lift (py_index (map (os_path_join dir) ns) i) ;;
                        os_rename old_name (rename_target cfg class_type i)) w)
      with (for_each (py_range 0 (len ns))
              (fun i => old_name <- lift (py_index (map (os_path_join dir) ns) i) ;;
                        os_rename old_name
                          (os_path_join dir (str i ++ "." ++ DATA_TYPE cfg)%string)) w).
    rewrite Hloop. fold tn. rewrite Erun.
    split; [reflexivity | ]. split; [ | split; [ | split; [ | split]]].
    + rewrite Hj. f_equal. apply (events_of_pairs dir tn).
    + intros i src Hi. rewrite nth_error_map in Hi.
      destruct (nth_error ns i) as [a | ] eqn:Ea; [ | discriminate].
      injection Hi as <-.
      apply (Hmoved a (tn (Z.of_nat i))).
      apply (combine_nth_error _ _ i); [exact Ea | ].
      rewrite nth_error_map, py_range_nth_error; [reflexivity | ].
      assert (i < List.length ns)%nat by (apply nth_error_Some; congruence).
      unfold len. lia.
    + intros src Hsrc. apply in_map_iff in Hsrc. destruct Hsrc as (a & <- & Ha).
      destruct (In_nth_error _ _ Ha) as [i Ei].
      apply (Hmoved a (tn (Z.of_nat i))).
      apply (combine_nth_error _ _ i); [exact Ei | ].
      rewrite nth_error_map, py_range_nth_error; [reflexivity | ].
      assert (i < List.length ns)%nat by (apply nth_error_Some; congruence).
      unfold len. lia.
    + intros q Hq. apply Hframe; intros; apply Hq.
    + intros d Hd. eapply rename_pairs_listing; eassumption.
Qed.


Lemma samples_of_frame (cfg : settings) (class_type : string) (fs fs' : filesystem) :
  lookup fs' (class_dir class_type) = lookup fs (class_dir class_type) ->
  entry_names fs' (class_dir class_type) = entry_names fs (class_dir class_type) ->
  samples_of cfg fs' class_type = samples_of cfg fs class_type.
Proof.
  intros Hl He. unfold samples_of, glob_list, listdir.
  rewrite !stat_nonempty by apply class_dir_not_nil. now rewrite Hl, He.
Qed.

Lemma classes_apart_bm (a : string) (q : path) :
  is_under (class_dir "malign") q = true ->
  is_under (os_path_join (class_dir "benign") a) q = false.
Proof.
  destruct q as [ | c q]; [discriminate | ].
  unfold class_dir, os_path_join. cbn [app is_under]. intros H.
  apply andb_prop in H. destruct H as [H _].
  apply String.eqb_eq in H. subst c. reflexivity.
Qed.

Lemma classes_apart_mb (a : string) (q : path) :
  is_under (class_dir "benign") q = true ->
  is_under (os_path_join (class_dir "malign") a) q = false.
Proof.
  destruct q as [ | c q]; [discriminate | ].
  unfold class_dir, os_path_join. cbn [app is_under]. intros H.
  apply andb_prop in H. destruct H as [H _].
  apply String.eqb_eq in H. subst c. reflexivity.
Qed.

Lemma rename_target_below (cfg : settings) (class_type : string) (i : Z) :
  is_under (class_dir class_type) (rename_target cfg class_type i) = true.
Proof. unfold rename_target, os_path_join. apply is_under_app. Qed.

Lemma sample_below (cfg : settings) (fs : filesystem) (class_type : string) (src : path) :
  In src (samples_of cfg fs class_type) -> is_under (class_dir class_type) src = true.
Proof.
  intros H. apply glob_list_children in H. destruct H as [name ->].
  apply is_under_app.
Qed.

(** C7, as stated, fails when numbered names are already taken: with a
    folder listed as [1.png; 0.png], the POSIX run replaces [0.png] by the
    first file and then moves it back to [1.png] (one sample is lost and no
    [0.png] remains); the Windows run stops at the first rename and leaves
    the first listed file under its old name. *)
Lemma renamer_collision_counterexample :
  samples_of shipped_settings (disk (numbered_world Posix)) "benign"
  = [["all_benign"; "1.png"]; ["all_benign"; "0.png"]]%string
  /\ (exists w',
        rename_data shipped_settings main_paths (numbered_world Posix) = (w', Ok tt)
        /\ lookup (disk w') ["all_benign"; "0.png"]%string = None
        /\ lookup (disk w') ["all_benign"; "1.png"]%string = Some (File "one")
        /\ ~ renamed_in_glob_order shipped_settings "benign" (numbered_world Posix) w')
  /\ rename_data shipped_settings main_paths (numbered_world Windows)
     = (numbered_world Windows, Ok tt)
  /\ ~ renamed_in_glob_order shipped_settings "benign"
         (numbered_world Windows) (numbered_world Windows).
Proof.
  split; [reflexivity | ]. split; [ | split; [reflexivity | ]].
  - eexists. split; [vm_compute; reflexivity | ].
    split; [reflexivity | ]. split; [reflexivity | ].
    intros H. specialize (H 0%nat _ eq_refl). vm_compute in H. discriminate H.
  - intros H. specialize (H 0%nat _ eq_refl). vm_compute in H. discriminate H.
Qed.

(** C7 (amended): when none of the names [0.<ext>] ... [(N-1).<ext>] of a
    class is taken, on either platform the rename stage completes, issues
    exactly the renames of the listed files to [0.<ext>], [1.<ext>], ... in
    glob order (benign first, then malign), after which the [i]-th listed
    file is found under [i.<ext>] and none of the old names remains. *)
Theorem renamer_numbers_in_glob_order (cfg : settings) (w : world) :
  (forall class_type, In class_type class_types ->
                      numbers_free cfg class_type (disk w)) ->
  exists w',
    rename_data cfg main_paths w = (w', Ok tt)
    /\ journal w'
       = journal w
         ++ rename_events cfg "benign" (samples_of cfg (disk w) "benign")
         ++ rename_events cfg "malign" (samples_of cfg (disk w) "malign")
    /\ (forall class_type, In class_type class_types ->
          renamed_in_glob_order cfg class_type w w'
          /\ (forall src, In src (samples_of cfg (disk w) class_type) ->
                          lookup (disk w') src = None)).
Proof.
  intros Hfree.
  assert (Hb : In "benign"%string class_types) by (now left).
  assert (Hm : In "malign"%string class_types) by (right; now left).
  destruct (rename_data_class_effect cfg "benign" w Hb (Hfree _ Hb))
    as (w1 & E1 & J1 & R1 & G1 & F1 & L1).
  assert (S1 : samples_of cfg (disk w1) "malign" = samples_of cfg (disk w) "malign").
  { apply samples_of_frame.
    - apply F1. intros a. apply classes_apart_bm. apply is_under_refl.
    - apply L1. reflexivity. }
  assert (Hfree1 : numbers_free cfg "malign" (disk w1)).
  { intros i Hi. rewrite S1 in Hi. rewrite F1; [now apply (Hfree _ Hm) | ].
    intros a. apply classes_apart_bm, rename_target_below. }
  destruct (rename_data_class_effect cfg "malign" w1 Hm Hfree1)
    as (w2 & E2 & J2 & R2 & G2 & F2 & L2).
  exists w2. split; [ | split].
  - unfold rename_data, class_types. rewrite for_each_cons, E1. cbv beta iota.
    rewrite for_each_cons, E2. reflexivity.
  - rewrite J2, J1, S1. now rewrite <- app_assoc.
  - intros class_type [<- | [<- | []]]; split.
    + intros i src Hi. rewrite F2; [now apply R1 | ].
      intros a. apply classes_apart_mb, rename_target_below.
    + intros src Hsrc. rewrite F2; [now apply G1 | ].
      intros a. apply classes_apart_mb. eapply sample_below; eassumption.
    + intros i src Hi. rewrite <- S1 in Hi. rewrite (R2 i src Hi).
      apply F1. intros a. apply classes_apart_bm.
      apply (sample_below cfg (disk w1)). eapply nth_error_In; eassumption.
    + intros src Hsrc. apply G2. now rewrite S1.
Qed.

Lemma renamer_numbers_in_glob_order_witness :
  exists w',
    rename_data shipped_settings main_paths (unnumbered_world Windows) = (w', Ok tt)
    /\ journal w'
       = [ Rename ["all_benign"; "mole.png"] ["all_benign"; "0.png"];
           Rename ["all_benign"; "freckle.png"] ["all_benign"; "1.png"];
           Rename ["all_malign"; "lesion.png"] ["all_malign"; "0.png"] ]%string
    /\ lookup (disk w') ["all_benign"; "1.png"]%string = Some (File "f").
Proof.
  destruct (renamer_numbers_in_glob_order shipped_settings (unnumbered_world Windows))
    as (w' & E & J & R).
  - intros class_type [<- | [<- | []]] i Hi; vm_compute in Hi;
      destruct Hi as [H0 H1];
      destruct i as [ | [ | | ] | ]; try discriminate; try (now destruct p); reflexivity.
  - exists w'. split; [exact E | ]. split; [exact J | ].
    destruct (R "benign"%string (or_introl eq_refl)) as [Rb _].
    exact (Rb 1%nat _ eq_refl).
Defined.

(** ** The order of the two copy stages *)

Lemma bind_ok_inv {A B : Type} (c : M A) (k : A -> M B) (w w' : world) (b : B) :
  bind c k w = (w', Ok b) ->
  exists w1 a, c w = (w1, Ok a) /\ k a w1 = (w', Ok b).
Proof.
  unfold bind. destruct (c w) as [w1 [a | e]]; [ | discriminate].
  intros H. now exists w1, a.
Qed.

Lemma settles_refl (w : world) : settles w w.
Proof. intros s c _ _. now left. Qed.

Lemma settles_trans (w1 w2 w3 : world) : settles w1 w2 -> settles w2 w3 -> settles w1 w3.
Proof.
  intros H12 H23 s c Hs Hc.
  destruct (H23 s c Hs Hc) as [E | [E | E]]; [ | now right; left | now right; right].
  rewrite E. apply H12; assumption.
Qed.

Lemma settles_tidy (w w' : world) : settles w w' -> tidy (disk w) -> tidy (disk w').
Proof.
  intros H Ht s c Hs Hc.
  destruct (H s c Hs Hc) as [E | [E | E]]; [ | now left | now right].
  rewrite E. now apply Ht.
Qed.

Lemma rmtree_settles (p : path) : preserves settles (shutil_rmtree p).
Proof.
  intros w w' r. unfold shutil_rmtree.
  destruct (stat (disk w) p) as [[data | ] | ]; intros [= <- _];
    try apply settles_refl.
  intros s c _ _. cbn [commit disk].
  destruct (is_under p (split_dir s c)) eqn:E.
  - right; left. now apply lookup_prune_under.
  - left. now apply lookup_prune_other.
Qed.

Lemma mkdir_settles (p : path) : preserves settles (os_mkdir p).
Proof.
  intros w w' r. unfold os_mkdir.
  destruct (stat (disk w) p) as [n | ]; [intros [= <- _]; apply settles_refl | ].
  destruct (stat (disk w) (os_path_dirname p)) as [[data | ] | ]; intros [= <- _];
    try apply settles_refl.
  intros s c _ _. cbn [commit disk].
  destruct (path_eqb p (split_dir s c)) eqn:E.
  - apply path_eqb_eq in E. subst p. right; right. apply lookup_put_eq.
  - apply path_eqb_neq in E. left. now apply lookup_put_neq.
Qed.

Lemma delete_folders_settles (main_dir : path) (l : list string) :
  preserves settles (delete_folders_in_dir main_dir l).
Proof.
  induction l as [ | s l IH]; intros w w' r; cbn [delete_folders_in_dir].
  - intros [= <- _]. apply settles_refl.
  - destruct (shutil_rmtree (os_path_join main_dir s) w) as [w1 [[] | e]] eqn:E.
    + intros H. eapply settles_trans; [eapply rmtree_settles, E | eapply IH, H].
    + destruct e; intros [= <- _]; eapply rmtree_settles, E.
Qed.

Lemma create_folders_settles (main_dir : path) (l : list string) :
  preserves settles (create_folders_in_dir main_dir l).
Proof.
  induction l as [ | s l IH]; cbn [create_folders_in_dir].
  - apply preserves_ret, settles_refl.
  - apply preserves_bind; [apply settles_trans | | intros _; exact IH].
    apply preserves_try_except; [apply settles_trans | apply mkdir_settles | ].
    apply preserves_ret, settles_refl.
Qed.

Lemma mkdir_keeps (p q : path) (w w' : world) (r : result unit) :
  os_mkdir p w = (w', r) -> there q w -> there q w'.
Proof.
  unfold os_mkdir, there.
  destruct (stat (disk w) p) as [n | ]; [now intros [= <- _] | ].
  destruct (stat (disk w) (os_path_dirname p)) as [[data | ] | ]; intros [= <- _];
    try easy.
  cbn [commit disk]. intros Hq.
  destruct (path_eqb p q) eqn:E.
  - apply path_eqb_eq in E. subst q. now rewrite lookup_put_eq.
  - apply path_eqb_neq in E. now rewrite lookup_put_neq.
Qed.

Lemma for_each_cons_ok {A : Type} (x : A) (l : list A) (body : A -> M unit)
      (w w' : world) :
  for_each (x :: l) body w = (w', Ok tt) ->
  exists w1, body x w = (w1, Ok tt) /\ for_each l body w1 = (w', Ok tt).
Proof.
  rewrite for_each_cons. destruct (body x w) as [w1 [[] | e]]; [ | discriminate].
  intros H. now exists w1.
Qed.

Lemma for_each_nil_ok {A : Type} (body : A -> M unit) (w w' : world) :
  for_each [] body w = (w', Ok tt) -> w' = w.
Proof. now intros [= <-]. Qed.

Lemma create_folders_there (main_dir : path) (l : list string) (w w' : world) :
  create_folders_in_dir main_dir l w = (w', Ok tt) ->
  (forall q, there q w -> there q w')
  /\ (forall s, In s l -> there (os_path_join main_dir s) w').
Proof.
  revert w. induction l as [ | s l IH]; intros w; cbn [create_folders_in_dir].
  - intros [= <-]. split; [easy | intros s []].
  - intros H. apply bind_ok_inv in H. destruct H as (w1 & [] & Hmk & Hrest).
    destruct (IH _ Hrest) as [Hkeep Hnew].
    assert (H1 : (forall q, there q w -> there q w1)
                 /\ there (os_path_join main_dir s) w1).
    { unfold try_except in Hmk.
      destruct (os_mkdir (os_path_join main_dir s) w) as [w0 [[] | e]] eqn:E.
      - injection Hmk as <-. split; [intros q; eapply mkdir_keeps, E | ].
        unfold os_mkdir in E. rewrite stat_join in E. unfold there.
        destruct (lookup (disk w) (os_path_join main_dir s)); [discriminate | ].
        destruct (stat (disk w) _) as [[data | ] | ]; try discriminate.
        injection E as <-. cbn [commit disk]. now rewrite lookup_put_eq.
      - destruct (exn_eqb e FileExistsError) eqn:Ee; [ | discriminate].
        injection Hmk as <-. split; [intros q; eapply mkdir_keeps, E | ].
        unfold os_mkdir in E. rewrite stat_join in E. unfold there.
        destruct (lookup (disk w) (os_path_join main_dir s)) eqn:El.
        + injection E as <- _. now rewrite El.
        + destruct (stat (disk w) _) as [[data | ] | ]; inversion E; subst;
            discriminate Ee. }
    destruct H1 as [Hkeep1 Hnew1]. split.
    + intros q Hq. apply Hkeep, Hkeep1, Hq.
    + intros s' [<- | Hs']; [apply Hkeep, Hnew1 | now apply Hnew].
Qed.

Lemma set_up_there (w w' : world) (dirs : path * path) :
  set_up_folder_structure w = (w', Ok dirs) ->
  forall split_type class_type,
    In split_type split_types -> In class_type class_types ->
    there (split_dir split_type class_type) w'.
Proof.
  unfold set_up_folder_structure. cbv zeta. intros H.
  apply bind_ok_inv in H. destruct H as (w1 & [] & _ & H).
  apply bind_ok_inv in H. destruct H as (w2 & [] & _ & H).
  apply bind_ok_inv in H. destruct H as (w3 & [] & H & Hret).
  injection Hret as <- _.
  apply for_each_cons_ok in H. destruct H as (wa & Ha & H).
  apply for_each_cons_ok in H. destruct H as (wb & Hb & H).
  apply for_each_cons_ok in H. destruct H as (wc & Hc & H).
  apply for_each_nil_ok in H. subst w3.
  apply create_folders_there in Ha, Hb, Hc.
  destruct Ha as [_ Ha], Hb as [Kb Hb], Hc as [Kc Hc].
  intros s c [<- | [<- | [<- | []]]] Hcl.
  - (* train *) apply Kc. apply Hb. destruct Hcl as [<- | [<- | []]]; cbn; tauto.
  - (* test *) apply Kc, Kb. apply Ha. destruct Hcl as [<- | [<- | []]]; cbn; tauto.
  - (* validation *) apply Hc. destruct Hcl as [<- | [<- | []]]; cbn; tauto.
Qed.

Lemma set_up_settles : preserves settles set_up_folder_structure.
Proof.
  unfold set_up_folder_structure. cbv zeta.
  apply preserves_bind; [apply settles_trans | apply create_folders_settles | intros _].
  apply preserves_bind; [apply settles_trans | apply create_folders_settles | intros _].
  apply preserves_bind; [apply settles_trans | | intros _; apply preserves_ret, settles_refl].
  apply preserves_for_each; [apply settles_refl | apply settles_trans | ].
  intros s _. apply create_folders_settles.
Qed.

Lemma keeps_splits_refl (w : world) : keeps_splits w w.
Proof. now intros p _. Qed.

Lemma keeps_splits_trans (w1 w2 w3 : world) :
  keeps_splits w1 w2 -> keeps_splits w2 w3 -> keeps_splits w1 w3.
Proof. intros H12 H23 p Hp. now rewrite H23, H12. Qed.

Lemma class_child_not_split (class_type a : string) (p : path) :
  In class_type class_types ->
  is_under ["split_samples"%string] p = true ->
  is_under (os_path_join (class_dir class_type) a) p = false.
Proof.
  intros Hc Hp. destruct p as [ | x p]; [discriminate | ].
  cbn [is_under] in Hp. apply andb_prop in Hp. destruct Hp as [Hx _].
  apply String.eqb_eq in Hx. subst x.
  destruct Hc as [<- | [<- | []]]; reflexivity.
Qed.

Lemma rename_keeps_splits (src dst : path) :
  (forall p, is_under ["split_samples"%string] p = true ->
             is_under src p = false /\ is_under dst p = false) ->
  preserves keeps_splits (os_rename src dst).
Proof.
  intros Hout w w' r. unfold os_rename.
  repeat match goal with
         | |- context [match ?x with _ => _ end] => destruct x
         end;
    intros [= <- _]; try apply keeps_splits_refl;
    intros p Hp; destruct (Hout p Hp) as [Hs Hd]; cbn [commit disk];
    rewrite lookup_move_other by assumption;
    try reflexivity; now apply lookup_prune_other.
Qed.

Lemma py_index_in {A : Type} (l : list A) (i : Z) (x : A) :
  py_index l i = Ok x -> In x l.
Proof.
  unfold py_index. destruct (_ && _); [ | discriminate].
  destruct (nth_error l _) as [a | ] eqn:E; [ | discriminate].
  intros [= <-]. eapply nth_error_In, E.
Qed.

Lemma rename_data_keeps_splits (cfg : settings) :
  preserves keeps_splits (rename_data cfg main_paths).
Proof.
  pose proof keeps_splits_refl as Rr. pose proof keeps_splits_trans as Rt.
  apply preserves_for_each; try assumption. intros class_type Hc.
  unfold rename_data_class. rewrite (main_paths_class class_type Hc).
  apply preserves_bind_lift; try assumption. intros dir [= <-].
  apply preserves_bind_value
    with (P := fun names : list path =>
                 forall s, In s names -> exists a, s = os_path_join (class_dir class_type) a);
    try assumption.
  { now apply preserves_glob. }
  { intros w w' names [= _ <-] s Hs. eapply glob_list_children, Hs. }
  intros names Hnames.
  apply preserves_try_except; try assumption; [ | now apply preserves_ret].
  apply preserves_for_each; try assumption. intros i _.
  apply preserves_bind_lift; try assumption. intros dir' [= <-]. cbv zeta.
  apply preserves_bind_lift; try assumption. intros old Hold.
  apply py_index_in in Hold. destruct (Hnames old Hold) as [a ->].
  apply rename_keeps_splits. intros p Hp.
  split; now apply class_child_not_split.
Qed.

(** [main] as its four parts. *)
Lemma main_stages (cfg : settings) (w w' : world) :
  main cfg w = (w', Ok tt) ->
  exists w0 w1 w2,
    before_copies cfg w = (w0, Ok tt)
    /\ (if INCLUDE_AUGMENTED_DATA_IN_TRAIN cfg
        then copy_augmented_data_to_train cfg main_paths else ret tt) w0 = (w1, Ok tt)
    /\ split_data cfg main_paths w1 = (w2, Ok tt)
    /\ generate_csv_files cfg main_paths w2 = (w', Ok tt).
Proof.
  unfold main. intros H.
  apply bind_ok_inv in H. destruct H as (wa & [] & Ha & H).
  apply bind_ok_inv in H. destruct H as (wb & [] & Hb & H).
  apply bind_ok_inv in H. destruct H as (wc & dirs & Hc & H).
  pose proof (set_up_folder_structure_value _ _ _ Hc) as ->.
  cbn [fst snd] in H. fold main_paths in H.
  apply bind_ok_inv in H. destruct H as (w0 & [] & Hd & H).
  apply bind_ok_inv in H. destruct H as (w1 & [] & He & H).
  apply bind_ok_inv in H. destruct H as (w2 & [] & Hf & H).
  exists w0, w1, w2. repeat split; try assumption.
  unfold before_copies, bind. rewrite Ha, Hb, Hc. exact Hd.
Qed.

Lemma before_copies_ready (cfg : settings) (w w0 : world) :
  tidy (disk w) -> before_copies cfg w = (w0, Ok tt) -> split_dirs_ready (disk w0).
Proof.
  intros Ht H. unfold before_copies in H.
  apply bind_ok_inv in H. destruct H as (wa & [] & Ha & H).
  apply bind_ok_inv in H. destruct H as (wb & [] & Hb & H).
  apply bind_ok_inv in H. destruct H as (wc & dirs & Hc & H).
  pose proof (set_up_folder_structure_value _ _ _ Hc) as ->.
  cbn [fst snd] in H. fold main_paths in H.
  assert (wa = w) as ->.
  { unfold py_assert in Ha. destruct (check_settings cfg); now injection Ha. }
  assert (Htc : tidy (disk wc)).
  { eapply settles_tidy; [eapply set_up_settles, Hc | ].
    eapply settles_tidy; [eapply delete_folders_settles, Hb | exact Ht]. }
  assert (Hk : keeps_splits wc w0).
  { destruct (RENAME_DATA cfg).
    - eapply rename_data_keeps_splits, H.
    - injection H as <-. apply keeps_splits_refl. }
  intros s c Hs Hcl. rewrite Hk by apply split_dir_below.
  destruct (Htc s c Hs Hcl) as [E | E]; [ | exact E].
  now destruct (set_up_there _ _ _ Hc s c Hs Hcl).
Qed.

Lemma split_dir_not_nil (split_type class_type : string) :
  split_dir split_type class_type <> [].
Proof. discriminate. Qed.

Lemma split_dir_not_target (s c s' c' name : string) :
  split_dir s c <> os_path_join (split_dir s' c') name.
Proof. intros H. apply (f_equal (@List.length string)) in H. discriminate H. Qed.

Lemma ready_stat (fs : filesystem) (s c : string) :
  split_dirs_ready fs -> In s split_types -> In c class_types ->
  stat fs (split_dir s c) = Some Dir.
Proof.
  intros H Hs Hc. rewrite stat_nonempty by apply split_dir_not_nil. now apply H.
Qed.

(** The augmented copies of one class. *)
Lemma copy_augmented_class_effect (cfg : settings) (class_type : string) (w w' : world) :
  In class_type class_types ->
  split_dirs_ready (disk w) ->
  copy_augmented_class cfg main_paths class_type w = (w', Ok tt) ->
  split_dirs_ready (disk w')
  /\ exists evs, journal w' = journal w ++ evs /\ Forall augmented_copy evs.
Proof.
  intros Hc Hready H.
  assert (Hrun : copy_all (split_dir "train" class_type)
                   (glob_list (disk w) (os_path_join (class_dir class_type) "augmented")
                              (data_pattern cfg)) w = (w', Ok tt)).
  { rewrite <- H. unfold copy_augmented_class.
    rewrite (main_paths_class class_type Hc).
    set (names := glob_list (disk w) _ _).
    transitivity (copy_range names 0 (len names) (split_dir "train" class_type) w);
      [ | reflexivity].
    rewrite copy_range_slice by (unfold len; lia).
    rewrite Z.sub_0_r. cbn [Z.to_nat skipn]. unfold len.
    now rewrite Nat2Z.id, firstn_all. }
  clear H.
  destruct (copy_all_ok _ _ _ _ (ready_stat _ "train" class_type Hready
                                   (or_introl eq_refl) Hc)
              (split_dir_not_nil _ _) Hrun) as (Hj & _ & Hframe & _).
  split.
  - intros s c Hs Hcl. rewrite Hframe; [now apply Hready | ].
    intros src _. apply split_dir_not_target.
  - eexists. split; [exact Hj | ].
    unfold copies_into. apply Forall_map, Forall_forall. intros src Hsrc.
    apply glob_list_children in Hsrc. destruct Hsrc as [name ->].
    rewrite basename_join. now exists class_type, name.
Qed.

Lemma copy_augmented_effect (cfg : settings) (w w' : world) :
  split_dirs_ready (disk w) ->
  copy_augmented_data_to_train cfg main_paths w = (w', Ok tt) ->
  split_dirs_ready (disk w')
  /\ exists evs, journal w' = journal w ++ evs /\ Forall augmented_copy evs.
Proof.
  intros Hready H. unfold copy_augmented_data_to_train, class_types in H.
  apply for_each_cons_ok in H. destruct H as (w1 & H1 & H).
  apply for_each_cons_ok in H. destruct H as (w2 & H2 & H).
  apply for_each_nil_ok in H. subst w2.
  destruct (copy_augmented_class_effect cfg _ _ _ (or_introl eq_refl) Hready H1)
    as (Hr1 & evs1 & J1 & F1).
  destruct (copy_augmented_class_effect cfg _ _ _ (or_intror (or_introl eq_refl)) Hr1 H2)
    as (Hr2 & evs2 & J2 & F2).
  split; [exact Hr2 | ]. exists (evs1 ++ evs2). split.
  - now rewrite J2, J1, <- app_assoc.
  - apply Forall_app. now split.
Qed.

(** The copies of one class by the split stage. *)
Lemma split_data_class_copies (cfg : settings) (class_type : string) (w w' : world) :
  In class_type class_types ->
  finite_nonneg (TRAIN cfg) -> finite_nonneg (TEST cfg) ->
  split_dirs_ready (disk w) ->
  split_data_class cfg main_paths class_type w = (w', Ok tt) ->
  (exists evs, journal w' = journal w ++ evs /\ Forall (class_copy class_type w w') evs)
  /\ (forall p,
        (forall s name, In s split_types ->
                        p <> os_path_join (split_dir s class_type) name) ->
        lookup (disk w') p = lookup (disk w) p).
Proof.
  intros Hc Htr Hte Hready Hrun.
  destruct (split_data_class_effect cfg class_type w Hc Htr Hte) as (Hperm & Hdone & _).
  { intros s Hs. now apply ready_stat. }
  destruct (Hdone w' Hrun)
    as (num & _ & Hcover & _ & _ & _ & _ & Hj & Hcontent & Hframe).
  set (sh := shuffled_samples cfg w class_type) in *.
  assert (Hpart : forall to_dir part,
             In (to_dir, part) (split_parts class_type num sh) ->
             (exists s, In s split_types /\ to_dir = split_dir s class_type)
             /\ forall src, In src part -> In src (samples_of cfg (disk w) class_type)).
  { intros to_dir part Hin. split.
    - destruct Hin as [[= <- _] | [[= <- _] | [[= <- _] | []]]];
        eexists; (split; [ | reflexivity]); cbn; tauto.
    - intros src Hsrc. eapply Permutation_in; [apply Permutation_sym, Hperm | ].
      fold sh. rewrite <- Hcover.
      destruct Hin as [[= _ <-] | [[= _ <-] | [[= _ <-] | []]]];
        rewrite !in_app_iff; tauto. }
  assert (Hevent : forall to_dir part,
             In (to_dir, part) (split_parts class_type num sh) ->
             Forall (class_copy class_type w w') (copies_into to_dir part)).
  { intros to_dir part Hin. destruct (Hpart _ _ Hin) as [(s & Hs & ->) Hsub].
    unfold copies_into. apply Forall_map, Forall_forall. intros src Hsrc.
    destruct (Hcontent _ _ _ Hin Hsrc) as (data & Hstat & Hl).
    apply stat_file_lookup in Hstat. destruct Hstat as [Hstat _].
    pose proof (Hsub _ Hsrc) as Hname. apply glob_list_children in Hname.
    destruct Hname as [name ->]. rewrite basename_join in *.
    now exists s, name, data. }
  split.
  - eexists. split; [exact Hj | ].
    repeat (apply Forall_app; split); apply Hevent; cbn; tauto.
  - intros p Hp. apply Hframe. intros to_dir part src Hin Hsrc.
    destruct (Hpart _ _ Hin) as [(s & Hs & ->) _]. now apply Hp.
Qed.

Lemma split_dirs_of_classes (s s' c c' : string) :
  c <> c' -> split_dir s c <> split_dir s' c'.
Proof.
  intros Hc H. unfold split_dir, os_path_join in H.
  apply app_inj_tail in H. destruct H as [_ H]. congruence.
Qed.

Lemma sample_not_target (c name s' c' name' : string) :
  os_path_join (class_dir c) name <> os_path_join (split_dir s' c') name'.
Proof. intros H. apply (f_equal (@List.length string)) in H. discriminate H. Qed.

Lemma class_copy_later (c : string) (w1 w2 w3 : world) (ev : event) :
  (forall s name, In s split_types ->
                  lookup (disk w3) (os_path_join (split_dir s c) name)
                  = lookup (disk w2) (os_path_join (split_dir s c) name)) ->
  class_copy c w1 w2 ev -> class_copy c w1 w3 ev.
Proof.
  intros Hsame (s & name & data & Hs & -> & Hsrc & Hdst).
  exists s, name, data. repeat split; try assumption. now rewrite Hsame.
Qed.

Lemma class_copy_earlier (c : string) (w0 w1 w2 : world) (ev : event) :
  (forall name, lookup (disk w1) (os_path_join (class_dir c) name)
                = lookup (disk w0) (os_path_join (class_dir c) name)) ->
  class_copy c w1 w2 ev -> class_copy c w0 w2 ev.
Proof.
  intros Hsame (s & name & data & Hs & -> & Hsrc & Hdst).
  exists s, name, data. repeat split; try assumption. now rewrite <- Hsame.
Qed.

(** The copies of the whole split stage. *)
Lemma split_data_copies (cfg : settings) (w1 w2 : world) :
  finite_nonneg (TRAIN cfg) -> finite_nonneg (TEST cfg) ->
  split_dirs_ready (disk w1) ->
  split_data cfg main_paths w1 = (w2, Ok tt) ->
  exists evs, journal w2 = journal w1 ++ evs /\ Forall (main_copy w1 w2) evs.
Proof.
  intros Htr Hte Hready H. unfold split_data, class_types in H.
  apply for_each_cons_ok in H. destruct H as (wb & Hb & H).
  apply for_each_cons_ok in H. destruct H as (wm & Hm & H).
  apply for_each_nil_ok in H. subst wm.
  destruct (split_data_class_copies cfg _ _ _ (or_introl eq_refl) Htr Hte Hready Hb)
    as ((evs_b & Jb & Fb) & Frame_b).
  assert (Hready_b : split_dirs_ready (disk wb)).
  { intros s c Hs Hc. rewrite Frame_b; [now apply Hready | ].
    intros s' name _. apply split_dir_not_target. }
  destruct (split_data_class_copies cfg _ _ _ (or_intror (or_introl eq_refl))
              Htr Hte Hready_b Hm)
    as ((evs_m & Jm & Fm) & Frame_m).
  exists (evs_b ++ evs_m). split; [now rewrite Jm, Jb, <- app_assoc | ].
  apply Forall_app. split.
  - eapply Forall_impl; [ | exact Fb]. intros ev Hev.
    exists "benign"%string. split; [now left | ].
    eapply class_copy_later; [ | exact Hev].
    intros s name Hs. apply Frame_m. intros s' name' _.
    apply join_neq_dirs, split_dirs_of_classes. discriminate.
  - eapply Forall_impl; [ | exact Fm]. intros ev Hev.
    exists "malign"%string. split; [right; now left | ].
    eapply class_copy_earlier; [ | exact Hev].
    intros name. apply Frame_b. intros s' name' _. apply sample_not_target.
Qed.

Lemma generate_csv_files_below_code (cfg : settings) :
  preserves (confined [["code"%string]] (event_below [["code"%string]]))
            (generate_csv_files cfg main_paths).
Proof.
  pose proof (confined_refl [["code"%string]] (event_below [["code"%string]])) as Rr.
  pose proof (confined_trans [["code"%string]] (event_below [["code"%string]])) as Rt.
  apply preserves_for_each; try assumption. intros split_type Hs.
  apply preserves_for_each; try assumption. intros class_type Hc.
  unfold generate_csv_file.
  apply preserves_bind_lift; try assumption. intros sd _.
  apply preserves_bind; try assumption; [now apply preserves_glob | intros names].
  change (dict_get main_paths "code") with (Ok (os_path_join [] "code")).
  apply preserves_bind_lift; try assumption. intros cd [= <-].
  apply preserves_write_file with (r := ["code"%string]).
  - now left.
  - reflexivity.
  - cbn. apply not_outside with (r := ["code"%string]); [now left | reflexivity].
Qed.

Lemma split_target_outside_code (s c name : string) :
  outside [["code"%string]] (os_path_join (split_dir s c) name).
Proof. intros r [<- | []]. reflexivity. Qed.

(** A run with a collision, spelled out: [a.png] exists in the class folder
    and in its [augmented] folder; the augmented one is copied to
    [train/benign/a.png] first, the sample of the class folder second, and
    the latter is what the folder holds in the end. *)
Example augmented_collision_run :
  let w' := fst (main shipped_settings ready_world) in
  main shipped_settings ready_world = (w', Ok tt)
  /\ filter (fun ev => match ev with Copy _ _ => true | _ => false end) (journal w')
     = [ Copy ["all_benign"; "augmented"; "a.png"]
              ["split_samples"; "train"; "benign"; "a.png"];
         Copy ["all_benign"; "c.png"] ["split_samples"; "train"; "benign"; "c.png"];
         Copy ["all_benign"; "a.png"] ["split_samples"; "train"; "benign"; "a.png"];
         Copy ["all_benign"; "b.png"]
              ["split_samples"; "validation"; "benign"; "b.png"] ]%string
  /\ lookup (disk w') ["all_benign"; "augmented"; "a.png"]%string
     = Some (File "a-augmented")
  /\ lookup (disk w') ["all_benign"; "a.png"]%string = Some (File "a")
  /\ lookup (disk w') ["split_samples"; "train"; "benign"; "a.png"]%string
     = Some (File "a").
Proof. vm_compute. repeat split; reflexivity. Qed.

(** ** Further properties: the folder helpers *)

Lemma exn_eqb_eq (a b : exn) : exn_eqb a b = true -> a = b.
Proof. destruct a, b; cbn; congruence. Qed.

Lemma keeps_entries_refl (w : world) : keeps_entries w w.
Proof. now intros p _. Qed.

Lemma keeps_entries_trans (w1 w2 w3 : world) :
  keeps_entries w1 w2 -> keeps_entries w2 w3 -> keeps_entries w1 w3.
Proof.
  intros H12 H23 p Hp. rewrite H23; [now apply H12 | ].
  now rewrite H12.
Qed.

Lemma mkdir_keeps_entries (p : path) : preserves keeps_entries (os_mkdir p).
Proof.
  intros w w' r. unfold os_mkdir.
  destruct (stat (disk w) p) as [n | ] eqn:Ep;
    [intros [= <- _]; apply keeps_entries_refl | ].
  destruct (stat (disk w) (os_path_dirname p)) as [[data | ] | ]; intros [= <- _];
    try apply keeps_entries_refl.
  intros q Hq. cbn [commit disk]. apply lookup_put_neq. intros <-.
  destruct p; [discriminate Ep | ]. cbn [stat] in Ep. congruence.
Qed.

Lemma create_folders_keeps_entries (main_dir : path) (l : list string) :
  preserves keeps_entries (create_folders_in_dir main_dir l).
Proof.
  induction l as [ | s l IH]; cbn [create_folders_in_dir].
  - apply preserves_ret, keeps_entries_refl.
  - apply preserves_bind; [apply keeps_entries_trans | | intros _; exact IH].
    apply preserves_try_except;
      [apply keeps_entries_trans | apply mkdir_keeps_entries | ].
    apply preserves_ret, keeps_entries_refl.
Qed.

Lemma create_folders_no_exists_error (main_dir : path) (l : list string)
      (w w' : world) (r : result unit) :
  create_folders_in_dir main_dir l w = (w', r) -> r <> Raise FileExistsError.
Proof.
  revert w. induction l as [ | s l IH]; intros w; cbn [create_folders_in_dir].
  - intros [= _ <-]. discriminate.
  - unfold bind, try_except.
    destruct (os_mkdir (os_path_join main_dir s) w) as [w1 [[] | e]].
    + apply IH.
    + destruct (exn_eqb e FileExistsError) eqn:Ee.
      * unfold ret. apply IH.
      * intros [= _ <-] [= ->]. discriminate Ee.
Qed.

Lemma create_folders_noop (main_dir : path) (l : list string) (w : world) :
  (forall s, In s l -> there (os_path_join main_dir s) w) ->
  create_folders_in_dir main_dir l w = (w, Ok tt).
Proof.
  induction l as [ | s l IH]; intros Hl; cbn [create_folders_in_dir]; [reflexivity | ].
  unfold bind, try_except, os_mkdir. rewrite stat_join.
  pose proof (Hl s (or_introl eq_refl)) as Hs. unfold there in Hs.
  destruct (lookup (disk w) (os_path_join main_dir s)); [ | congruence].
  cbn [exn_eqb]. unfold ret. apply IH. intros s' Hs'. apply Hl. now right.
Qed.

(** Creating folders with free names in a directory that is there. *)
Lemma create_folders_fresh (main_dir : path) (l : list string) (w : world) :
  stat (disk w) main_dir = Some Dir -> NoDup l ->
  (forall s, In s l -> lookup (disk w) (os_path_join main_dir s) = None) ->
  exists w',
    create_folders_in_dir main_dir l w = (w', Ok tt)
    /\ journal w' = journal w ++ mkdirs main_dir l
    /\ (forall s, In s l -> lookup (disk w') (os_path_join main_dir s) = Some Dir)
    /\ (forall q, (forall s, In s l -> q <> os_path_join main_dir s) ->
                  lookup (disk w') q = lookup (disk w) q).
Proof.
  revert w. induction l as [ | s l IH]; intros w Hdir Hnd Hfree.
  - exists w. cbn [mkdirs map]. rewrite app_nil_r.
    repeat split; try reflexivity. intros s [].
  - inversion Hnd as [ | s0 l0 Hs Hnd']; subst.
    cbn [create_folders_in_dir]. unfold bind, try_except, os_mkdir.
    rewrite stat_join, dirname_join, (Hfree s (or_introl eq_refl)), Hdir.
    set (w1 := commit w (put (disk w) (os_path_join main_dir s) Dir)
                      (Mkdir (os_path_join main_dir s))).
    destruct (IH w1) as (w' & Erun & Hj & Hnew & Hframe); try assumption.
    + unfold w1. cbn [commit disk]. destruct main_dir as [ | c d]; [reflexivity | ].
      cbn [stat] in *. rewrite lookup_put_neq; [exact Hdir | ].
      intros H. apply (f_equal (@List.length string)) in H.
      unfold os_path_join in H. rewrite length_app in H. cbn in H. lia.
    + intros s' Hs'. unfold w1. cbn [commit disk].
      rewrite lookup_put_neq; [apply Hfree; now right | ].
      apply join_neq. intros ->. contradiction.
    + exists w'. split; [exact Erun | ]. split; [ | split].
      * rewrite Hj. unfold w1. cbn [commit journal mkdirs map].
        now rewrite <- app_assoc.
      * intros s' [<- | Hs'].
        -- rewrite Hframe; [unfold w1; cbn [commit disk]; apply lookup_put_eq | ].
           intros s' Hs'. apply join_neq. intros ->. contradiction.
        -- now apply Hnew.
      * intros q Hq. rewrite Hframe.
        -- unfold w1. cbn [commit disk]. apply lookup_put_neq.
           intros <-. apply (Hq s); [now left | reflexivity].
        -- intros s' Hs'. apply Hq. now right.
Qed.

(** X1. However [create_folders_in_dir] ends, every entry that was on the
    disk is still there unchanged (folders that exist are neither emptied
    nor replaced), and it never raises [FileExistsError]; when it returns
    normally, each of the requested folders exists. *)
Theorem create_folders_in_dir_outcome (main_dir : path) (l : list string)
        (w w' : world) (r : result unit) :
  create_folders_in_dir main_dir l w = (w', r) ->
  keeps_entries w w'
  /\ r <> Raise FileExistsError
  /\ (r = Ok tt -> forall s, In s l -> there (os_path_join main_dir s) w').
Proof.
  intros H. split; [eapply create_folders_keeps_entries, H | ].
  split; [eapply create_folders_no_exists_error, H | ].
  intros -> s Hs. now apply (proj2 (create_folders_there _ _ _ _ H)).
Qed.

Lemma create_folders_in_dir_outcome_witness :
  there ["split_samples"; "train"]%string
        (fst (create_folders_in_dir ["split_samples"%string]
                ["test"; "train"; "validation"]%string stale_world)).
Proof.
  refine (proj2 (proj2 (create_folders_in_dir_outcome
                          ["split_samples"%string] ["test"; "train"; "validation"]%string
                          stale_world _ (Ok tt) _)) eq_refl "train"%string _).
  - vm_compute. reflexivity.
  - right. now left.
Defined.

(** X2. When every requested folder already exists,
    [create_folders_in_dir] changes nothing and returns normally: the
    [FileExistsError] of each [os.mkdir] is swallowed. *)
Theorem create_folders_in_dir_existing (main_dir : path) (l : list string) (w : world) :
  (forall s, In s l -> lookup (disk w) (os_path_join main_dir s) <> None) ->
  create_folders_in_dir main_dir l w = (w, Ok tt).
Proof. exact (create_folders_noop main_dir l w). Qed.

Lemma create_folders_in_dir_existing_witness :
  create_folders_in_dir [] ["all_benign"; "split_samples"]%string stale_world
  = (stale_world, Ok tt).
Proof.
  apply create_folders_in_dir_existing.
  intros s [<- | [<- | []]]; vm_compute; discriminate.
Defined.

(** X3. In a directory that exists, folders whose names are distinct
    single path components, none of which is taken, are all created, in
    the order of the list: the journal grows by exactly one [Mkdir] per
    name, each new path is a directory, and every other path is as
    before. *)
Theorem create_folders_in_dir_fresh (main_dir : path) (l : list string) (w : world) :
  stat (disk w) main_dir = Some Dir -> NoDup l ->
  (forall s, In s l -> single_component s = true) ->
  (forall s, In s l -> lookup (disk w) (os_path_join main_dir s) = None) ->
  exists w',
    create_folders_in_dir main_dir l w = (w', Ok tt)
    /\ journal w' = journal w ++ mkdirs main_dir l
    /\ (forall s, In s l -> lookup (disk w') (os_path_join main_dir s) = Some Dir)
    /\ (forall q, (forall s, In s l -> q <> os_path_join main_dir s) ->
                  lookup (disk w') q = lookup (disk w) q).
Proof. intros Hdir Hnd _ Hfree. exact (create_folders_fresh main_dir l w Hdir Hnd Hfree). Qed.

Lemma create_folders_in_dir_fresh_witness :
  exists w',
    create_folders_in_dir [] ["code"; "split_samples"]%string first_run_world
    = (w', Ok tt)
    /\ journal w' = [Mkdir ["code"]; Mkdir ["split_samples"]]%string.
Proof.
  destruct (create_folders_in_dir_fresh [] ["code"; "split_samples"]%string
              first_run_world) as (w' & E & J & _).
  - reflexivity.
  - repeat constructor; cbn; intuition discriminate.
  - intros s [<- | [<- | []]]; reflexivity.
  - intros s [<- | [<- | []]]; reflexivity.
  - exists w'. split; [exact E | exact J].
Defined.

(** X4. When the parent directory is missing, the first [os.mkdir] raises
    [FileNotFoundError]; it is not caught, so the call ends with it, no
    folder of the list is created and the disk is untouched. *)
Theorem create_folders_in_dir_missing_parent (main_dir : path) (s : string)
        (rest : list string) (w : world) :
  stat (disk w) main_dir = None ->
  lookup (disk w) (os_path_join main_dir s) = None ->
  create_folders_in_dir main_dir (s :: rest) w = (w, Raise FileNotFoundError).
Proof.
  intros Hdir Hs. cbn [create_folders_in_dir]. unfold bind, try_except, os_mkdir.
  now rewrite stat_join, dirname_join, Hs, Hdir.
Qed.

Lemma create_folders_in_dir_missing_parent_witness :
  create_folders_in_dir ["split_samples"%string] ["test"; "train"]%string first_run_world
  = (first_run_world, Raise FileNotFoundError).
Proof. apply create_folders_in_dir_missing_parent; reflexivity. Defined.

(** ** Further properties: the output tree *)


Lemma for_each_raises {A : Type} (P : exn -> Prop) (l : list A) (body : A -> M unit) :
  (forall x w w' e, In x l -> body x w = (w', Raise e) -> P e) ->
  forall w w' e, for_each l body w = (w', Raise e) -> P e.
Proof.
  induction l as [ | x l IH]; intros Hbody w w' e.
  - discriminate.
  - rewrite for_each_cons. destruct (body x w) as [w1 [[] | e1]] eqn:E.
    + apply IH. intros y wa wb e' Hy. apply Hbody. now right.
    + intros [= _ <-]. eapply Hbody; [now left | exact E].
Qed.


Lemma keeps_there (p : path) (w w' : world) : keeps_entries w w' -> there p w -> there p w'.
Proof. unfold there. intros Hk Hp. now rewrite Hk. Qed.

Lemma set_up_scaffold_there (w w' : world) (dirs : path * path) :
  set_up_folder_structure w = (w', Ok dirs) ->
  forall p, In p scaffold_paths -> there p w'.
Proof.
  unfold set_up_folder_structure. cbv zeta. intros H.
  apply bind_ok_inv in H. destruct H as (w1 & [] & H1 & H).
  apply bind_ok_inv in H. destruct H as (w2 & [] & H2 & H).
  apply bind_ok_inv in H. destruct H as (w3 & [] & H & Hret).
  injection Hret as <- _.
  apply for_each_cons_ok in H. destruct H as (wa & Ha & H).
  apply for_each_cons_ok in H. destruct H as (wb & Hb & H).
  apply for_each_cons_ok in H. destruct H as (wc & Hc & H).
  apply for_each_nil_ok in H. subst w3.
  pose proof (create_folders_keeps_entries _ _ _ _ _ H2) as K2.
  pose proof (create_folders_keeps_entries _ _ _ _ _ Ha) as Ka.
  pose proof (create_folders_keeps_entries _ _ _ _ _ Hb) as Kb.
  pose proof (create_folders_keeps_entries _ _ _ _ _ Hc) as Kc.
  apply create_folders_there in H1, H2, Ha, Hb, Hc.
  destruct H1 as [_ H1], H2 as [_ H2], Ha as [_ Ha], Hb as [_ Hb], Hc as [_ Hc].
  intros p Hp. cbn [scaffold_paths In] in Hp.
  repeat (destruct Hp as [<- | Hp]); try contradiction.
  - apply (keeps_there _ wb wc Kc), (keeps_there _ wa wb Kb), (keeps_there _ w2 wa Ka),
      (keeps_there _ w1 w2 K2), (H1 "code"%string). now left.
  - apply (keeps_there _ wb wc Kc), (keeps_there _ wa wb Kb), (keeps_there _ w2 wa Ka),
      (keeps_there _ w1 w2 K2), (H1 "split_samples"%string). right. now left.
  - apply (keeps_there _ wb wc Kc), (keeps_there _ wa wb Kb), (keeps_there _ w2 wa Ka),
      (H2 "test"%string). now left.
  - apply (keeps_there _ wb wc Kc), (keeps_there _ wa wb Kb), (keeps_there _ w2 wa Ka),
      (H2 "train"%string). right. now left.
  - apply (keeps_there _ wb wc Kc), (keeps_there _ wa wb Kb), (keeps_there _ w2 wa Ka),
      (H2 "validation"%string). right. right. now left.
  - apply (keeps_there _ wb wc Kc), (keeps_there _ wa wb Kb), (Ha "benign"%string).
    now left.
  - apply (keeps_there _ wb wc Kc), (keeps_there _ wa wb Kb), (Ha "malign"%string).
    right. now left.
  - apply (keeps_there _ wb wc Kc), (Hb "benign"%string). now left.
  - apply (keeps_there _ wb wc Kc), (Hb "malign"%string). right. now left.
  - apply (Hc "benign"%string). now left.
  - apply (Hc "malign"%string). right. now left.
Qed.

Lemma set_up_noop (w : world) :
  (forall p, In p scaffold_paths -> there p w) ->
  set_up_folder_structure w = (w, Ok ([], os_path_join [] "split_samples")).
Proof.
  intros H. unfold set_up_folder_structure. cbv zeta. unfold bind.
  rewrite create_folders_noop.
  2: { intros s [<- | [<- | []]]; apply H; cbn; tauto. }
  rewrite create_folders_noop.
  2: { intros s [<- | [<- | [<- | []]]]; apply H; cbn; tauto. }
  rewrite for_each_cons, create_folders_noop.
  2: { intros s [<- | [<- | []]]; apply H; cbn; tauto. }
  rewrite for_each_cons, create_folders_noop.
  2: { intros s [<- | [<- | []]]; apply H; cbn; tauto. }
  rewrite for_each_cons, create_folders_noop.
  2: { intros s [<- | [<- | []]]; apply H; cbn; tauto. }
  reflexivity.
Qed.



(** X6. [set_up_folder_structure] is idempotent: run again on the disk it
    has left, it changes nothing and returns the same pair. *)
Theorem set_up_folder_structure_idempotent (w w1 : world) (dirs : path * path) :
  set_up_folder_structure w = (w1, Ok dirs) ->
  set_up_folder_structure w1 = (w1, Ok dirs).
Proof.
  intros H. rewrite (set_up_folder_structure_value _ _ _ H).
  apply set_up_noop. apply (set_up_scaffold_there _ _ _ H).
Qed.

Lemma set_up_folder_structure_idempotent_witness :
  set_up_folder_structure (fst (set_up_folder_structure first_run_world))
  = (fst (set_up_folder_structure first_run_world), Ok ([], ["split_samples"%string])).
Proof.
  apply (set_up_folder_structure_idempotent first_run_world).
  vm_compute. reflexivity.
Defined.

Lemma keeps_dir (p : path) (w w' : world) :
  keeps_entries w w' -> lookup (disk w) p = Some Dir -> lookup (disk w') p = Some Dir.
Proof. intros Hk Hp. rewrite Hk; [exact Hp | congruence]. Qed.

Lemma set_up_fresh (w : world) :
  (forall p, In p scaffold_paths -> lookup (disk w) p = None) ->
  exists w',
    set_up_folder_structure w = (w', Ok ([], os_path_join [] "split_samples"))
    /\ journal w' = journal w ++ map Mkdir scaffold_paths
    /\ (forall p, In p scaffold_paths -> lookup (disk w') p = Some Dir)
    /\ (forall q, ~ In q scaffold_paths -> lookup (disk w') q = lookup (disk w) q).
Proof.
  intros Hfree.
  assert (Hnd2 : NoDup ["benign"; "malign"]%string)
    by (repeat constructor; cbn; intuition discriminate).
  destruct (create_folders_fresh [] ["code"; "split_samples"]%string w)
    as (w1 & E1 & J1 & N1 & F1).
  { reflexivity. }
  { repeat constructor; cbn; intuition discriminate. }
  { intros s [<- | [<- | []]]; apply Hfree; cbn; tauto. }
  destruct (create_folders_fresh ["split_samples"%string]
              ["test"; "train"; "validation"]%string w1)
    as (w2 & E2 & J2 & N2 & F2).
  { apply (N1 "split_samples"%string). right. now left. }
  { repeat constructor; cbn; intuition discriminate. }
  { intros s Hs. rewrite F1.
    - destruct Hs as [<- | [<- | [<- | []]]]; apply Hfree; cbn; tauto.
    - intros s' [<- | [<- | []]]; destruct Hs as [<- | [<- | [<- | []]]]; discriminate. }
  destruct (create_folders_fresh ["split_samples"; "test"]%string
              ["benign"; "malign"]%string w2)
    as (wa & Ea & Ja & Na & Fa).
  { apply (N2 "test"%string). now left. }
  { exact Hnd2. }
  { intros s Hs. rewrite F2, F1.
    - destruct Hs as [<- | [<- | []]]; apply Hfree; cbn; tauto.
    - intros s' [<- | [<- | []]]; destruct Hs as [<- | [<- | []]]; discriminate.
    - intros s' [<- | [<- | [<- | []]]]; destruct Hs as [<- | [<- | []]]; discriminate. }
  destruct (create_folders_fresh ["split_samples"; "train"]%string
              ["benign"; "malign"]%string wa)
    as (wb & Eb & Jb & Nb & Fb).
  { cbn [stat]. rewrite Fa; [apply (N2 "train"%string); right; now left | ].
    intros s' [<- | [<- | []]]; discriminate. }
  { exact Hnd2. }
  { intros s Hs. rewrite Fa, F2, F1.
    - destruct Hs as [<- | [<- | []]]; apply Hfree; cbn; tauto.
    - intros s' [<- | [<- | []]]; destruct Hs as [<- | [<- | []]]; discriminate.
    - intros s' [<- | [<- | [<- | []]]]; destruct Hs as [<- | [<- | []]]; discriminate.
    - intros s' [<- | [<- | []]]; destruct Hs as [<- | [<- | []]]; discriminate. }
  destruct (create_folders_fresh ["split_samples"; "validation"]%string
              ["benign"; "malign"]%string wb)
    as (wc & Ec & Jc & Nc & Fc).
  { cbn [stat]. rewrite Fb, Fa;
      [apply (N2 "validation"%string); right; right; now left | | ];
      intros s' [<- | [<- | []]]; discriminate. }
  { exact Hnd2. }
  { intros s Hs. rewrite Fb, Fa, F2, F1.
    - destruct Hs as [<- | [<- | []]]; apply Hfree; cbn; tauto.
    - intros s' [<- | [<- | []]]; destruct Hs as [<- | [<- | []]]; discriminate.
    - intros s' [<- | [<- | [<- | []]]]; destruct Hs as [<- | [<- | []]]; discriminate.
    - intros s' [<- | [<- | []]]; destruct Hs as [<- | [<- | []]]; discriminate.
    - intros s' [<- | [<- | []]]; destruct Hs as [<- | [<- | []]]; discriminate. }
  assert (Erun : set_up_folder_structure w
                 = (wc, Ok ([], os_path_join [] "split_samples"))).
  { unfold set_up_folder_structure. cbv zeta. unfold bind.
    change (os_path_join [] "split_samples") with ["split_samples"%string].
    rewrite E1, E2, for_each_cons.
    change (os_path_join ["split_samples"%string] "test")
      with ["split_samples"; "test"]%string.
    rewrite Ea, for_each_cons.
    change (os_path_join ["split_samples"%string] "train")
      with ["split_samples"; "train"]%string.
    rewrite Eb, for_each_cons.
    change (os_path_join ["split_samples"%string] "validation")
      with ["split_samples"; "validation"]%string.
    rewrite Ec. reflexivity. }
  exists wc. split; [exact Erun | ]. split; [ | split].
  - rewrite Jc, Jb, Ja, J2, J1. rewrite <- !app_assoc. reflexivity.
  - intros p Hp.
    pose proof (create_folders_keeps_entries _ _ _ _ _ E2) as K2.
    pose proof (create_folders_keeps_entries _ _ _ _ _ Ea) as Ka.
    pose proof (create_folders_keeps_entries _ _ _ _ _ Eb) as Kb.
    pose proof (create_folders_keeps_entries _ _ _ _ _ Ec) as Kc.
    pose proof (keeps_entries_trans _ _ _ Kb Kc) as Kbc.
    pose proof (keeps_entries_trans _ _ _ Ka Kbc) as Kac.
    pose proof (keeps_entries_trans _ _ _ K2 Kac) as K2c.
    cbn [scaffold_paths In] in Hp.
    repeat (destruct Hp as [<- | Hp]); try contradiction.
    + apply (keeps_dir _ _ _ K2c), (N1 "code"%string). cbn; tauto.
    + apply (keeps_dir _ _ _ K2c), (N1 "split_samples"%string). cbn; tauto.
    + apply (keeps_dir _ _ _ Kac), (N2 "test"%string). cbn; tauto.
    + apply (keeps_dir _ _ _ Kac), (N2 "train"%string). cbn; tauto.
    + apply (keeps_dir _ _ _ Kac), (N2 "validation"%string). cbn; tauto.
    + apply (keeps_dir _ _ _ Kbc), (Na "benign"%string). cbn; tauto.
    + apply (keeps_dir _ _ _ Kbc), (Na "malign"%string). cbn; tauto.
    + apply (keeps_dir _ _ _ Kc), (Nb "benign"%string). cbn; tauto.
    + apply (keeps_dir _ _ _ Kc), (Nb "malign"%string). cbn; tauto.
    + apply (Nc "benign"%string). cbn; tauto.
    + apply (Nc "malign"%string). cbn; tauto.
  - intros q Hq. rewrite Fc, Fb, Fa, F2, F1; [reflexivity | | | | | ];
      intros s Hs Heq; apply Hq; subst q;
      repeat (destruct Hs as [<- | Hs]); try contradiction; cbn; tauto.
Qed.

(** X7. On a disk where none of the eleven folders of the output tree
    exists, [set_up_folder_structure] returns normally, creates exactly
    these eleven directories, in the order [code], [split_samples], the
    three split folders, then [benign] and [malign] inside each, and leaves
    every other path as it was. *)
Theorem set_up_folder_structure_fresh (w : world) :
  (forall p, In p scaffold_paths -> lookup (disk w) p = None) ->
  exists w',
    set_up_folder_structure w = (w', Ok ([], ["split_samples"%string]))
    /\ journal w' = journal w ++ map Mkdir scaffold_paths
    /\ (forall p, In p scaffold_paths -> lookup (disk w') p = Some Dir)
    /\ (forall q, ~ In q scaffold_paths -> lookup (disk w') q = lookup (disk w) q).
Proof. exact (set_up_fresh w). Qed.

Lemma set_up_folder_structure_fresh_witness :
  exists w',
    set_up_folder_structure first_run_world = (w', Ok ([], ["split_samples"%string]))
    /\ journal w' = map Mkdir scaffold_paths
    /\ lookup (disk w') ["all_benign"; "a.png"]%string = Some (File "a").
Proof.
  destruct (set_up_folder_structure_fresh first_run_world) as (w' & E & J & _ & F).
  - intros p Hp. cbn [scaffold_paths In] in Hp.
    repeat (destruct Hp as [<- | Hp]); try contradiction; reflexivity.
  - exists w'. split; [exact E | ]. split; [exact J | ].
    rewrite F; [reflexivity | ].
    cbn [scaffold_paths In]. intuition discriminate.
Defined.

(** ** Further properties: reset and scaffold together *)

Lemma entry_names_prune_under (fs : filesystem) (r d : path) :
  is_under r d = true -> entry_names (prune fs r) d = [].
Proof.
  intros Hd. unfold entry_names, prune.
  induction fs as [ | [p n] fs IH]; cbn [filter flat_map fst snd]; [reflexivity | ].
  destruct (is_under r p) eqn:E; cbn [negb flat_map fst]; [exact IH | ].
  rewrite IH, app_nil_r.
  destruct p as [ | c p]; [reflexivity | ].
  destruct (path_eqb (os_path_dirname (c :: p)) d) eqn:Ed; [ | reflexivity].
  exfalso. apply path_eqb_eq in Ed.
  assert (Hp : is_under d (c :: p) = true).
  { rewrite <- Ed. rewrite <- (join_split (c :: p)) at 2 by discriminate.
    apply is_under_app. }
  rewrite (is_under_trans _ _ _ Hd Hp) in E. discriminate.
Qed.

Lemma mkdir_listing (p d' : path) (w w' : world) (r : result unit) :
  os_mkdir p w = (w', r) -> os_path_dirname p <> d' ->
  entry_names (disk w') d' = entry_names (disk w) d'.
Proof.
  unfold os_mkdir. intros H Hd.
  destruct (stat (disk w) p) as [n | ]; [now injection H as <- _ | ].
  destruct (stat (disk w) (os_path_dirname p)) as [[data | ] | ];
    injection H as <- _; try reflexivity.
  cbn [commit disk]. apply entry_names_put_other. now left.
Qed.

Lemma create_folders_listing (main_dir d' : path) (l : list string)
      (w w' : world) (r : result unit) :
  create_folders_in_dir main_dir l w = (w', r) -> main_dir <> d' ->
  entry_names (disk w') d' = entry_names (disk w) d'.
Proof.
  intros H Hd. revert w H.
  induction l as [ | s l IH]; intros w; cbn [create_folders_in_dir].
  - now intros [= <- _].
  - unfold bind, try_except.
    destruct (os_mkdir (os_path_join main_dir s) w) as [w1 [[] | e]] eqn:E.
    + intros H. rewrite (IH _ H).
      eapply mkdir_listing; [exact E | now rewrite dirname_join].
    + assert (E1 : entry_names (disk w1) d' = entry_names (disk w) d').
      { eapply mkdir_listing; [exact E | now rewrite dirname_join]. }
      destruct (exn_eqb e FileExistsError).
      * unfold ret. intros H. now rewrite (IH _ H).
      * now intros [= <- _].
Qed.

Lemma set_up_listing_of (d' : path) (w w' : world) (r : result (path * path)) :
  set_up_folder_structure w = (w', r) ->
  (forall d : path, (List.length d <= 2)%nat ->
                    is_under ["split_samples"%string] d = true \/ d = [] -> d <> d') ->
  entry_names (disk w') d' = entry_names (disk w) d'.
Proof.
  intros H Hne'.
  assert (Hne : forall d : path,
             (List.length d <= 2)%nat /\
             (is_under ["split_samples"%string] d = true \/ d = []) -> d <> d').
  { intros d [Hd1 Hd2]. now apply Hne'. }
  clear Hne'. revert H. unfold set_up_folder_structure. cbv zeta. unfold bind.
  destruct (create_folders_in_dir [] _ w) as [w1 [[] | e]] eqn:E1.
  2: { intros [= <- _]. eapply create_folders_listing; [exact E1 | ].
       apply Hne. cbn. split; [lia | tauto]. }
  destruct (create_folders_in_dir _ _ w1) as [w2 [[] | e]] eqn:E2.
  2: { intros [= <- _]. etransitivity.
       - eapply create_folders_listing; [exact E2 | ]. apply Hne. cbn. split; [lia | tauto].
       - eapply create_folders_listing; [exact E1 | ]. apply Hne. cbn. split; [lia | tauto]. }
  assert (H12 : entry_names (disk w2) d' = entry_names (disk w) d').
  { etransitivity.
    - eapply create_folders_listing; [exact E2 | ]. apply Hne. cbn. split; [lia | tauto].
    - eapply create_folders_listing; [exact E1 | ]. apply Hne. cbn. split; [lia | tauto]. }
  rewrite for_each_cons.
  destruct (create_folders_in_dir _ _ w2) as [wa [[] | e]] eqn:Ea.
  2: { intros [= <- _]. rewrite <- H12.
       eapply create_folders_listing; [exact Ea | ]. apply Hne. cbn. split; [lia | tauto]. }
  rewrite for_each_cons.
  destruct (create_folders_in_dir _ _ wa) as [wb [[] | e]] eqn:Eb.
  2: { intros [= <- _]. rewrite <- H12. etransitivity.
       - eapply create_folders_listing; [exact Eb | ]. apply Hne. cbn. split; [lia | tauto].
       - eapply create_folders_listing; [exact Ea | ]. apply Hne. cbn. split; [lia | tauto]. }
  rewrite for_each_cons.
  destruct (create_folders_in_dir _ _ wb) as [wc [[] | e]] eqn:Ec;
    intros [= <- _]; rewrite <- H12; etransitivity;
      try (eapply create_folders_listing; [exact Ec | ]; apply Hne; cbn; (split; [lia | tauto]));
      (etransitivity;
       [eapply create_folders_listing; [exact Eb | ]; apply Hne; cbn; (split; [lia | tauto])
       | eapply create_folders_listing; [exact Ea | ]; apply Hne; cbn; (split; [lia | tauto])]).
Qed.

Lemma set_up_listing (d' : path) (w w' : world) (r : result (path * path)) :
  set_up_folder_structure w = (w', r) -> (3 <= List.length d')%nat ->
  entry_names (disk w') d' = entry_names (disk w) d'.
Proof.
  intros H Hlen. eapply set_up_listing_of; [exact H | ].
  intros d Hd _ ->. lia.
Qed.

Lemma reset_of_both (w : world) :
  stat (disk w) ["code"%string] = Some Dir ->
  stat (disk w) ["split_samples"%string] = Some Dir ->
  remove_split_folders w
  = (commit (commit w (prune (disk w) ["code"%string]) (Rmtree ["code"%string]))
            (prune (prune (disk w) ["code"%string]) ["split_samples"%string])
            (Rmtree ["split_samples"%string]),
     Ok tt).
Proof.
  intros Hc Hs. unfold remove_split_folders. cbn [delete_folders_in_dir].
  unfold shutil_rmtree at 1. cbn [os_path_join app]. rewrite Hc.
  unfold shutil_rmtree. cbn [commit disk stat] in *.
  rewrite lookup_prune_other by reflexivity. rewrite Hs. reflexivity.
Qed.

Lemma scaffold_below_roots (p : path) :
  In p scaffold_paths ->
  is_under ["code"%string] p = true \/ is_under ["split_samples"%string] p = true.
Proof.
  cbn [scaffold_paths In]. intros Hp.
  repeat (destruct Hp as [<- | Hp]); try contradiction; cbn; tauto.
Qed.

Lemma split_dir_in_scaffold (s c : string) :
  In s split_types -> In c class_types -> In (split_dir s c) scaffold_paths.
Proof.
  intros [<- | [<- | [<- | []]]] [<- | [<- | []]]; cbn; tauto.
Qed.

(** X8. When both [code] and [split_samples] are directories (the state a
    completed run leaves), the reset followed by the scaffold returns
    normally and leaves each of the six split folders as an empty
    directory, and [code] as an empty directory too: nothing of an earlier
    split is left to accumulate. Everything outside the two folders is as
    before. *)
Theorem reset_then_scaffold_gives_empty_folders (w : world) :
  stat (disk w) ["code"%string] = Some Dir ->
  stat (disk w) ["split_samples"%string] = Some Dir ->
  exists w1 w2,
    remove_split_folders w = (w1, Ok tt)
    /\ set_up_folder_structure w1 = (w2, Ok ([], ["split_samples"%string]))
    /\ (forall split_type class_type,
          In split_type split_types -> In class_type class_types ->
          lookup (disk w2) (split_dir split_type class_type) = Some Dir
          /\ listdir (disk w2) (split_dir split_type class_type) = [])
    /\ lookup (disk w2) ["code"%string] = Some Dir
    /\ listdir (disk w2) ["code"%string] = []
    /\ (forall p, outside output_roots p -> lookup (disk w2) p = lookup (disk w) p).
Proof.
  intros Hc Hs. rewrite (reset_of_both w Hc Hs).
  set (w1 := commit _ _ (Rmtree ["split_samples"%string])).
  assert (Hgone : forall p,
             is_under ["code"%string] p = true
             \/ is_under ["split_samples"%string] p = true ->
             lookup (disk w1) p = None).
  { intros p Hp. unfold w1. cbn [commit disk].
    destruct (is_under ["split_samples"%string] p) eqn:E.
    - now apply lookup_prune_under.
    - rewrite lookup_prune_other by exact E.
      destruct Hp as [Hp | Hp]; [now apply lookup_prune_under | discriminate]. }
  destruct (set_up_fresh w1) as (w2 & E2 & _ & Hdirs & Hframe).
  { intros p Hp. apply Hgone. now apply scaffold_below_roots. }
  exists w1, w2. split; [reflexivity | ]. split; [exact E2 | ].
  split; [ | split; [ | split]].
  - intros s c Hs' Hc'. split; [apply Hdirs; now apply split_dir_in_scaffold | ].
    unfold listdir. rewrite (set_up_listing _ _ _ _ E2) by reflexivity.
    unfold w1. cbn [commit disk].
    rewrite entry_names_prune_under by reflexivity. reflexivity.
  - apply Hdirs. now left.
  - unfold listdir.
    assert (Hnames : entry_names (disk w2) ["code"%string] = []).
    { destruct (entry_names (disk w2) ["code"%string]) as [ | a l] eqn:En;
        [reflexivity | exfalso].
      assert (Ha : In a (listdir (disk w2) ["code"%string])).
      { unfold listdir. rewrite nodup_In, En. now left. }
      apply listdir_present in Ha.
      rewrite Hframe in Ha.
      - apply Ha, Hgone. left. reflexivity.
      - cbn [scaffold_paths In]. intuition discriminate. }
    now rewrite Hnames.
  - intros p Hp. rewrite Hframe.
    + unfold w1. cbn [commit disk].
      rewrite !lookup_prune_other; [reflexivity | | ]; apply Hp; cbn; tauto.
    + intros Hin. apply scaffold_below_roots in Hin.
      destruct Hin as [Hin | Hin];
        [rewrite (Hp ["code"%string]) in Hin | rewrite (Hp ["split_samples"%string]) in Hin];
        try discriminate; cbn; tauto.
Qed.

Lemma reset_then_scaffold_gives_empty_folders_witness :
  exists w1 w2,
    remove_split_folders ready_world = (w1, Ok tt)
    /\ set_up_folder_structure w1 = (w2, Ok ([], ["split_samples"%string]))
    /\ listdir (disk w2) (split_dir "train" "benign") = []
    /\ lookup (disk w2) ["all_benign"; "b.png"]%string = Some (File "b").
Proof.
  destruct (reset_then_scaffold_gives_empty_folders ready_world)
    as (w1 & w2 & E1 & E2 & Hsplit & _ & _ & Hframe); try reflexivity.
  exists w1, w2. split; [exact E1 | ]. split; [exact E2 | ]. split.
  - apply Hsplit; cbn; tauto.
  - rewrite Hframe; [reflexivity | ].
    intros r [<- | [<- | []]]; reflexivity.
Defined.

(** ** Further properties: the reset helper *)

Lemma rmtree_shrinks (p q : path) (w w' : world) (r : result unit) :
  shutil_rmtree p w = (w', r) ->
  (lookup (disk w') q = lookup (disk w) q \/ lookup (disk w') q = None)
  /\ (is_under p q = false -> lookup (disk w') q = lookup (disk w) q).
Proof.
  unfold shutil_rmtree.
  destruct (stat (disk w) p) as [[data | ] | ]; intros [= <- _];
    try (split; [now left | reflexivity]).
  cbn [commit disk]. destruct (is_under p q) eqn:E.
  - split; [right; now apply lookup_prune_under | discriminate].
  - split; [left | intros _]; now apply lookup_prune_other.
Qed.

(** X9. However [delete_folders_in_dir] ends, it has created and altered
    nothing (every path holds what it held, or nothing), it has left
    untouched every path that is not at or below one of the listed folders,
    and the exception that ends it is never [FileNotFoundError]. *)
Theorem delete_folders_in_dir_outcome (main_dir : path) (l : list string)
        (w w' : world) (r : result unit) :
  delete_folders_in_dir main_dir l w = (w', r) ->
  (forall q, lookup (disk w') q = lookup (disk w) q \/ lookup (disk w') q = None)
  /\ (forall q, (forall s, In s l -> is_under (os_path_join main_dir s) q = false) ->
                lookup (disk w') q = lookup (disk w) q)
  /\ r <> Raise FileNotFoundError.
Proof.
  revert w. induction l as [ | s l IH]; intros w; cbn [delete_folders_in_dir].
  - intros [= <- <-]. repeat split; try (intros; now left); try reflexivity.
    discriminate.
  - destruct (shutil_rmtree (os_path_join main_dir s) w) as [w1 [[] | e]] eqn:E.
    + intros H. destruct (IH _ H) as (Hs1 & Hf1 & Hr). split; [ | split].
      * intros q. destruct (proj1 (rmtree_shrinks _ q _ _ _ E)) as [E1 | E1];
          destruct (Hs1 q) as [E2 | E2]; rewrite ?E2, ?E1; tauto.
      * intros q Hq. rewrite Hf1 by (intros s' Hs'; apply Hq; now right).
        apply (proj2 (rmtree_shrinks _ q _ _ _ E)). apply Hq. now left.
      * exact Hr.
    + assert (Hstep : forall q,
                 (lookup (disk w1) q = lookup (disk w) q \/ lookup (disk w1) q = None)
                 /\ (is_under (os_path_join main_dir s) q = false ->
                     lookup (disk w1) q = lookup (disk w) q)).
      { intros q. eapply rmtree_shrinks, E. }
      destruct e; intros [= <- <-];
        (split; [intros q; apply Hstep
                | split; [intros q Hq; apply Hstep, Hq; now left | discriminate]]).
Qed.

Lemma delete_folders_in_dir_outcome_witness :
  lookup (disk (fst (delete_folders_in_dir [] ["code"; "split_samples"]%string ready_world)))
         ["all_benign"; "a.png"]%string
  = Some (File "a").
Proof.
  rewrite (proj1 (proj2 (delete_folders_in_dir_outcome
                           [] ["code"; "split_samples"]%string ready_world
                           _ _ (surjective_pairing _)))).
  - reflexivity.
  - intros s [<- | [<- | []]]; reflexivity.
Defined.

(** X10. A regular file named [code] stops the reset with
    [NotADirectoryError] and an untouched disk; with settings that pass the
    assertion, the whole run ends there, before any folder is created. *)
Theorem reset_refuses_a_file (cfg : settings) (w : world) (data : string) :
  stat (disk w) ["code"%string] = Some (File data) ->
  remove_split_folders w = (w, Raise NotADirectoryError)
  /\ (check_settings cfg = true -> main cfg w = (w, Raise NotADirectoryError)).
Proof.
  intros H.
  assert (E : remove_split_folders w = (w, Raise NotADirectoryError)).
  { unfold remove_split_folders. cbn [delete_folders_in_dir].
    unfold shutil_rmtree. cbn [os_path_join app]. now rewrite H. }
  split; [exact E | ].
  intros Hcheck. unfold main, bind, py_assert. rewrite Hcheck. unfold ret.
  now rewrite E.
Qed.

Lemma reset_refuses_a_file_witness :
  main shipped_settings
       (mkWorld [(["code"%string], File "notes")] Posix (fun _ => O) O [])
  = (mkWorld [(["code"%string], File "notes")] Posix (fun _ => O) O [],
     Raise NotADirectoryError).
Proof.
  apply (proj2 (reset_refuses_a_file shipped_settings
                  (mkWorld [(["code"%string], File "notes")] Posix (fun _ => O) O [])
                  "notes" eq_refl)).
  vm_compute. reflexivity.
Defined.

(** ** Further properties: the rename stage *)

Lemma preserves_rename (roots : list path) (allowed : event -> Prop) (r src dst : path) :
  In r roots -> is_under r src = true -> is_under r dst = true ->
  allowed (Rename src dst) ->
  preserves (confined roots allowed) (os_rename src dst).
Proof.
  intros Hr Hsrc Hdst Hev w w' res. unfold os_rename.
  assert (Hmove : forall fs p, outside roots p ->
                               lookup (move fs src dst) p = lookup fs p).
  { intros fs p Hp. apply lookup_move_other;
      (eapply not_under_above; [eassumption | now apply Hp]). }
  assert (Hprune : forall p, outside roots p ->
                             lookup (prune (disk w) dst) p = lookup (disk w) p).
  { intros p Hp. apply lookup_prune_other.
    eapply not_under_above; [exact Hdst | now apply Hp]. }
  repeat match goal with
         | |- context [match ?x with _ => _ end] => destruct x
         end;
    intros [= <- _]; try apply confined_refl;
    apply confined_commit; try assumption;
    intros p Hp; rewrite Hmove by assumption; try reflexivity; now apply Hprune.
Qed.

Lemma try_except_catches {A : Type} (c : M A) (e : exn) (a : A)
      (w w' : world) (r : result A) :
  try_except c e (ret a) w = (w', r) -> r <> Raise e.
Proof.
  unfold try_except. destruct (c w) as [w1 [x | e']].
  - intros [= _ <-]. discriminate.
  - destruct (exn_eqb e' e) eqn:Ee.
    + intros [= _ <-]. discriminate.
    + intros [= _ <-] [= ->]. destruct e; discriminate Ee.
Qed.

Lemma class_dir_is_root (class_type : string) :
  In class_type class_types -> In (class_dir class_type) class_roots.
Proof. intros [<- | [<- | []]]; cbn; tauto. Qed.

Lemma rename_data_class_confined (cfg : settings) (class_type : string) :
  In class_type class_types ->
  preserves (confined class_roots (numbering cfg))
            (rename_data_class cfg main_paths class_type).
Proof.
  intros Hc.
  pose proof (confined_refl class_roots (numbering cfg)) as Rr.
  pose proof (confined_trans class_roots (numbering cfg)) as Rt.
  unfold rename_data_class. rewrite (main_paths_class class_type Hc).
  apply preserves_bind_lift; try assumption. intros dir [= <-].
  apply preserves_bind_value
    with (P := fun names : list path =>
                 forall s, In s names -> exists a, s = os_path_join (class_dir class_type) a);
    try assumption.
  { now apply preserves_glob. }
  { intros w w' names [= _ <-] s Hs. eapply glob_list_children, Hs. }
  intros names Hnames.
  apply preserves_try_except; try assumption; [ | now apply preserves_ret].
  apply preserves_for_each; try assumption. intros i _.
  apply preserves_bind_lift; try assumption. intros dir' [= <-]. cbv zeta.
  apply preserves_bind_lift; try assumption. intros old Hold.
  apply py_index_in in Hold. destruct (Hnames old Hold) as [a ->].
  apply preserves_rename with (r := class_dir class_type).
  - now apply class_dir_is_root.
  - apply is_under_app.
  - apply is_under_app.
  - now exists class_type, a, i.
Qed.

(** X11. However the rename stage ends, nothing outside the two class
    folders has changed, the platform is the same, and the journal has
    grown only by renames of an entry of a class folder to a numbered name
    [i.<ext>] in the same folder. [FileExistsError] never leaves the
    stage. *)
Theorem rename_data_outcome (cfg : settings) (w w' : world) (r : result unit) :
  rename_data cfg main_paths w = (w', r) ->
  (forall p, outside class_roots p -> lookup (disk w') p = lookup (disk w) p)
  /\ (exists evs, journal w' = journal w ++ evs /\ Forall (numbering cfg) evs)
  /\ r <> Raise FileExistsError.
Proof.
  intros H.
  assert (Hconf : confined class_roots (numbering cfg) w w').
  { revert H. apply preserves_for_each;
      [apply confined_refl | apply confined_trans | ].
    intros c Hc. now apply rename_data_class_confined. }
  destruct Hconf as (Hframe & _ & Hj).
  split; [exact Hframe | ]. split; [exact Hj | ].
  destruct r as [[] | e]; [discriminate | ].
  intros [= ->]. revert H. unfold rename_data.
  intros H.
  refine (for_each_raises (fun e => e <> FileExistsError) _ _ _ _ _ _ H eq_refl).
  intros c wa wb e Hc Hrun ->. revert Hrun.
  unfold rename_data_class. rewrite (main_paths_class c Hc).
  unfold bind, lift, glob_glob.
  intros Hrun. now apply try_except_catches in Hrun.
Qed.

Lemma rename_data_outcome_witness :
  lookup (disk (fst (rename_data shipped_settings main_paths ready_world)))
         (split_dir "train" "benign")
  = Some Dir.
Proof.
  rewrite (proj1 (rename_data_outcome shipped_settings ready_world _ _
                    (surjective_pairing _))).
  - reflexivity.
  - intros r [<- | [<- | []]]; reflexivity.
Defined.

Lemma for_each_noop {A : Type} (l : list A) (body : A -> M unit) (w : world) :
  (forall x, In x l -> body x w = (w, Ok tt)) -> for_each l body w = (w, Ok tt).
Proof.
  induction l as [ | x l IH]; intros H; [reflexivity | ].
  rewrite for_each_cons, (H x (or_introl eq_refl)).
  apply IH. intros y Hy. apply H. now right.
Qed.

Lemma os_rename_same (p : path) (w : world) :
  p <> [] -> lookup (disk w) p <> None ->
  os_rename p p w
  = match os_name w with
    | Posix => (w, Ok tt)
    | Windows => (w, Raise FileExistsError)
    end.
Proof.
  intros Hp Hl. unfold os_rename. rewrite (stat_nonempty _ _ Hp).
  destruct (lookup (disk w) p) as [n | ]; [ | congruence].
  rewrite path_eqb_refl, andb_false_r. now destruct (os_name w).
Qed.

Lemma sample_present (cfg : settings) (fs : filesystem) (class_type : string) (src : path) :
  In src (samples_of cfg fs class_type) -> src <> [] /\ lookup fs src <> None.
Proof.
  unfold samples_of, glob_list.
  destruct (stat fs (class_dir class_type)) as [[data | ] | ]; try contradiction.
  rewrite in_map_iff. intros (a & <- & Ha). split; [apply join_not_nil | ].
  apply listdir_present. now apply filter_In in Ha.
Qed.

Lemma rename_numbered_class (cfg : settings) (class_type : string) (w : world) :
  In class_type class_types ->
  numbered_in_order cfg class_type (disk w) ->
  rename_data_class cfg main_paths class_type w = (w, Ok tt).
Proof.
  intros Hc Hnum. rewrite (rename_data_class_unfold cfg class_type w Hc).
  set (names := samples_of cfg (disk w) class_type) in *.
  assert (Hbody : forall i, In i (py_range 0 (len names)) ->
             (old_name <- lift (py_index names i) ;;
              os_rename old_name (rename_target cfg class_type i)) w
             = match os_name w with
               | Posix => (w, Ok tt)
               | Windows => (w, Raise FileExistsError)
               end).
  { intros i Hi. apply in_py_range in Hi.
    destruct (py_index_ok names i Hi) as (src & Ei & En).
    rewrite Ei, bind_lift_ok.
    pose proof (Hnum _ _ En) as Hsrc. rewrite Z2Nat.id in Hsrc by lia.
    rewrite <- Hsrc.
    apply os_rename_same; apply (sample_present cfg (disk w) class_type);
      eapply nth_error_In, En. }
  unfold try_except. destruct (os_name w) eqn:Eos.
  - rewrite for_each_noop; [reflexivity | exact Hbody].
  - destruct (py_range 0 (len names)) as [ | i rest] eqn:Er; [reflexivity | ].
    rewrite for_each_cons, (Hbody i (or_introl eq_refl)). reflexivity.
Qed.

(** X12. On POSIX, class folders whose listed samples already are
    [0.<ext>], [1.<ext>], ... in listing order are left exactly as they
    are by the rename stage, which returns normally: each file is renamed
    onto itself, which does nothing. *)
Theorem rename_data_on_numbered_folders (cfg : settings) (w : world) :
  os_name w = Posix ->
  (forall class_type, In class_type class_types ->
                      numbered_in_order cfg class_type (disk w)) ->
  rename_data cfg main_paths w = (w, Ok tt).
Proof.
  intros _ H. unfold rename_data. apply for_each_noop.
  intros c Hc. apply rename_numbered_class; [exact Hc | now apply H].
Qed.

Lemma rename_data_on_numbered_folders_witness :
  rename_data shipped_settings main_paths (renumbered_world Posix)
  = (renumbered_world Posix, Ok tt).
Proof.
  apply rename_data_on_numbered_folders; [reflexivity | ].
  intros c [<- | [<- | []]] i src Hi;
    destruct i as [ | [ | [ | i]]]; vm_compute in Hi; try discriminate Hi;
    injection Hi as <-; reflexivity.
Defined.

(** ** Further properties: the augmented stage *)

Lemma glob_list_not_dir (fs : filesystem) (dir : path) (pat : string) :
  stat fs dir <> Some Dir -> glob_list fs dir pat = [].
Proof.
  intros H. unfold glob_list. destruct (stat fs dir) as [[data | ] | ]; congruence.
Qed.

Lemma copy_augmented_class_none (cfg : settings) (class_type : string) (w : world) :
  In class_type class_types ->
  glob_list (disk w) (augmented_dir class_type) (data_pattern cfg) = [] ->
  copy_augmented_class cfg main_paths class_type w = (w, Ok tt).
Proof.
  intros Hc Hnone. unfold copy_augmented_class.
  rewrite (main_paths_class class_type Hc).
  cbv [bind lift glob_glob].
  change (os_path_join (class_dir class_type) "augmented")
    with (augmented_dir class_type).
  rewrite Hnone. reflexivity.
Qed.

Lemma copy_augmented_none (cfg : settings) (w : world) :
  (forall class_type, In class_type class_types ->
                      stat (disk w) (augmented_dir class_type) <> Some Dir) ->
  copy_augmented_data_to_train cfg main_paths w = (w, Ok tt).
Proof.
  intros H. unfold copy_augmented_data_to_train. apply for_each_noop.
  intros c Hc. apply copy_augmented_class_none; [exact Hc | ].
  apply glob_list_not_dir. now apply H.
Qed.

(** X13. When neither class folder has an [augmented] directory, the
    augmented stage copies nothing, raises nothing and leaves the world
    exactly as it was: globbing a missing folder gives an empty list. *)
Theorem augmented_stage_without_folders (cfg : settings) (w : world) :
  (forall class_type, In class_type class_types ->
                      stat (disk w) (augmented_dir class_type) <> Some Dir) ->
  copy_augmented_data_to_train cfg main_paths w = (w, Ok tt).
Proof. exact (copy_augmented_none cfg w). Qed.

Lemma augmented_stage_without_folders_witness :
  copy_augmented_data_to_train shipped_settings main_paths first_run_world
  = (first_run_world, Ok tt).
Proof.
  apply augmented_stage_without_folders.
  intros c [<- | [<- | []]]; discriminate.
Defined.

Lemma copy_augmented_class_into_train (cfg : settings) (class_type : string) :
  In class_type class_types ->
  preserves (confined [["split_samples"; "train"]%string] augmented_transfer)
            (copy_augmented_class cfg main_paths class_type).
Proof.
  intros Hc.
  pose proof (confined_refl [["split_samples"; "train"]%string] augmented_transfer) as Rr.
  pose proof (confined_trans [["split_samples"; "train"]%string] augmented_transfer) as Rt.
  unfold copy_augmented_class. rewrite (main_paths_class class_type Hc).
  apply preserves_bind_lift; try assumption. intros dir [= <-].
  apply preserves_bind_value
    with (P := fun names : list path =>
                 forall s, In s names ->
                           exists a, s = os_path_join (augmented_dir class_type) a);
    try assumption.
  { now apply preserves_glob. }
  { intros w w' names [= _ <-] s Hs. eapply glob_list_children, Hs. }
  intros names Hnames.
  change (dict_get main_paths "train")
    with (Ok (os_path_join (os_path_join [] "split_samples") "train")).
  apply preserves_bind_lift; try assumption. intros sd [= <-].
  apply preserves_for_each; try assumption. intros i _.
  apply preserves_bind_lift; try assumption. intros src Hsrc.
  apply py_index_in in Hsrc. destruct (Hnames src Hsrc) as [a ->].
  apply preserves_copy with (r := ["split_samples"; "train"]%string).
  - now left.
  - reflexivity.
  - exists class_type, a. split; [exact Hc | now right].
  - exists class_type, a. split; [exact Hc | left].
    now rewrite basename_join.
Qed.

(** X14. However the augmented stage ends, nothing outside
    [split_samples/train] has changed (the augmented files and the class
    folders are as before, the test and validation folders too), and the
    journal has grown only by copies of entries of an [augmented] folder
    into the train folder of the same class, under their own names. *)
Theorem augmented_stage_only_copies_into_train (cfg : settings) (w w' : world)
        (r : result unit) :
  copy_augmented_data_to_train cfg main_paths w = (w', r) ->
  (forall p, is_under ["split_samples"; "train"]%string p = false ->
             lookup (disk w') p = lookup (disk w) p)
  /\ exists evs, journal w' = journal w ++ evs /\ Forall augmented_transfer evs.
Proof.
  intros H.
  assert (Hconf : confined [["split_samples"; "train"]%string] augmented_transfer w w').
  { revert H. apply preserves_for_each;
      [apply confined_refl | apply confined_trans | ].
    intros c Hc. now apply copy_augmented_class_into_train. }
  destruct Hconf as (Hframe & _ & Hj). split; [ | exact Hj].
  intros p Hp. apply Hframe. intros q [<- | []]. exact Hp.
Qed.

Lemma augmented_stage_only_copies_into_train_witness :
  lookup (disk (fst (copy_augmented_data_to_train shipped_settings main_paths ready_world)))
         ["all_benign"; "augmented"; "a.png"]%string
  = Some (File "a-augmented").
Proof.
  rewrite (proj1 (augmented_stage_only_copies_into_train shipped_settings ready_world
                    _ _ (surjective_pairing _))); reflexivity.
Defined.

(** ** Further properties: the manifest stage *)

Lemma generate_csv_files_manifests (cfg : settings) :
  preserves (confined [["code"%string]] manifest_write)
            (generate_csv_files cfg main_paths).
Proof.
  pose proof (confined_refl [["code"%string]] manifest_write) as Rr.
  pose proof (confined_trans [["code"%string]] manifest_write) as Rt.
  apply preserves_for_each; try assumption. intros split_type Hs.
  apply preserves_for_each; try assumption. intros class_type Hc.
  unfold generate_csv_file.
  apply preserves_bind_lift; try assumption. intros sd _.
  apply preserves_bind; try assumption; [now apply preserves_glob | intros names].
  change (dict_get main_paths "code") with (Ok (os_path_join [] "code")).
  apply preserves_bind_lift; try assumption. intros cd [= <-].
  apply preserves_write_file with (r := ["code"%string]).
  - now left.
  - reflexivity.
  - now exists split_type, class_type.
Qed.

(** X15. However the manifest stage ends, nothing outside [code] has
    changed (no sample, no split folder), and the journal has grown only
    by writes of manifests [code/<class>_<split>.csv]. *)
Theorem manifest_stage_writes_only_manifests (cfg : settings) (w w' : world)
        (r : result unit) :
  generate_csv_files cfg main_paths w = (w', r) ->
  (forall p, is_under ["code"%string] p = false ->
             lookup (disk w') p = lookup (disk w) p)
  /\ exists evs, journal w' = journal w ++ evs /\ Forall manifest_write evs.
Proof.
  intros H.
  destruct (generate_csv_files_manifests cfg w w' r H) as (Hframe & _ & Hj).
  split; [ | exact Hj].
  intros p Hp. apply Hframe. intros q [<- | []]. exact Hp.
Qed.

Lemma manifest_stage_writes_only_manifests_witness :
  lookup (disk (fst (generate_csv_files shipped_settings main_paths ready_world)))
         ["all_benign"; "a.png"]%string
  = Some (File "a").
Proof.
  rewrite (proj1 (manifest_stage_writes_only_manifests shipped_settings ready_world
                    _ _ (surjective_pairing _))); reflexivity.
Defined.

(** X16. Without a [code] folder (nothing at or below that path), the
    manifest stage ends at the first manifest with [FileNotFoundError] and
    has written nothing. *)
Theorem manifest_stage_needs_code_folder (cfg : settings) (w : world) :
  (forall p, is_under ["code"%string] p = true -> lookup (disk w) p = None) ->
  generate_csv_files cfg main_paths w = (w, Raise FileNotFoundError).
Proof.
  intros Hnone. unfold generate_csv_files, split_types, class_types.
  rewrite for_each_cons. rewrite for_each_cons.
  assert (E : generate_csv_file cfg main_paths "train" "benign" w
              = (w, Raise FileNotFoundError)).
  { unfold generate_csv_file.
    rewrite (main_paths_split "train") by (now left).
    change (dict_get main_paths "code") with (Ok (os_path_join [] "code")).
    cbv [bind lift glob_glob]. unfold write_file.
    rewrite stat_join, dirname_join.
    rewrite (Hnone (os_path_join (os_path_join [] "code") _)) by reflexivity.
    cbn [stat os_path_join app]. rewrite (Hnone ["code"%string]) by reflexivity.
    reflexivity. }
  now rewrite E.
Qed.

Lemma manifest_stage_needs_code_folder_witness :
  generate_csv_files shipped_settings main_paths first_run_world
  = (first_run_world, Raise FileNotFoundError).
Proof.
  apply manifest_stage_needs_code_folder.
  intros p Hp. destruct p as [ | c p]; [discriminate | ].
  cbn [is_under] in Hp. apply andb_prop in Hp. destruct Hp as [Hc _].
  apply String.eqb_eq in Hc. subst c.
  cbn. reflexivity.
Defined.

(** ** Further properties: counts and readiness *)

(** X17. Whatever [VALIDATION] is: whenever [TRAIN] and [TEST] are
    finite, non-negative floats whose exact sum is at most one (as 0.7 and
    0.2 are) and the class has fewer than [2^53] samples, the three counts
    are defined and non-negative, and train and test together take at most
    all samples. *)
Theorem counts_defined_for_usable_ratios (cfg : settings) (n : Z) :
  usable_ratios cfg -> 0 <= n < 2 ^ 53 ->
  exists num,
    compute_num cfg n = Ok num
    /\ 0 <= at_train num /\ 0 <= at_test num /\ 0 <= at_validation num
    /\ at_train num + at_test num <= n.
Proof.
  intros Hu Hn.
  destruct (compute_num_defined cfg n Hu Hn) as (a & b & E & Ha & Hb & Hab).
  eexists. split; [exact E | ]. cbn [at_train at_test at_validation].
  repeat split; lia.
Qed.

Lemma counts_defined_for_usable_ratios_witness :
  exists num,
    compute_num shipped_settings 1000 = Ok num
    /\ 0 <= at_train num /\ 0 <= at_test num /\ 0 <= at_validation num
    /\ at_train num + at_test num <= 1000.
Proof.
  apply counts_defined_for_usable_ratios.
  - repeat split; try reflexivity; vm_compute; discriminate.
  - lia.
Defined.

(** X18. Started on a disk where none of the six split folders is a plain
    file, the stages of the main block that come before the copies
    (assertion, reset, scaffold and, if enabled, renaming), once they have
    completed, leave all six split folders as directories, whichever of
    [code] and [split_samples] existed before. *)
Theorem split_folders_ready_before_copies (cfg : settings) (w w0 : world) :
  tidy (disk w) ->
  before_copies cfg w = (w0, Ok tt) ->
  forall split_type class_type,
    In split_type split_types -> In class_type class_types ->
    stat (disk w0) (split_dir split_type class_type) = Some Dir.
Proof.
  intros Ht H s c Hs Hc. apply ready_stat; try assumption.
  eapply before_copies_ready; eassumption.
Qed.

Lemma split_folders_ready_before_copies_witness :
  stat (disk (fst (before_copies shipped_settings stale_world)))
       (split_dir "validation" "malign")
  = Some Dir.
Proof.
  apply (split_folders_ready_before_copies shipped_settings stale_world).
  - intros s c [<- | [<- | [<- | []]]] [<- | [<- | []]];
      first [left; reflexivity | right; reflexivity].
  - vm_compute. reflexivity.
  - cbn; tauto.
  - cbn; tauto.
Defined.

(** ** Further properties: the split stage and a first run *)

Lemma same_listing_refl (d : path) (w : world) : same_listing d w w.
Proof. reflexivity. Qed.

Lemma same_listing_trans (d : path) (w1 w2 w3 : world) :
  same_listing d w1 w2 -> same_listing d w2 w3 -> same_listing d w1 w3.
Proof. unfold same_listing. congruence. Qed.

Lemma write_file_listing (p d : path) (data : string) (ev : event) :
  os_path_dirname p <> d -> preserves (same_listing d) (write_file p data ev).
Proof.
  intros Hd w w' r. unfold write_file, same_listing.
  destruct (stat (disk w) p) as [[ | ] | ];
    destruct (stat (disk w) (os_path_dirname p)) as [[ | ] | ];
    intros [= <- _]; try reflexivity;
    cbn [commit disk]; apply entry_names_put_other; now left.
Qed.

Lemma copy_listing (src dst d : path) :
  dst <> d -> os_path_dirname dst <> d ->
  preserves (same_listing d) (shutil_copy src dst).
Proof.
  intros H1 H2 w w' r. unfold shutil_copy.
  set (target := match stat (disk w) dst with
                 | Some Dir => os_path_join dst (os_path_basename src)
                 | _ => dst end).
  assert (Ht : os_path_dirname target <> d).
  { subst target. destruct (stat (disk w) dst) as [[ | ] | ]; try assumption.
    now rewrite dirname_join. }
  destruct (stat (disk w) src) as [[data | ] | ].
  - destruct (path_eqb src target).
    + intros [= <- _]. reflexivity.
    + now apply write_file_listing.
  - destruct (path_eqb src target); intros [= <- _]; reflexivity.
  - intros [= <- _]. reflexivity.
Qed.

Lemma shuffle_listing {A : Type} (d : path) (x : list A) :
  preserves (same_listing d) (random_shuffle x).
Proof.
  intros w w' r H.
  destruct (random_shuffle_spec x w) as (w1 & x1 & E & _ & HD & _).
  rewrite E in H. injection H as <- _. unfold same_listing. now rewrite HD.
Qed.

Lemma below_splits_differs (p d : path) :
  is_under ["split_samples"%string] p = true ->
  is_under ["split_samples"%string] d = false -> p <> d.
Proof. intros Hp Hd ->. congruence. Qed.

Lemma split_data_class_listing (cfg : settings) (class_type : string) (d : path) :
  In class_type class_types ->
  is_under ["split_samples"%string] d = false ->
  preserves (same_listing d) (split_data_class cfg main_paths class_type).
Proof.
  intros Hc Hd.
  pose proof (same_listing_refl d) as Rr. pose proof (same_listing_trans d) as Rt.
  unfold split_data_class.
  apply preserves_bind_lift; try assumption. intros dir _.
  apply preserves_bind; try assumption; [now apply preserves_glob | intros names].
  apply preserves_bind_lift; try assumption. intros num _.
  apply preserves_bind; try assumption; [apply shuffle_listing | intros shuffled].
  apply preserves_for_each; try assumption. intros split_type Hs.
  rewrite (main_paths_split split_type Hs).
  apply preserves_bind_lift; try assumption. intros sd [= <-].
  apply preserves_bind_lift; try assumption. intros si _.
  apply preserves_bind_lift; try assumption. intros n _.
  apply preserves_for_each; try assumption. intros i _.
  apply preserves_bind_lift; try assumption. intros src _.
  apply copy_listing.
  - apply below_splits_differs; [reflexivity | exact Hd].
  - rewrite dirname_join. apply below_splits_differs; [reflexivity | exact Hd].
Qed.

Lemma class_dir_not_below_splits (class_type : string) :
  In class_type class_types ->
  is_under ["split_samples"%string] (class_dir class_type) = false.
Proof. intros [<- | [<- | []]]; reflexivity. Qed.

(** X19. However the split stage ends, the listing of every folder that
    is not below [split_samples] is what it was, in the same order; in
    particular each class folder lists the same samples in the same glob
    order as before. *)
Theorem split_stage_keeps_listings (cfg : settings) (w w' : world) (r : result unit) :
  split_data cfg main_paths w = (w', r) ->
  (forall d, is_under ["split_samples"%string] d = false ->
             listdir (disk w') d = listdir (disk w) d)
  /\ (forall class_type, In class_type class_types ->
        samples_of cfg (disk w') class_type = samples_of cfg (disk w) class_type).
Proof.
  intros H.
  assert (Hlist : forall d, is_under ["split_samples"%string] d = false ->
                            same_listing d w w').
  { intros d Hd. revert H. apply preserves_for_each;
      [apply same_listing_refl | apply same_listing_trans | ].
    intros c Hc. now apply split_data_class_listing. }
  split.
  - intros d Hd. unfold listdir. now rewrite (Hlist d Hd).
  - intros c Hc. apply samples_of_frame.
    + destruct (split_data_confined cfg w w' r H) as (Hframe & _).
      apply Hframe. intros q [<- | []]. now apply class_dir_not_below_splits.
    + apply Hlist. now apply class_dir_not_below_splits.
Qed.

Lemma split_stage_keeps_listings_witness :
  samples_of shipped_settings
    (disk (fst (split_data shipped_settings main_paths ready_world))) "benign"
  = [["all_benign"; "a.png"]; ["all_benign"; "b.png"]; ["all_benign"; "c.png"]]%string.
Proof.
  rewrite (proj2 (split_stage_keeps_listings shipped_settings ready_world _ _
                    (surjective_pairing _)) "benign"%string (or_introl eq_refl)).
  reflexivity.
Defined.











(** ** Further properties: the order of the stages *)

Lemma records_refl (allowed : event -> Prop) (w : world) : records allowed w w.
Proof. exists []. split; [now rewrite app_nil_r | constructor]. Qed.

Lemma records_trans (allowed : event -> Prop) (w1 w2 w3 : world) :
  records allowed w1 w2 -> records allowed w2 w3 -> records allowed w1 w3.
Proof.
  intros (e1 & J1 & F1) (e2 & J2 & F2). exists (e1 ++ e2). split.
  - now rewrite J2, J1, <- app_assoc.
  - apply Forall_app. now split.
Qed.

Lemma records_commit (allowed : event -> Prop) (w : world) (fs : filesystem) (ev : event) :
  allowed ev -> records allowed w (commit w fs ev).
Proof. intros H. exists [ev]. split; [reflexivity | now constructor]. Qed.

Lemma records_of_confined (roots : list path) (allowed : event -> Prop) (w w' : world) :
  confined roots allowed w w' -> records allowed w w'.
Proof. now intros (_ & _ & H). Qed.

Lemma rmtree_records (allowed : event -> Prop) (p : path) :
  allowed (Rmtree p) -> preserves (records allowed) (shutil_rmtree p).
Proof.
  intros H w w' r. unfold shutil_rmtree.
  destruct (stat (disk w) p) as [[data | ] | ]; intros [= <- _];
    try apply records_refl.
  now apply records_commit.
Qed.

Lemma mkdir_records (allowed : event -> Prop) (p : path) :
  allowed (Mkdir p) -> preserves (records allowed) (os_mkdir p).
Proof.
  intros H w w' r. unfold os_mkdir.
  destruct (stat (disk w) p) as [n | ]; [intros [= <- _]; apply records_refl | ].
  destruct (stat (disk w) (os_path_dirname p)) as [[data | ] | ]; intros [= <- _];
    try apply records_refl.
  now apply records_commit.
Qed.

Lemma remove_split_folders_records : preserves (records reset_event) remove_split_folders.
Proof.
  intros w w' r. unfold remove_split_folders. cbn [delete_folders_in_dir].
  destruct (shutil_rmtree (os_path_join [] "code") w) as [w1 [[] | e]] eqn:E1.
  - destruct (shutil_rmtree (os_path_join [] "split_samples") w1)
      as [w2 [[] | e]] eqn:E2.
    + intros [= <- _]. eapply records_trans.
      * eapply rmtree_records; [ | exact E1]. now left.
      * eapply rmtree_records; [ | exact E2]. now right.
    + assert (H2 : records reset_event w w2).
      { eapply records_trans.
        - eapply rmtree_records; [ | exact E1]. now left.
        - eapply rmtree_records; [ | exact E2]. now right. }
      destruct e; intros [= <- _]; exact H2.
  - assert (H1 : records reset_event w w1).
    { eapply rmtree_records; [ | exact E1]. now left. }
    destruct e; intros [= <- _]; exact H1.
Qed.

Lemma create_folders_records (allowed : event -> Prop) (main_dir : path) (l : list string) :
  (forall s, In s l -> allowed (Mkdir (os_path_join main_dir s))) ->
  preserves (records allowed) (create_folders_in_dir main_dir l).
Proof.
  pose proof (records_refl allowed) as Rr. pose proof (records_trans allowed) as Rt.
  induction l as [ | s l IH]; intros Hl; cbn [create_folders_in_dir].
  - now apply preserves_ret.
  - apply preserves_bind; try assumption.
    + apply preserves_try_except; try assumption; [ | now apply preserves_ret].
      apply mkdir_records. apply Hl. now left.
    + intros _. apply IH. intros s' Hs'. apply Hl. now right.
Qed.

Lemma set_up_records : preserves (records scaffold_event) set_up_folder_structure.
Proof.
  pose proof (records_refl scaffold_event) as Rr.
  pose proof (records_trans scaffold_event) as Rt.
  unfold set_up_folder_structure. cbv zeta.
  apply preserves_bind; try assumption.
  { apply create_folders_records. intros s Hs. eexists. split; [ | reflexivity].
    destruct Hs as [<- | [<- | []]]; cbn; tauto. }
  intros _. apply preserves_bind; try assumption.
  { apply create_folders_records. intros s Hs. eexists. split; [ | reflexivity].
    destruct Hs as [<- | [<- | [<- | []]]]; cbn; tauto. }
  intros _. apply preserves_bind; try assumption; [ | intros _; now apply preserves_ret].
  apply preserves_for_each; try assumption. intros s Hs.
  apply create_folders_records. intros c Hc. eexists. split; [ | reflexivity].
  destruct Hs as [<- | [<- | [<- | []]]]; destruct Hc as [<- | [<- | []]]; cbn; tauto.
Qed.

Lemma rename_data_records (cfg : settings) :
  preserves (records (numbering cfg)) (rename_data cfg main_paths).
Proof.
  intros w w' r H. apply (records_of_confined class_roots).
  revert H. apply preserves_for_each; [apply confined_refl | apply confined_trans | ].
  intros c Hc. now apply rename_data_class_confined.
Qed.

Lemma copy_augmented_records (cfg : settings) :
  preserves (records augmented_transfer) (copy_augmented_data_to_train cfg main_paths).
Proof.
  intros w w' r H. apply (records_of_confined [["split_samples"; "train"]%string]).
  revert H. apply preserves_for_each; [apply confined_refl | apply confined_trans | ].
  intros c Hc. now apply copy_augmented_class_into_train.
Qed.

(** X21. The journal of a completed run is made of six consecutive
    parts, in this order: removals of [code] and [split_samples]; creations
    of folders of the output tree; renames of class-folder entries to
    numbered names (none unless [RENAME_DATA]); copies from [augmented]
    folders into train (none unless [INCLUDE_AUGMENTED_DATA_IN_TRAIN]);
    copies of samples into split folders; writes of manifests. *)
Theorem completed_run_in_stage_order (cfg : settings) (w w' : world) :
  main cfg w = (w', Ok tt) ->
  exists reset scaffold renames augmented copies manifests,
    journal w' = journal w ++ reset ++ scaffold ++ renames ++ augmented
                 ++ copies ++ manifests
    /\ Forall reset_event reset
    /\ Forall scaffold_event scaffold
    /\ Forall (numbering cfg) renames
    /\ (RENAME_DATA cfg = false -> renames = [])
    /\ Forall augmented_transfer augmented
    /\ (INCLUDE_AUGMENTED_DATA_IN_TRAIN cfg = false -> augmented = [])
    /\ Forall split_copy copies
    /\ Forall manifest_write manifests.
Proof.
  unfold main. intros H.
  apply bind_ok_inv in H. destruct H as (wa & [] & Ha & H).
  apply bind_ok_inv in H. destruct H as (wb & [] & Hb & H).
  apply bind_ok_inv in H. destruct H as (wc & dirs & Hc & H).
  pose proof (set_up_folder_structure_value _ _ _ Hc) as ->.
  cbn [fst snd] in H. fold main_paths in H.
  apply bind_ok_inv in H. destruct H as (wd & [] & Hd & H).
  apply bind_ok_inv in H. destruct H as (we & [] & He & H).
  apply bind_ok_inv in H. destruct H as (wf & [] & Hf & Hg).
  assert (wa = w) as ->.
  { unfold py_assert in Ha. destruct (check_settings cfg); now injection Ha. }
  destruct (remove_split_folders_records _ _ _ Hb) as (reset & J1 & F1).
  destruct (set_up_records _ _ _ Hc) as (scaffold & J2 & F2).
  assert (H3 : exists renames,
             journal wd = journal wc ++ renames /\ Forall (numbering cfg) renames
             /\ (RENAME_DATA cfg = false -> renames = [])).
  { destruct (RENAME_DATA cfg).
    - destruct (rename_data_records cfg _ _ _ Hd) as (evs & J & F).
      exists evs. repeat split; try assumption. discriminate.
    - injection Hd as <-. exists []. rewrite app_nil_r.
      repeat split; constructor. }
  destruct H3 as (renames & J3 & F3 & N3).
  assert (H4 : exists augmented,
             journal we = journal wd ++ augmented
             /\ Forall augmented_transfer augmented
             /\ (INCLUDE_AUGMENTED_DATA_IN_TRAIN cfg = false -> augmented = [])).
  { destruct (INCLUDE_AUGMENTED_DATA_IN_TRAIN cfg).
    - destruct (copy_augmented_records cfg _ _ _ He) as (evs & J & F).
      exists evs. repeat split; try assumption. discriminate.
    - injection He as <-. exists []. rewrite app_nil_r.
      repeat split; constructor. }
  destruct H4 as (augmented & J4 & F4 & N4).
  destruct (records_of_confined _ _ _ _ (split_data_confined cfg _ _ _ Hf))
    as (copies & J5 & F5).
  destruct (records_of_confined _ _ _ _ (generate_csv_files_manifests cfg _ _ _ Hg))
    as (manifests & J6 & F6).
  exists reset, scaffold, renames, augmented, copies, manifests.
  split; [ | repeat split; assumption].
  rewrite J6, J5, J4, J3, J2, J1. now rewrite <- !app_assoc.
Qed.

Lemma completed_run_in_stage_order_witness :
  exists reset scaffold augmented copies manifests,
    journal (fst (main shipped_settings ready_world))
    = reset ++ scaffold ++ augmented ++ copies ++ manifests
    /\ Forall reset_event reset
    /\ Forall scaffold_event scaffold
    /\ Forall augmented_transfer augmented
    /\ Forall split_copy copies
    /\ Forall manifest_write manifests.
Proof.
  assert (Hrun : main shipped_settings ready_world
                 = (fst (main shipped_settings ready_world), Ok tt)).
  { vm_compute. reflexivity. }
  destruct (completed_run_in_stage_order shipped_settings ready_world _ Hrun)
    as (reset & scaffold & renames & augmented & copies & manifests
        & J & F1 & F2 & _ & N3 & F4 & _ & F5 & F6).
  rewrite (N3 eq_refl) in J. cbn [app] in J.
  exists reset, scaffold, augmented, copies, manifests.
  exact (conj J (conj F1 (conj F2 (conj F4 (conj F5 F6))))).
Defined.

(** X22. On Windows, when the first listed sample of a class is not
    itself [0.<ext>] and that name is taken, the rename of the class leaves
    everything exactly as it is: the first [os.rename] raises
    [FileExistsError], the handler ends the loop with no file renamed, and
    the stage goes on normally. *)
Theorem rename_blocked_by_first_name_on_windows (cfg : settings) (class_type : string)
        (w : world) (first : path) (rest : list path) :
  In class_type class_types ->
  os_name w = Windows ->
  samples_of cfg (disk w) class_type = first :: rest ->
  first <> rename_target cfg class_type 0 ->
  lookup (disk w) (rename_target cfg class_type 0) <> None ->
  rename_data_class cfg main_paths class_type w = (w, Ok tt).
Proof.
  intros Hc Hos Hnames Hother Htaken.
  rewrite (rename_data_class_unfold cfg class_type w Hc). rewrite Hnames.
  assert (Hfirst : In first (samples_of cfg (disk w) class_type))
    by (rewrite Hnames; now left).
  destruct (sample_present cfg (disk w) class_type first Hfirst) as [Hnn Hthere].
  apply glob_list_children in Hfirst. destruct Hfirst as [a Ha].
  unfold try_except.
  rewrite py_range_cons by (unfold len; cbn [List.length]; lia).
  rewrite for_each_cons.
  assert (Ebody : (old_name <- lift (py_index (first :: rest) 0) ;;
                   os_rename old_name (rename_target cfg class_type 0)) w
                  = (w, Raise FileExistsError)).
  { change (py_index (first :: rest) 0) with (Ok first).
    rewrite bind_lift_ok. unfold os_rename.
    rewrite (stat_nonempty _ _ Hnn).
    destruct (lookup (disk w) first) as [n | ]; [ | congruence].
    unfold rename_target in *. rewrite stat_join.
    destruct (lookup (disk w) (os_path_join (class_dir class_type) _)) as [t | ];
      [ | congruence].
    rewrite Hos.
    destruct (is_under first _ && negb (path_eqb first _)) eqn:E; [ | reflexivity].
    exfalso. apply andb_prop in E. destruct E as [E1 _]. subst first.
    apply Hother. f_equal.
    apply (is_under_siblings (class_dir class_type) _ _ []).
    now rewrite app_nil_r. }
  rewrite Ebody. reflexivity.
Qed.

Lemma rename_blocked_by_first_name_on_windows_witness :
  rename_data_class shipped_settings main_paths "benign" (numbered_world Windows)
  = (numbered_world Windows, Ok tt).
Proof.
  apply (rename_blocked_by_first_name_on_windows shipped_settings "benign"
           (numbered_world Windows) ["all_benign"; "1.png"]%string
           [["all_benign"; "0.png"]%string]).
  - now left.
  - reflexivity.
  - reflexivity.
  - discriminate.
  - vm_compute. discriminate.
Defined.

(** ** The counts against exact arithmetic *)

Lemma trunc_keeps_multiples (k Y g K : Z) :
  0 <= g <= K -> k * 2 ^ K <= Y -> k * 2 ^ K <= (Y / 2 ^ g) * 2 ^ g.
Proof.
  intros Hg Hle.
  assert (Pg : 0 < 2 ^ g) by (apply Z.pow_pos_nonneg; lia).
  assert (E : 2 ^ K = 2 ^ (K - g) * 2 ^ g).
  { rewrite <- Z.pow_add_r by lia. f_equal. lia. }
  rewrite E in *. rewrite Z.mul_assoc in *.
  apply Z.mul_le_mono_nonneg_r; [lia | ].
  apply Z.div_le_lower_bound; [assumption | ]. lia.
Qed.

Lemma div_pow2_scaled (m a b : Z) :
  0 <= a -> 0 <= b -> (m * 2 ^ a) / 2 ^ (b + a) = m / 2 ^ b.
Proof.
  intros Ha Hb. rewrite Z.pow_add_r by lia.
  assert (0 < 2 ^ a) by (apply Z.pow_pos_nonneg; lia).
  assert (0 < 2 ^ b) by (apply Z.pow_pos_nonneg; lia).
  apply Z.div_mul_cancel_r; lia.
Qed.

(** Rounding a product below [2^53] never loses its integer part. *)
Lemma binary_round_aux_floor_ge (m : positive) (e K a : Z) :
  0 <= K -> 0 <= e + K ->
  Zpos m * 2 ^ (e + K) <= 2 ^ (53 + K) - 2 ^ K ->
  PyFloat.math_floor
    (binary_round_aux PyFloat.prec PyFloat.emax false (Zpos m) e loc_Exact) = Ok a ->
  (Zpos m * 2 ^ (e + K)) / 2 ^ K <= a.
Proof.
  intros HK HeK HX.
  rewrite binary_round_aux_unfold. cbv zeta.
  pose proof (digits2_pos_bounds m) as Hd.
  pose proof (round_mantissa_nonneg m e) as Hm1.
  assert (Hm1b :
    let n := Z.max (Zpos (digits2_pos m) + e - 53) (-1074) - e in
    (n <= 0 -> round_mantissa m e = Zpos m) /\
    (0 < n -> Zpos m / 2 ^ n <= round_mantissa m e
              /\ 2 ^ n * round_mantissa m e <= Zpos m + 2 ^ (n - 1))).
  { unfold round_mantissa. rewrite fexp_eq. split; intros Hn.
    - rewrite shr_round_exact by assumption. reflexivity.
    - split; [ | apply shr_round_le; lia].
      set (r := fst _).
      pose proof (round_nearest_even_ge r) as Hge.
      subst r. rewrite shr_mantissa in Hge at 1 by (simpl; lia).
      cbn [shr_m shr_record_of_loc] in Hge.
      rewrite Z.max_l in Hge by lia. exact Hge. }
  cbv zeta in Hm1b.
  remember (Zpos (digits2_pos m)) as d eqn:Ed.
  assert (Hd1 : 1 <= d) by (subst d; lia).
  remember (Zpos m * 2 ^ (e + K)) as X eqn:EX.
  assert (HPeK : 0 < 2 ^ (e + K)) by (apply Z.pow_pos_nonneg; lia).
  assert (HPK : 0 < 2 ^ K) by (apply Z.pow_pos_nonneg; lia).
  assert (HXnn : 0 <= X) by (subst X; apply Z.mul_nonneg_nonneg; lia).
  assert (HdX : 2 ^ (d - 1 + (e + K)) <= X).
  { rewrite Z.pow_add_r by lia. subst X. nia. }
  assert (Hde : d + e <= 53).
  { assert (d - 1 + (e + K) < 53 + K); [ | lia].
    apply pow2_lt_inv; lia. }
  rewrite !fexp_eq.
  set (f := Z.max (d + e - 53) (-1074)).
  set (n := f - e).
  fold f n in Hm1b.
  remember (round_mantissa m e) as m1 eqn:Em1.
  set (e1 := e + Z.max n 0).
  assert (He1K : 0 <= e1 + K) by (subst e1; lia).
  assert (He1le : e1 + K <= K \/ n <= 0) by (subst e1 n f; lia).
  set (k := X / 2 ^ K).
  assert (Hk : k * 2 ^ K <= X).
  { subst k. rewrite Z.mul_comm. apply Z.mul_div_le. assumption. }
  set (V1 := m1 * 2 ^ (e1 + K)).
  assert (HV1 : k * 2 ^ K <= V1 /\ V1 < 2 ^ (53 + K)).
  { destruct Hm1b as [Hle Hgt]. subst V1 e1.
    destruct (Z.ltb_spec 0 n) as [Hn | Hn].
    - destruct (Hgt Hn) as [Hlow Hup].
      replace (e + Z.max n 0 + K) with (n + (e + K)) by lia.
      assert (Hg : 0 <= n + (e + K) <= K) by (subst n f; lia).
      assert (Pg : 0 < 2 ^ (n + (e + K))) by (apply Z.pow_pos_nonneg; lia).
      split.
      + apply Z.le_trans with ((X / 2 ^ (n + (e + K))) * 2 ^ (n + (e + K))).
        * apply trunc_keeps_multiples; assumption.
        * apply Z.mul_le_mono_nonneg_r; [lia | ].
          subst X. rewrite div_pow2_scaled by lia. exact Hlow.
      + rewrite (Z.pow_add_r 2 n (e + K)) by lia.
        assert (Hup' : 2 ^ n * m1 * 2 ^ (e + K) <= X + 2 ^ (n - 1) * 2 ^ (e + K)).
        { subst X. nia. }
        rewrite <- Z.pow_add_r in Hup' by lia.
        assert (2 ^ (n - 1 + (e + K)) < 2 ^ K) by (apply Z.pow_lt_mono_r; lia).
        lia.
    - rewrite (Hle Hn). replace (e + Z.max n 0 + K) with (e + K) by lia.
      subst X. split; lia. }
  destruct HV1 as [HV1 HV1b].
  set (d1 := Zdigits2 m1).
  assert (Hd1e1 : d1 + e1 <= 53).
  { destruct (Z.eq_dec m1 0) as [E | E].
    - subst d1. rewrite E. simpl. subst e1 n f. lia.
    - pose proof (Zdigits2_lower m1 ltac:(lia)) as Hlow. fold d1 in Hlow.
      pose proof (Zdigits2_nonneg m1) as Hnn. fold d1 in Hnn.
      assert (d1 <> 0).
      { subst d1. destruct m1; simpl; lia. }
      assert (2 ^ (d1 - 1 + (e1 + K)) <= V1).
      { rewrite Z.pow_add_r by lia. subst V1.
        assert (0 < 2 ^ (e1 + K)) by (apply Z.pow_pos_nonneg; lia). nia. }
      assert (d1 - 1 + (e1 + K) < 53 + K); [ | lia].
      apply pow2_lt_inv; lia. }
  set (n2 := Z.max (d1 + e1 - 53) (-1074) - e1).
  set (s2 := Z.max n2 0).
  assert (Hs2 : 0 <= s2) by (subst s2; lia).
  assert (HPs2 : 0 < 2 ^ s2) by (apply Z.pow_pos_nonneg; lia).
  assert (Hm2nn : 0 <= m1 / 2 ^ s2) by (apply Z.div_pos; lia).
  assert (Hg2 : 0 <= e1 + s2 + K) by lia.
  set (V2 := (m1 / 2 ^ s2) * 2 ^ (e1 + s2 + K)).
  assert (HV2 : k * 2 ^ K <= V2).
  { subst V2. destruct (Z.eq_dec s2 0) as [E0 | E0].
    - rewrite E0. change (2 ^ 0) with 1. rewrite Z.div_1_r.
      replace (e1 + 0 + K) with (e1 + K) by lia. exact HV1.
    - assert (Hg : 0 <= e1 + s2 + K <= K) by (subst s2 n2; lia).
      replace (m1 / 2 ^ s2) with (V1 / 2 ^ (e1 + s2 + K)).
      + apply trunc_keeps_multiples; assumption.
      + subst V1. replace (e1 + s2 + K) with (s2 + (e1 + K)) by lia.
        apply div_pow2_scaled; lia. }
  destruct (m1 / 2 ^ s2) as [ | p | p] eqn:Em2; try lia.
  - cbn [PyFloat.math_floor]. intros [= <-].
    subst V2. rewrite Z.mul_0_l in HV2.
    assert (k <= 0) by nia. exact H.
  - destruct (e1 + s2 <=? PyFloat.emax - PyFloat.prec); [ | discriminate].
    cbn [PyFloat.math_floor cond_Zopp]. intros [= <-].
    rewrite (shiftl_scaled (Zpos p) (e1 + s2) K) by lia.
    fold V2.
    apply Z.div_le_lower_bound; [assumption | ]. lia.
Qed.

Lemma exact_floor_unfold (q : Q) (n : Z) :
  exact_floor q n = (n * Qnum q) / Zpos (Qden q).
Proof. destruct q as [a b]. reflexivity. Qed.

Lemma F2Q_parts (m : positive) (e : Z) :
  Qnum (PyFloat.F2Q (S754_finite false m e)) = Zpos m * 2 ^ Z.max e 0
  /\ Zpos (Qden (PyFloat.F2Q (S754_finite false m e))) = 2 ^ Z.max (- e) 0.
Proof.
  destruct e as [ | p | p]; cbn [PyFloat.F2Q cond_Zopp Qnum Qden inject_Z].
  - split; reflexivity.
  - split; [ | reflexivity]. f_equal.
  - split; [simpl; lia | ]. rewrite Pos2Z.inj_pow. reflexivity.
Qed.

Lemma F2Q_negative (m : positive) (e : Z) :
  ~ (0 <= PyFloat.F2Q (S754_finite true m e))%Q.
Proof.
  unfold Qle. intros Hnn.
  destruct e as [ | p | p]; cbn [PyFloat.F2Q cond_Zopp Qnum Qden inject_Z] in Hnn.
  - simpl in Hnn. lia.
  - assert (0 < 2 ^ Zpos p) by (apply Z.pow_pos_nonneg; lia).
    rewrite Z.mul_1_r in Hnn. change (0 * 1) with 0 in Hnn.
    rewrite Z.mul_opp_l in Hnn. nia.
  - rewrite Z.mul_1_r in Hnn. lia.
Qed.

(** The float product, floored, is the exact floor or one more. *)
Lemma floor_mul_exact_floor (r : PyFloat.float) (n : Z) :
  PyFloat.is_finite r = true ->
  (0 <= PyFloat.F2Q r)%Q -> (PyFloat.F2Q r <= 1)%Q ->
  0 <= n < 2 ^ 53 ->
  exists a, floor_mul r n = Ok a
            /\ exact_floor (PyFloat.F2Q r) n <= a <= exact_floor (PyFloat.F2Q r) n + 1.
Proof.
  intros Hfin Hnn Hle1 Hn.
  destruct (floor_mul_bound r n Hfin Hnn Hle1 Hn) as (a & Ea & Ha0 & Hup).
  exists a. split; [exact Ea | ].
  rewrite exact_floor_unfold.
  set (Rn := Qnum (PyFloat.F2Q r)) in *.
  set (Rd := Zpos (Qden (PyFloat.F2Q r))) in *.
  assert (HRd : 0 < Rd) by (subst Rd; lia).
  assert (HRn : 0 <= Rn).
  { unfold Qle in Hnn. cbn in Hnn. subst Rn. lia. }
  assert (HRle : Rn <= Rd).
  { unfold Qle in Hle1. cbn in Hle1. subst Rn Rd. lia. }
  pose proof (Z.mul_div_le (n * Rn) Rd HRd) as Hq1.
  pose proof (Z.mul_succ_div_gt (n * Rn) Rd HRd) as Hq2.
  set (q := n * Rn / Rd) in *.
  split.
  - (* the integer part survives the rounding *)
    revert Ea. unfold floor_mul, PyFloat.mul_int.
    destruct (Z.eq_dec n 0) as [-> | Hn0].
    { rewrite of_int_zero. cbn [bind_result]. intros Ea.
      assert (q = 0) by (subst q; reflexivity). lia. }
    destruct (of_int_exact n ltac:(lia)) as (mn & en & -> & Hen & Hmn).
    cbn [bind_result].
    destruct r as [s | s | | s m e]; try discriminate.
    { intros _. assert (q = 0).
      { subst q Rn. cbn. rewrite Z.mul_0_r. reflexivity. }
      lia. }
    destruct s; [now contradiction (F2Q_negative m e) | ].
    unfold PyFloat.mul, SFmul. cbn [xorb].
    destruct (F2Q_parts m e) as [HQn HQd]. fold Rn in HQn. fold Rd in HQd.
    set (K := Z.max (- e) 0 + - en).
    assert (HK : 0 <= K) by (subst K; lia).
    assert (HeK : 0 <= e + en + K) by (subst K; lia).
    assert (Pen : 0 < 2 ^ (- en)) by (apply Z.pow_pos_nonneg; lia).
    assert (HX : Zpos (m * mn) * 2 ^ (e + en + K) = Rn * n * 2 ^ (- en)).
    { rewrite Pos2Z.inj_mul, Hmn, HQn.
      replace (e + en + K) with (Z.max e 0) by (subst K; lia). ring. }
    assert (HPK : 2 ^ K = Rd * 2 ^ (- en)).
    { subst K. rewrite Z.pow_add_r by lia. now rewrite HQd. }
    intros Ea.
    pose proof (binary_round_aux_floor_ge (m * mn) (e + en) K a HK HeK) as Hge.
    rewrite HX, HPK in Hge.
    rewrite Z.div_mul_cancel_r in Hge by lia.
    replace (Rn * n) with (n * Rn) in Hge by ring. fold q in Hge.
    apply Hge; [ | exact Ea].
    replace (53 + K) with (K + 53) by lia.
    rewrite Z.pow_add_r, HPK by lia.
    assert (H53 : 2 ^ 53 = 9007199254740992) by reflexivity.
    rewrite H53 in *.
    assert (Rn * n <= Rd * 9007199254740991) by nia.
    nia.
  - (* and the rounding adds less than one *)
    assert (H53 : 2 ^ 53 = 9007199254740992) by reflexivity.
    rewrite H53 in *.
    assert (Hlt : a * 9007199254740992 * Rd < (q + 2) * 9007199254740992 * Rd) by nia.
    assert (a < q + 2) by nia.
    lia.
Qed.

Lemma math_floor_is_floor (x : PyFloat.float) (a : Z) :
  PyFloat.math_floor x = Ok a -> a = Qfloor (PyFloat.F2Q x).
Proof.
  destruct x as [s | s | | s m e]; cbn [PyFloat.math_floor]; try discriminate.
  - intros [= <-]. reflexivity.
  - intros [= <-].
    destruct e as [ | p | p]; cbn [PyFloat.F2Q Qfloor inject_Z].
    + rewrite Z.shiftl_0_r, Z.mul_1_r, Z.div_1_r. reflexivity.
    + rewrite Z.shiftl_mul_pow2 by lia. now rewrite Z.div_1_r.
    + change (Z.neg p) with (- Z.pos p). rewrite Z.shiftl_opp_r.
      rewrite Z.shiftr_div_pow2 by lia. now rewrite Pos2Z.inj_pow.
Qed.

(** C1, as stated, fails for either reading of the ratio. The shipped
    [TRAIN] is the double nearest to [0.7]; with 90 samples the float
    product [0.7 * 90] falls just below 63 and the train count is 62,
    whereas [floor(90 * 7/10)] is 63. Taking the exact value of the double
    for the ratio does not help: with 10 samples the float product is
    rounded up to [7.0] and the count is 7, whereas the exact product
    stays below 7. *)
Lemma counts_differ_from_exact_floor :
  TRAIN shipped_settings = PyFloat.literal 7 10
  /\ compute_num shipped_settings 90
     = Ok {| at_train := 62; at_test := 18; at_validation := 10 |}
  /\ exact_floor decimal_0_7 90 = 63
  /\ compute_num shipped_settings 10
     = Ok {| at_train := 7; at_test := 2; at_validation := 1 |}
  /\ exact_floor (PyFloat.F2Q (TRAIN shipped_settings)) 10 = 6.
Proof. repeat split; vm_compute; reflexivity. Qed.

(** C1, amended. Whenever the counts are defined, the train and test
    counts are the floors of the two float products ([TRAIN * n] and
    [TEST * n] rounded to doubles), the validation count is [n] minus both,
    and the three add up to [n] exactly. Measured against exact
    arithmetic: when [TRAIN] and [TEST] are finite, non-negative and of
    sum at most one and [n] is below [2^53], the counts are defined, each
    of the first two is [floor(n * ratio)] or one more (the ratio being the
    exact value of the double), and the validation count is not
    negative. *)
Theorem split_counts_sum_to_total (cfg : settings) (n : Z) :
  (forall num,
     compute_num cfg n = Ok num ->
     (exists x, PyFloat.mul_int (TRAIN cfg) n = Ok x
                /\ at_train num = Qfloor (PyFloat.F2Q x))
     /\ (exists y, PyFloat.mul_int (TEST cfg) n = Ok y
                   /\ at_test num = Qfloor (PyFloat.F2Q y))
     /\ at_validation num = n - at_train num - at_test num
     /\ at_train num + at_test num + at_validation num = n)
  /\ (usable_ratios cfg -> 0 <= n < 2 ^ 53 ->
      exists num,
        compute_num cfg n = Ok num
        /\ exact_floor (PyFloat.F2Q (TRAIN cfg)) n <= at_train num
           <= exact_floor (PyFloat.F2Q (TRAIN cfg)) n + 1
        /\ exact_floor (PyFloat.F2Q (TEST cfg)) n <= at_test num
           <= exact_floor (PyFloat.F2Q (TEST cfg)) n + 1
        /\ 0 <= at_validation num).
Proof.
  split.
  - intros num. unfold compute_num.
    destruct (PyFloat.mul_int (TRAIN cfg) n) as [x | e]; cbn [bind_result];
      [ | discriminate].
    destruct (PyFloat.math_floor x) as [a | e] eqn:Ea; cbn [bind_result];
      [ | discriminate].
    destruct (PyFloat.mul_int (TEST cfg) n) as [y | e]; cbn [bind_result];
      [ | discriminate].
    destruct (PyFloat.math_floor y) as [b | e] eqn:Eb; cbn [bind_result];
      [ | discriminate].
    intros [= <-]. cbn [at_train at_test at_validation].
    apply math_floor_is_floor in Ea, Eb.
    split; [now exists x | ]. split; [now exists y | ]. lia.
  - intros Hu Hn.
    destruct (compute_num_defined cfg n Hu Hn) as (a & b & E & Ha & Hb & Hab).
    destruct Hu as ((Ftr & Htr) & (Fte & Hte) & Hsum).
    assert (Htr1 : (PyFloat.F2Q (TRAIN cfg) <= 1)%Q).
    { apply Qle_trans with (PyFloat.F2Q (TRAIN cfg) + PyFloat.F2Q (TEST cfg))%Q;
        [ | assumption].
      rewrite <- (Qplus_0_r (PyFloat.F2Q (TRAIN cfg))) at 1.
      apply Qplus_le_compat; [apply Qle_refl | assumption]. }
    assert (Hte1 : (PyFloat.F2Q (TEST cfg) <= 1)%Q).
    { apply Qle_trans with (PyFloat.F2Q (TRAIN cfg) + PyFloat.F2Q (TEST cfg))%Q;
        [ | assumption].
      rewrite <- (Qplus_0_l (PyFloat.F2Q (TEST cfg))) at 1.
      apply Qplus_le_compat; [assumption | apply Qle_refl]. }
    destruct (floor_mul_exact_floor _ n Ftr Htr Htr1 Hn) as (a' & Ea & Hba).
    destruct (floor_mul_exact_floor _ n Fte Hte Hte1 Hn) as (b' & Eb & Hbb).
    destruct (compute_num_parts cfg n _ E) as (Ea' & Eb' & _).
    cbn [at_train at_test] in Ea', Eb'.
    rewrite Ea in Ea'. rewrite Eb in Eb'.
    injection Ea' as ->. injection Eb' as ->.
    eexists. split; [exact E | ]. cbn [at_train at_test at_validation].
    split; [exact Hba | ]. split; [exact Hbb | ]. lia.
Qed.

Lemma split_counts_sum_to_total_witness :
  exists num,
    compute_num shipped_settings 90 = Ok num
    /\ exact_floor (PyFloat.F2Q (TRAIN shipped_settings)) 90 <= at_train num
       <= exact_floor (PyFloat.F2Q (TRAIN shipped_settings)) 90 + 1.
Proof.
  destruct (proj2 (split_counts_sum_to_total shipped_settings 90))
    as (num & E & Htrain & _).
  - repeat split; try reflexivity; vm_compute; discriminate.
  - lia.
  - now exists num.
Defined.

(** ** The bounds of the copy loops *)

(** C10. Let the ratios be non-negative with the first two summing to at
    most one, as they do when the three are non-negative and sum to one,
    and as the shipped [0.7, 0.2, 0.1] do. For every [n] below [2^53] (no
    list of file names is longer), [num['validation']] is non-negative and
    every index of the three copy loops lies in [0 .. n-1], so indexing
    the sample list never fails. *)
Theorem split_indices_in_bounds (cfg : settings) (n : Z) :
  usable_ratios cfg -> 0 <= n < 2 ^ 53 -> indices_in_bounds cfg n.
Proof.
  intros Hu Hn.
  destruct (compute_num_defined cfg n Hu Hn) as (a & b & E & Ha & Hb & Hab).
  exists {| at_train := a; at_test := b; at_validation := n - (a + b) |}.
  split; [exact E | ]. split; [cbn; lia | ].
  intros split_type si k i Hsi Hk Hi.
  apply in_py_range in Hi.
  assert (Hbound : 0 <= i < n).
  { apply num_of_cases in Hsi. apply num_of_cases in Hk.
    cbn [compute_start_index at_train at_test at_validation] in Hsi, Hk.
    destruct Hsi as [[-> ->] | [[-> ->] | [-> ->]]];
      destruct Hk as [[Hs ->] | [[Hs ->] | [Hs ->]]];
      try discriminate Hs; lia. }
  split; [exact Hbound | ].
  intros sample_names Hlen.
  destruct (py_index_ok sample_names i ltac:(lia)) as (x & Hx & _).
  now exists x.
Qed.

Lemma split_indices_in_bounds_witness :
  indices_in_bounds shipped_settings 90
  /\ indices_in_bounds (with_ratios float_0_5 float_0_25 float_0_25) 10.
Proof.
  split; apply split_indices_in_bounds; try lia.
  - repeat split; try reflexivity; vm_compute; discriminate.
  - apply usable_of_proportions. unfold proportions, finite_nonneg. cbn.
    repeat split; try reflexivity; try discriminate.
Defined.

(** ** What a run does to the source samples *)







(** ** The split with ratios the assertion lets through *)

(** C2, as stated, fails: the assertion accepts the ratios
    [-0.5, 0.2, 1.3]. With three samples the counts are [-2], [0] and [5];
    the train and test loops copy nothing and the validation loop runs over
    the indices [-2 .. 2], so the run completes with five copies of three
    samples, two of them assigned twice. *)
Lemma negative_ratio_copies_twice :
  check_settings negative_settings = true
  /\ compute_num negative_settings 3
     = Ok {| at_train := -2; at_test := 0; at_validation := 5 |}
  /\ samples_of negative_settings (disk ready_world) "benign"
     = [["all_benign"; "a.png"]; ["all_benign"; "b.png"]; ["all_benign"; "c.png"]]%string
  /\ exists w',
       split_data negative_settings main_paths ready_world = (w', Ok tt)
       /\ copied_sources (journal w')
          = [["all_benign"; "a.png"]; ["all_benign"; "b.png"]; ["all_benign"; "c.png"];
             ["all_benign"; "a.png"]; ["all_benign"; "b.png"]]%string
       /\ ~ Permutation (samples_of negative_settings (disk ready_world) "benign")
                        (copied_sources (journal w')).
Proof.
  split; [vm_compute; reflexivity | ].
  split; [vm_compute; reflexivity | ].
  split; [vm_compute; reflexivity | ].
  exists (fst (split_data negative_settings main_paths ready_world)).
  split; [vm_compute; reflexivity | ].
  split; [vm_compute; reflexivity | ].
  intros H. apply Permutation_length in H. vm_compute in H. discriminate H.
Qed.

(** ** Which entries a manifest lists *)




Lemma ends_with_spec (suffix name : string) :
  ends_with suffix name = true <-> exists stem, name = (stem ++ suffix)%string.
Proof.
  induction name as [ | a name IH]; cbn [ends_with].
  - rewrite orb_false_r. split.
    + intros H. apply String.eqb_eq in H. now exists EmptyString.
    + intros [stem H]. destruct stem; [ | discriminate]. cbn in H.
      subst suffix. reflexivity.
  - rewrite orb_true_iff, IH. split.
    + intros [H | [stem H]].
      * apply String.eqb_eq in H. now exists EmptyString.
      * exists (String a stem). cbn. now rewrite H.
    + intros [stem H]. destruct stem as [ | b stem].
      * left. cbn in H. subst suffix. apply String.eqb_refl.
      * right. cbn in H. injection H as _ H. now exists stem.
Qed.









(** ** Copies in a row, whatever the indices *)

Lemma copy_jobs_ok (jobs : list (path * path)) (w w' : world) :
  (forall j, In j jobs -> stat (disk w) (snd j) = Some Dir) ->
  (forall j j', In j jobs -> In j' jobs -> snd j <> job_target j') ->
  (forall j j', In j jobs -> In j' jobs -> fst j <> job_target j') ->
  (forall j j', In j jobs -> In j' jobs ->
                job_target j = job_target j' -> fst j = fst j') ->
  copy_jobs jobs w = (w', Ok tt) ->
  journal w' = journal w ++ map (fun j => Copy (fst j) (job_target j)) jobs
  /\ (forall p, (forall j, In j jobs -> p <> job_target j) ->
                lookup (disk w') p = lookup (disk w) p)
  /\ (forall j, In j jobs ->
        exists data, stat (disk w) (fst j) = Some (File data)
                     /\ lookup (disk w') (job_target j) = Some (File data)).
Proof.
  unfold copy_jobs. revert w.
  induction jobs as [ | j0 jobs IH]; intros w Hdirs Hdt Hst Hsame H.
  - injection H as <-. cbn [map]. rewrite app_nil_r.
    repeat split; try reflexivity; intros; contradiction.
  - rewrite for_each_cons in H.
    destruct (shutil_copy (fst j0) (snd j0) w) as [w1 [[] | e]] eqn:E; [ | discriminate].
    destruct (shutil_copy_ok _ _ w w1 (Hdirs j0 (or_introl eq_refl)) E)
      as (data0 & Hsrc0 & _ & _ & ->).
    fold (job_target j0) in *.
    destruct (IH (commit w (put (disk w) (job_target j0) (File data0))
                         (Copy (fst j0) (job_target j0))))
      as (Hj & Hframe & Hcontent).
    + intros j Hin. cbn [commit disk]. rewrite stat_put_neq.
      * apply Hdirs. now right.
      * intros Heq. apply (Hdt j j0); [now right | now left | now symmetry].
    + intros j j' Hin Hin'. apply Hdt; now right.
    + intros j j' Hin Hin'. apply Hst; now right.
    + intros j j' Hin Hin'. apply Hsame; now right.
    + exact H.
    + cbn [commit disk journal] in *.
      assert (Hback : forall j, In j jobs ->
                 stat (put (disk w) (job_target j0) (File data0)) (fst j)
                 = stat (disk w) (fst j)).
      { intros j Hin. apply stat_put_neq. intros Heq.
        apply (Hst j j0); [now right | now left | now symmetry]. }
      split; [ | split].
      * rewrite Hj. cbn [map]. now rewrite <- app_assoc.
      * intros p Hp. rewrite Hframe.
        -- apply lookup_put_neq. intros Heq. apply (Hp j0); [now left | now symmetry].
        -- intros j Hin. apply Hp. now right.
      * assert (Htail : forall j, In j jobs ->
                   exists data, stat (disk w) (fst j) = Some (File data)
                                /\ lookup (disk w') (job_target j) = Some (File data)).
        { intros j Hin. destruct (Hcontent j Hin) as (data & Hs & Hl).
          exists data. split; [ | exact Hl]. now rewrite <- (Hback j Hin). }
        intros j [<- | Hin]; [ | now apply Htail].
        destruct (in_dec (list_eq_dec string_dec) (job_target j0) (map job_target jobs))
          as [Hlater | Hlast].
        -- apply in_map_iff in Hlater. destruct Hlater as (j' & Heq & Hin').
           destruct (Htail j' Hin') as (data & Hs & Hl).
           exists data. rewrite <- Heq.
           rewrite (Hsame j0 j' (or_introl eq_refl) (or_intror Hin') (eq_sym Heq)).
           split; assumption.
        -- exists data0. split; [exact Hsrc0 | ].
           rewrite Hframe; [apply lookup_put_eq | ].
           intros j' Hin' Heq. apply Hlast. rewrite Heq. now apply in_map.
Qed.

Lemma index_loop_visits {A : Type} (l : list A) (indices : list Z) (f : A -> M unit)
      (w w' : world) :
  for_each indices (fun i => x <- lift (py_index l i) ;; f x) w = (w', Ok tt) ->
  exists xs, Forall2 (fun i x => py_index l i = Ok x) indices xs
             /\ for_each xs f w = (w', Ok tt).
Proof.
  revert w. induction indices as [ | i indices IH]; intros w H.
  - exists []. split; [constructor | exact H].
  - rewrite for_each_cons in H. cbv beta in H. unfold bind at 1, lift at 1 in H.
    destruct (py_index l i) as [x | e] eqn:Ei; [ | discriminate].
    destruct (f x w) as [w1 [[] | e]] eqn:Ef; [ | discriminate].
    destruct (IH w1 H) as (xs & Hall & Hrun).
    exists (x :: xs). split; [now constructor | ].
    rewrite for_each_cons, Ef. exact Hrun.
Qed.

Lemma Forall2_pick {A B : Type} (R : A -> B -> Prop) (l : list A) (l' : list B) (a : A) :
  Forall2 R l l' -> In a l -> exists b, In b l' /\ R a b.
Proof.
  induction 1 as [ | x y l l' Hxy _ IH]; [contradiction | ].
  intros [<- | Hin].
  - exists y. split; [now left | exact Hxy].
  - destruct (IH Hin) as (b & Hb & Hab). exists b. split; [now right | exact Hab].
Qed.

Lemma Forall2_in_r {A B : Type} (R : A -> B -> Prop) (l : list A) (l' : list B) (b : B) :
  Forall2 R l l' -> In b l' -> exists a, In a l /\ R a b.
Proof.
  induction 1 as [ | x y l l' Hxy _ IH]; [contradiction | ].
  intros [<- | Hin].
  - exists x. split; [now left | exact Hxy].
  - destruct (IH Hin) as (a & Ha & Hab). exists a. split; [now right | exact Hab].
Qed.

Lemma copy_all_as_jobs (to_dir : path) (srcs : list path) (w : world) :
  copy_all to_dir srcs w = copy_jobs (map (fun src => (src, to_dir)) srcs) w.
Proof. unfold copy_all, copy_jobs. now rewrite for_each_map. Qed.

Lemma copy_jobs_app (a b : list (path * path)) (w w1 w' : world) :
  copy_jobs a w = (w1, Ok tt) -> copy_jobs b w1 = (w', Ok tt) ->
  copy_jobs (a ++ b) w = (w', Ok tt).
Proof. unfold copy_jobs. intros Ha Hb. now rewrite for_each_app, Ha. Qed.

Lemma copy_range_jobs (sample_names : list path) (lo hi : Z) (to_dir : path)
      (w w' : world) :
  copy_range sample_names lo hi to_dir w = (w', Ok tt) ->
  exists xs,
    Forall2 (fun i x => py_index sample_names i = Ok x) (py_range lo hi) xs
    /\ copy_jobs (map (fun src => (src, to_dir)) xs) w = (w', Ok tt).
Proof.
  unfold copy_range. intros H.
  apply (index_loop_visits sample_names (py_range lo hi)
           (fun src => shutil_copy src to_dir)) in H.
  destruct H as (xs & Hall & Hrun). exists xs. split; [exact Hall | ].
  rewrite <- copy_all_as_jobs. exact Hrun.
Qed.

Lemma shuffled_samples_run (cfg : settings) (class_type : string) (w : world) :
  exists w1,
    random_shuffle (samples_of cfg (disk w) class_type) w
    = (w1, Ok (shuffled_samples cfg w class_type))
    /\ Permutation (samples_of cfg (disk w) class_type)
                   (shuffled_samples cfg w class_type)
    /\ same_disk w w1.
Proof.
  destruct (random_shuffle_spec (samples_of cfg (disk w) class_type) w)
    as (w1 & sh & E & Hperm & Hsame).
  exists w1. unfold shuffled_samples. rewrite E. cbn [snd].
  split; [reflexivity | split; assumption].
Qed.

Lemma visits_sample (cfg : settings) (split_type class_type : string) (w : world)
      (src : path) :
  visits cfg split_type class_type w src ->
  In split_type split_types
  /\ exists a, src = os_path_join (class_dir class_type) a.
Proof.
  intros (num & si & k & i & _ & _ & Hk & _ & Hsrc). split.
  - apply num_of_cases in Hk.
    destruct Hk as [[-> _] | [[-> _] | [-> _]]]; cbn; tauto.
  - apply py_index_in in Hsrc.
    destruct (shuffled_samples_run cfg class_type w) as (_ & _ & Hperm & _).
    apply (Permutation_in _ (Permutation_sym Hperm)) in Hsrc.
    eapply glob_list_children, Hsrc.
Qed.

(** The copies of one class by the split stage, whatever the ratios. *)
Lemma split_data_class_places (cfg : settings) (class_type : string) (w w' : world) :
  In class_type class_types ->
  split_dirs_ready (disk w) ->
  split_data_class cfg main_paths class_type w = (w', Ok tt) ->
  (forall split_type src,
     visits cfg split_type class_type w src ->
     exists data,
       lookup (disk w) src = Some (File data)
       /\ lookup (disk w') (os_path_join (split_dir split_type class_type)
                                         (os_path_basename src))
          = Some (File data))
  /\ (forall p,
        (forall s name, In s split_types ->
                        p <> os_path_join (split_dir s class_type) name) ->
        lookup (disk w') p = lookup (disk w) p).
Proof.
  intros Hc Hready Hrun.
  rewrite split_data_class_unfold in Hrun by assumption.
  destruct (compute_num cfg (len (samples_of cfg (disk w) class_type)))
    as [num | e] eqn:Enum; [ | discriminate].
  destruct (shuffled_samples_run cfg class_type w) as (w1 & Esh & Hperm & HD & _ & _).
  rewrite Esh in Hrun.
  set (sh := shuffled_samples cfg w class_type) in *.
  apply bind_ok_inv in Hrun. destruct Hrun as (w2 & [] & H1 & Hrun).
  apply bind_ok_inv in Hrun. destruct Hrun as (w3 & [] & H2 & Hrun).
  apply bind_ok_inv in Hrun. destruct Hrun as (w4 & [] & H3 & Hrun).
  injection Hrun as <-.
  apply copy_range_jobs in H1, H2, H3.
  destruct H1 as (xs1 & F1 & R1), H2 as (xs2 & F2 & R2), H3 as (xs3 & F3 & R3).
  set (jobs := map (fun src => (src, split_dir "train" class_type)) xs1
               ++ map (fun src => (src, split_dir "test" class_type)) xs2
               ++ map (fun src => (src, split_dir "validation" class_type)) xs3).
  assert (Hjobs : copy_jobs jobs w1 = (w4, Ok tt)).
  { subst jobs. eapply copy_jobs_app; [exact R1 | ].
    eapply copy_jobs_app; [exact R2 | exact R3]. }
  assert (Hin_sh : forall lo hi xs x,
             Forall2 (fun i x => py_index sh i = Ok x) (py_range lo hi) xs ->
             In x xs -> exists a, x = os_path_join (class_dir class_type) a).
  { intros lo hi xs x HF Hx.
    destruct (Forall2_in_r _ _ _ _ HF Hx) as (i & _ & Hi).
    apply py_index_in in Hi.
    apply (Permutation_in _ (Permutation_sym Hperm)) in Hi.
    eapply glob_list_children, Hi. }
  assert (Hshape : forall j, In j jobs ->
             exists s a, In s split_types
                         /\ j = (os_path_join (class_dir class_type) a,
                                 split_dir s class_type)).
  { intros j Hj. subst jobs. rewrite !in_app_iff, !in_map_iff in Hj.
    destruct Hj as [(x & <- & Hx) | [(x & <- & Hx) | (x & <- & Hx)]].
    - destruct (Hin_sh _ _ _ _ F1 Hx) as [a ->]. exists "train"%string, a.
      split; [cbn; tauto | reflexivity].
    - destruct (Hin_sh _ _ _ _ F2 Hx) as [a ->]. exists "test"%string, a.
      split; [cbn; tauto | reflexivity].
    - destruct (Hin_sh _ _ _ _ F3 Hx) as [a ->]. exists "validation"%string, a.
      split; [cbn; tauto | reflexivity]. }
  destruct (copy_jobs_ok jobs w1 w4) as (_ & Hframe & Hcontent); try exact Hjobs.
  { intros j Hj. destruct (Hshape j Hj) as (s & a & Hs & ->). cbn [snd].
    rewrite HD. now apply ready_stat. }
  { intros j j' Hj Hj'.
    destruct (Hshape j Hj) as (s & a & Hs & ->).
    destruct (Hshape j' Hj') as (s' & a' & Hs' & ->).
    unfold job_target. cbn [fst snd]. apply split_dir_not_target. }
  { intros j j' Hj Hj'.
    destruct (Hshape j Hj) as (s & a & Hs & ->).
    destruct (Hshape j' Hj') as (s' & a' & Hs' & ->).
    unfold job_target. cbn [fst snd]. apply sample_not_target. }
  { intros j j' Hj Hj' Heq.
    destruct (Hshape j Hj) as (s & a & Hs & ->).
    destruct (Hshape j' Hj') as (s' & a' & Hs' & ->).
    unfold job_target in Heq. cbn [fst snd] in *. rewrite !basename_join in Heq.
    unfold os_path_join in Heq. apply app_inj_tail in Heq.
    destruct Heq as [_ [= ->]]. reflexivity. }
  split.
  - intros split_type src (num' & si & k & i & Enum' & Hsi & Hk & Hi & Hsrc).
    rewrite Enum in Enum'. injection Enum' as <-. fold sh in Hsrc.
    assert (Hjob : In (src, split_dir split_type class_type) jobs).
    { apply num_of_cases in Hsi. apply num_of_cases in Hk.
      cbn [compute_start_index at_train at_test at_validation] in Hsi.
      subst jobs. rewrite !in_app_iff, !in_map_iff.
      destruct Hk as [[-> ->] | [[-> ->] | [-> ->]]];
        destruct Hsi as [[Hs ->] | [[Hs ->] | [Hs ->]]]; try discriminate Hs.
      - left. destruct (Forall2_pick _ _ _ _ F1 Hi) as (x & Hx & Hix).
        rewrite Hsrc in Hix. injection Hix as <-. now exists src.
      - right; left. destruct (Forall2_pick _ _ _ _ F2 Hi) as (x & Hx & Hix).
        rewrite Hsrc in Hix. injection Hix as <-. now exists src.
      - right; right. destruct (Forall2_pick _ _ _ _ F3 Hi) as (x & Hx & Hix).
        rewrite Hsrc in Hix. injection Hix as <-. now exists src. }
    destruct (Hcontent _ Hjob) as (data & Hs & Hl).
    cbn [fst] in Hs. unfold job_target in Hl. cbn [fst snd] in Hl.
    exists data. split; [ | exact Hl].
    apply stat_file_lookup in Hs. destruct Hs as [Hs _]. now rewrite <- HD.
  - intros p Hp. rewrite <- HD. apply Hframe.
    intros j Hj. destruct (Hshape j Hj) as (s & a & Hs & ->).
    unfold job_target. cbn [fst snd]. now apply Hp.
Qed.

Lemma class_start_benign (cfg : settings) (w : world) :
  class_start cfg "benign" w = w.
Proof. reflexivity. Qed.

Lemma class_start_malign (cfg : settings) (w wb : world) :
  split_data_class cfg main_paths "benign" w = (wb, Ok tt) ->
  class_start cfg "malign" w = wb.
Proof.
  intros H. unfold class_start.
  change (classes_before "malign" class_types) with ["benign"%string].
  rewrite for_each_cons, H. reflexivity.
Qed.

(** The copies of the whole split stage, whatever the ratios. *)
Lemma split_data_places (cfg : settings) (w1 w2 : world) :
  split_dirs_ready (disk w1) ->
  split_data cfg main_paths w1 = (w2, Ok tt) ->
  forall class_type split_type src,
    In class_type class_types ->
    visits cfg split_type class_type (class_start cfg class_type w1) src ->
    exists data,
      lookup (disk w1) src = Some (File data)
      /\ lookup (disk w2) (os_path_join (split_dir split_type class_type)
                                        (os_path_basename src))
         = Some (File data).
Proof.
  intros Hready H. unfold split_data, class_types in H.
  apply for_each_cons_ok in H. destruct H as (wb & Hb & H).
  apply for_each_cons_ok in H. destruct H as (wm & Hm & H).
  apply for_each_nil_ok in H. subst wm.
  destruct (split_data_class_places cfg _ _ _ (or_introl eq_refl) Hready Hb)
    as (Cb & Fb).
  assert (Hready_b : split_dirs_ready (disk wb)).
  { intros s c Hs Hc. rewrite Fb; [now apply Hready | ].
    intros s' name _. apply split_dir_not_target. }
  destruct (split_data_class_places cfg _ _ _ (or_intror (or_introl eq_refl))
              Hready_b Hm) as (Cm & Fm).
  intros c s src [<- | [<- | []]] Hv.
  - rewrite class_start_benign in Hv.
    destruct (Cb s src Hv) as (data & Hsrc & Hdst).
    exists data. split; [exact Hsrc | ].
    rewrite Fm; [exact Hdst | ].
    intros s' name' _. apply join_neq_dirs, split_dirs_of_classes. discriminate.
  - rewrite (class_start_malign cfg w1 wb Hb) in Hv.
    destruct (Cm s src Hv) as (data & Hsrc & Hdst).
    exists data. split; [ | exact Hdst].
    rewrite <- Hsrc. symmetry. apply Fb.
    destruct (visits_sample _ _ _ _ _ Hv) as (_ & a & ->).
    intros s' name' _. apply sample_not_target.
Qed.

(** ** The augmented copies *)

Lemma copy_augmented_class_listing (cfg : settings) (class_type : string) (d : path) :
  In class_type class_types ->
  is_under ["split_samples"%string] d = false ->
  preserves (same_listing d) (copy_augmented_class cfg main_paths class_type).
Proof.
  intros Hc Hd.
  pose proof (same_listing_refl d) as Rr. pose proof (same_listing_trans d) as Rt.
  unfold copy_augmented_class.
  apply preserves_bind_lift; try assumption. intros dir _. cbv zeta.
  apply preserves_bind; try assumption; [now apply preserves_glob | intros names].
  change (dict_get main_paths "train")
    with (Ok (os_path_join (os_path_join [] "split_samples") "train")).
  apply preserves_bind_lift; try assumption. intros td [= <-].
  apply preserves_for_each; try assumption. intros i _.
  apply preserves_bind_lift; try assumption. intros src _.
  apply copy_listing.
  - apply below_splits_differs; [reflexivity | exact Hd].
  - rewrite dirname_join. apply below_splits_differs; [reflexivity | exact Hd].
Qed.

Lemma augmented_not_target (c name s' c' name' : string) :
  os_path_join (augmented_dir c) name <> os_path_join (split_dir s' c') name'.
Proof.
  unfold augmented_dir, class_dir, split_dir, os_path_join. cbn [app].
  intros H. apply (f_equal (@List.length string)) in H. discriminate H.
Qed.

(** The augmented copies of one class. *)
Lemma copy_augmented_class_places (cfg : settings) (class_type : string) (w w' : world) :
  In class_type class_types ->
  split_dirs_ready (disk w) ->
  copy_augmented_class cfg main_paths class_type w = (w', Ok tt) ->
  (forall aug,
     In aug (glob_list (disk w) (augmented_dir class_type) (data_pattern cfg)) ->
     exists data,
       lookup (disk w) aug = Some (File data)
       /\ lookup (disk w') (os_path_join (split_dir "train" class_type)
                                         (os_path_basename aug))
          = Some (File data))
  /\ (forall p, (forall name, p <> os_path_join (split_dir "train" class_type) name) ->
                lookup (disk w') p = lookup (disk w) p).
Proof.
  intros Hc Hready H.
  assert (Hrun : copy_all (split_dir "train" class_type)
                   (glob_list (disk w) (augmented_dir class_type) (data_pattern cfg)) w
                 = (w', Ok tt)).
  { rewrite <- H. unfold copy_augmented_class, augmented_dir.
    rewrite (main_paths_class class_type Hc).
    set (names := glob_list (disk w) _ _).
    transitivity (copy_range names 0 (len names) (split_dir "train" class_type) w);
      [ | reflexivity].
    rewrite copy_range_slice by (unfold len; lia).
    rewrite Z.sub_0_r. cbn [Z.to_nat skipn]. unfold len.
    now rewrite Nat2Z.id, firstn_all. }
  clear H.
  destruct (copy_all_ok _ _ _ _ (ready_stat _ "train" class_type Hready
                                   (or_introl eq_refl) Hc)
              (split_dir_not_nil _ _) Hrun) as (_ & _ & Hframe & Hrest).
  destruct Hrest as [Hfiles Hcontent].
  { intros s s' Hs Hs'. apply glob_list_children in Hs. destruct Hs as [a ->].
    apply augmented_not_target. }
  split.
  - intros aug Haug. destruct (Hfiles aug Haug) as [data Hdata].
    exists data. split.
    + now apply stat_file_lookup in Hdata.
    + apply Hcontent; try assumption. apply glob_list_basenames_NoDup.
  - intros p Hp. apply Hframe. intros s _. apply Hp.
Qed.

Lemma augmented_dir_not_nil (class_type : string) : augmented_dir class_type <> [].
Proof. discriminate. Qed.

Lemma augmented_dir_not_below_splits (class_type : string) :
  In class_type class_types ->
  is_under ["split_samples"%string] (augmented_dir class_type) = false.
Proof. intros [<- | [<- | []]]; reflexivity. Qed.

(** The augmented copies of both classes. *)
Lemma copy_augmented_places (cfg : settings) (w0 w1 : world) :
  split_dirs_ready (disk w0) ->
  copy_augmented_data_to_train cfg main_paths w0 = (w1, Ok tt) ->
  forall class_type aug,
    In class_type class_types ->
    In aug (glob_list (disk w0) (augmented_dir class_type) (data_pattern cfg)) ->
    exists data,
      lookup (disk w0) aug = Some (File data)
      /\ lookup (disk w1) (os_path_join (split_dir "train" class_type)
                                        (os_path_basename aug))
         = Some (File data).
Proof.
  intros Hready H. unfold copy_augmented_data_to_train, class_types in H.
  apply for_each_cons_ok in H. destruct H as (wb & Hb & H).
  apply for_each_cons_ok in H. destruct H as (wm & Hm & H).
  apply for_each_nil_ok in H. subst wm.
  destruct (copy_augmented_class_places cfg _ _ _ (or_introl eq_refl) Hready Hb)
    as (Cb & Fb).
  destruct (copy_augmented_class_effect cfg _ _ _ (or_introl eq_refl) Hready Hb)
    as (Hready_b & _).
  destruct (copy_augmented_class_places cfg _ _ _ (or_intror (or_introl eq_refl))
              Hready_b Hm) as (Cm & Fm).
  intros c aug [<- | [<- | []]] Haug.
  - destruct (Cb aug Haug) as (data & Hsrc & Hdst).
    exists data. split; [exact Hsrc | ].
    rewrite Fm; [exact Hdst | ].
    intros name'. apply join_neq_dirs, split_dirs_of_classes. discriminate.
  - assert (Hsame : glob_list (disk wb) (augmented_dir "malign") (data_pattern cfg)
                    = glob_list (disk w0) (augmented_dir "malign") (data_pattern cfg)).
    { unfold glob_list, listdir.
      rewrite !stat_nonempty by apply augmented_dir_not_nil.
      rewrite Fb.
      - rewrite (copy_augmented_class_listing cfg "benign" (augmented_dir "malign")
                   (or_introl eq_refl) eq_refl w0 wb (Ok tt) Hb).
        reflexivity.
      - intros name H. apply (f_equal (@List.length string)) in H. discriminate H. }
    rewrite <- Hsame in Haug.
    destruct (Cm aug Haug) as (data & Hsrc & Hdst).
    exists data. split; [ | exact Hdst].
    rewrite <- Hsrc. symmetry. apply Fb.
    apply glob_list_children in Haug. destruct Haug as [a ->].
    intros name'. apply augmented_not_target.
Qed.

(** C5. In a completed run with the augmented stage switched on, started
    on a disk where no split folder is a plain file, the stages follow one
    another as: set-up, augmented copies, split copies, manifests; the
    journal of the augmented stage holds nothing but copies from an
    [augmented] folder into the train folder of its class, that of the
    split stage nothing but copies into split folders. When the augmented
    stage has ended, every listed augmented file has its content in the
    train folder of its class, under its own name. When the run has ended,
    every sample a copy loop of the split stage took has its content in
    the split folder of that loop, under its own name. So a sample that
    went to train under the name of an augmented file has replaced it: the
    file left is the one from the class folder. *)
Theorem main_copy_overwrites_augmented (cfg : settings) (w w' : world) :
  INCLUDE_AUGMENTED_DATA_IN_TRAIN cfg = true ->
  tidy (disk w) ->
  main cfg w = (w', Ok tt) ->
  exists w0 w1 w2 aug_evs main_evs csv_evs,
    before_copies cfg w = (w0, Ok tt)
    /\ copy_augmented_data_to_train cfg main_paths w0 = (w1, Ok tt)
    /\ split_data cfg main_paths w1 = (w2, Ok tt)
    /\ generate_csv_files cfg main_paths w2 = (w', Ok tt)
    /\ journal w' = journal w0 ++ aug_evs ++ main_evs ++ csv_evs
    /\ journal w1 = journal w0 ++ aug_evs
    /\ Forall augmented_copy aug_evs
    /\ Forall split_copy main_evs
    /\ Forall (event_below [["code"%string]]) csv_evs
    /\ (forall class_type aug,
          In class_type class_types ->
          In aug (glob_list (disk w0) (augmented_dir class_type) (data_pattern cfg)) ->
          exists data,
            lookup (disk w0) aug = Some (File data)
            /\ lookup (disk w1) (os_path_join (split_dir "train" class_type)
                                              (os_path_basename aug))
               = Some (File data))
    /\ (forall class_type split_type src,
          In class_type class_types ->
          visits cfg split_type class_type (class_start cfg class_type w1) src ->
          exists data,
            lookup (disk w1) src = Some (File data)
            /\ lookup (disk w') (os_path_join (split_dir split_type class_type)
                                              (os_path_basename src))
               = Some (File data)).
Proof.
  intros Hinc Htidy Hmain.
  destruct (main_stages cfg w w' Hmain) as (w0 & w1 & w2 & H0 & H1 & H2 & H3).
  rewrite Hinc in H1.
  pose proof (before_copies_ready cfg w w0 Htidy H0) as Hready0.
  destruct (copy_augmented_effect cfg w0 w1 Hready0 H1) as (Hready1 & aug_evs & J1 & F1).
  destruct (split_data_confined cfg w1 w2 (Ok tt) H2) as (_ & _ & main_evs & J2 & F2).
  destruct (generate_csv_files_below_code cfg w2 w' (Ok tt) H3)
    as (Hframe & _ & csv_evs & J3 & F3).
  exists w0, w1, w2, aug_evs, main_evs, csv_evs.
  repeat (split; [assumption | ]).
  split; [now rewrite J3, J2, J1, <- !app_assoc | ].
  repeat (split; [assumption | ]).
  split.
  - now apply copy_augmented_places.
  - intros c s src Hc Hv.
    destruct (split_data_places cfg w1 w2 Hready1 H2 c s src Hc Hv)
      as (data & Hsrc & Hdst).
    exists data. split; [exact Hsrc | ].
    rewrite Hframe; [exact Hdst | apply split_target_outside_code].
Qed.

Lemma main_copy_overwrites_augmented_witness :
  exists w1 w',
    main shipped_settings ready_world = (w', Ok tt)
    /\ lookup (disk w1) ["split_samples"; "train"; "benign"; "a.png"]%string
       = Some (File "a-augmented")
    /\ lookup (disk w') ["split_samples"; "train"; "benign"; "a.png"]%string
       = Some (File "a").
Proof.
  assert (Hrun : main shipped_settings ready_world
                 = (fst (main shipped_settings ready_world), Ok tt)).
  { vm_compute. reflexivity. }
  assert (Htidy : tidy (disk ready_world)).
  { intros s c [<- | [<- | [<- | []]]] [<- | [<- | []]]; right; reflexivity. }
  destruct (main_copy_overwrites_augmented shipped_settings ready_world _
              eq_refl Htidy Hrun)
    as (w0 & w1 & w2 & aug_evs & main_evs & csv_evs & H0 & H1 & _ & _ & _ & _ & _
        & _ & _ & Haug & Hmain).
  pose proof (f_equal fst H0) as E0.
  change (fst (w0, Ok tt)) with w0 in E0.
  subst w0.
  pose proof (f_equal fst H1) as E1.
  change (fst (w1, Ok tt)) with w1 in E1.
  subst w1.
  destruct (Haug "benign"%string ["all_benign"; "augmented"; "a.png"]%string)
    as (d1 & Hs1 & Hd1).
  { cbn. tauto. }
  { vm_compute. left. reflexivity. }
  vm_compute in Hs1. injection Hs1 as <-.
  destruct (Hmain "benign"%string "train"%string ["all_benign"; "a.png"]%string)
    as (d2 & Hs2 & Hd2).
  { cbn. tauto. }
  { exists {| at_train := 2; at_test := 0; at_validation := 1 |}, 0, 2, 1.
    split; [vm_compute; reflexivity | ].
    split; [reflexivity | ]. split; [reflexivity | ].
    split; [vm_compute; tauto | ].
    vm_compute. reflexivity. }
  vm_compute in Hs2. injection Hs2 as <-.
  exists (fst (copy_augmented_data_to_train shipped_settings main_paths
                (fst (before_copies shipped_settings ready_world)))),
         (fst (main shipped_settings ready_world)).
  exact (conj Hrun (conj Hd1 Hd2)).
Defined.
